(** * The publish-readiness scanner: a shallow embedding of
      [scripts/check_project.py] and the properties of its detection,
      location, rule-set and aggregation code. *)

From Stdlib Require Import String Ascii List ZArith NArith Arith Bool Lia.
From Stdlib Require Import Numbers.DecimalString.
Import ListNotations.
Set Warnings "-register-all".
Open Scope string_scope.
Open Scope list_scope.

Infix "+s+" := String.append (at level 60, right associativity).

(** ** Text

    A Python [str] is modelled as a sequence of code points below 256, one
    [ascii] each.  The character classes below are Python's classes
    restricted to that range. *)
Module Text.

Definition code (c : ascii) : nat := nat_of_ascii c.

Definition between (lo hi : nat) (c : ascii) : bool :=
  Nat.leb lo (code c) && Nat.leb (code c) hi.

(** [str.isspace] and the regex class [\s]. *)
Definition isspace (c : ascii) : bool :=
  between 9 13 c || between 28 32 c || Nat.eqb (code c) 133 || Nat.eqb (code c) 160.

(** The regex class [\d]. *)
Definition isdigit (c : ascii) : bool := between 48 57 c.

Definition isupper (c : ascii) : bool :=
  between 65 90 c || (between 192 222 c && negb (Nat.eqb (code c) 215)).

Definition lower_char (c : ascii) : ascii :=
  if isupper c then ascii_of_nat (code c + 32) else c.

Definition upper_ascii (c : ascii) : ascii :=
  if between 97 122 c then ascii_of_nat (code c - 32) else c.

(** [str.lower]. *)
Fixpoint lower (s : string) : string :=
  match s with
  | EmptyString => EmptyString
  | String c s' => String (lower_char c) (lower s')
  end.

Fixpoint lstrip (s : string) : string :=
  match s with
  | EmptyString => EmptyString
  | String c s' => if isspace c then lstrip s' else s
  end.

Fixpoint rstrip (s : string) : string :=
  match s with
  | EmptyString => EmptyString
  | String c s' =>
      match rstrip s' with
      | EmptyString => if isspace c then EmptyString else String c EmptyString
      | t => String c t
      end
  end.

(** [str.strip] without argument. *)
Definition strip (s : string) : string := rstrip (lstrip s).

(** [bytes.strip] without argument strips the six ASCII blanks only. *)
Definition isspace_bytes (c : ascii) : bool :=
  between 9 13 c || Nat.eqb (code c) 32.

Fixpoint lstrip_bytes (s : string) : string :=
  match s with
  | EmptyString => EmptyString
  | String c s' => if isspace_bytes c then lstrip_bytes s' else s
  end.

Fixpoint rstrip_bytes (s : string) : string :=
  match s with
  | EmptyString => EmptyString
  | String c s' =>
      match rstrip_bytes s' with
      | EmptyString =>
          if isspace_bytes c then EmptyString else String c EmptyString
      | t => String c t
      end
  end.

Definition strip_bytes (s : string) : string := rstrip_bytes (lstrip_bytes s).

(** The double-quote character, as a one-character string. *)
Definition dquote : string := String (ascii_of_nat 34) EmptyString.

(** [needle in s] on two strings. *)
Fixpoint contains (needle s : string) : bool :=
  if String.prefix needle s then true
  else match s with
       | EmptyString => false
       | String _ s' => contains needle s'
       end.

(** [s.startswith(p)]. *)
Fixpoint starts_with (p s : string) : bool :=
  match p with
  | EmptyString => true
  | String a p' =>
      match s with
      | EmptyString => false
      | String b s' => if Ascii.eqb a b then starts_with p' s' else false
      end
  end.

(** [sep.join(l)]. *)
Definition join (sep : string) (l : list string) : string :=
  String.concat sep l.

(** [s.split(sep)] for a one-character separator. *)
Fixpoint split_on (sep : ascii) (s : string) : list string :=
  match s with
  | EmptyString => [EmptyString]
  | String c s' =>
      if Ascii.eqb c sep then EmptyString :: split_on sep s'
      else match split_on sep s' with
           | h :: t => String c h :: t
           | [] => [String c EmptyString]
           end
  end.

Fixpoint drop (n : nat) (s : string) : string :=
  match n, s with
  | S n', String _ s' => drop n' s'
  | _, _ => s
  end.

Fixpoint take (n : nat) (s : string) : string :=
  match n, s with
  | S n', String c s' => String c (take n' s')
  | _, _ => EmptyString
  end.

(** [str(n)] for a natural number. *)
Definition str_of_N (n : N) : string := NilZero.string_of_uint (N.to_uint n).

Definition digit_val (c : ascii) : N := N.of_nat (code c - 48).

(** The number a string of decimal digits denotes.  [int(s)] itself, with
    the interpreter's cap on the number of digits, is [Py.int] below. *)
Definition int_of_digits (s : string) : N :=
  fold_left (fun acc c => (10 * acc + digit_val c)%N) (list_ascii_of_string s) 0%N.

End Text.

(** ** Regular expressions

    The patterns of the scanner use literals, classes, alternation, greedy
    repetition, an end-of-line assertion and one capturing group.  [ends r s]
    lists the lengths of the prefixes of [s] that [r] matches, in the order
    in which a backtracking matcher tries them, so its head is the match the
    [re] module reports. *)
Module Re.

Inductive regex : Type :=
| Eps
| Chr (p : ascii -> bool)
| Cat (r1 r2 : regex)
| Alt (r1 r2 : regex)
| Star (r : regex)
| Eol.

(** Greedy iteration of a matcher; an iteration that consumes nothing is
    not repeated.  [fuel] bounds the number of iterations. *)
Fixpoint ends_star (step : string -> list nat) (fuel : nat) (s : string)
  : list nat :=
  match fuel with
  | O => [0]
  | S fuel' =>
      flat_map
        (fun n =>
           match n with
           | O => []
           | S _ => map (Nat.add n) (ends_star step fuel' (Text.drop n s))
           end)
        (step s)
      ++ [0]
  end.

Fixpoint ends (r : regex) (s : string) : list nat :=
  match r with
  | Eps => [0]
  | Chr p =>
      match s with
      | String c _ => if p c then [1] else []
      | EmptyString => []
      end
  | Cat r1 r2 =>
      flat_map (fun n => map (Nat.add n) (ends r2 (Text.drop n s))) (ends r1 s)
  | Alt r1 r2 => ends r1 s ++ ends r2 s
  | Star r' => ends_star (ends r') (String.length s) s
  | Eol =>
      match s with
      | EmptyString => [0]
      | String c _ => if Nat.eqb (Text.code c) 10 then [0] else []
      end
  end.

Definition matches_here (r : regex) (s : string) : bool :=
  match ends r s with [] => false | _ :: _ => true end.

(** [re.search(r, s)] as a truth value. *)
Fixpoint search (r : regex) (s : string) : bool :=
  if matches_here r s then true
  else match s with
       | EmptyString => false
       | String _ s' => search r s'
       end.

(** The text of group 1 for a pattern [pre (grp) post] matched at the head
    of [s]: first choice of [pre], then of [grp], for which [post] matches. *)
Definition first_some {A B : Type} (f : A -> option B) (l : list A) : option B :=
  fold_right (fun a acc => match f a with Some b => Some b | None => acc end) None l.

Definition group_here (pre grp post : regex) (s : string) : option string :=
  first_some
    (fun n1 =>
       first_some
         (fun n2 =>
            if matches_here post (Text.drop (n1 + n2) s)
            then Some (Text.take n2 (Text.drop n1 s))
            else None)
         (ends grp (Text.drop n1 s)))
    (ends pre s).

(** [re.search(pre (grp) post, s).group(1)], [None] when nothing matches. *)
Fixpoint search_group (pre grp post : regex) (s : string) : option string :=
  match group_here pre grp post s with
  | Some g => Some g
  | None =>
      match s with
      | EmptyString => None
      | String _ s' => search_group pre grp post s'
      end
  end.

(** The same with the pattern anchored by [^] under [re.MULTILINE]:
    a match starts at the beginning of the text or after a newline.
    [bol] tells whether the head of [s] is such a position. *)
Fixpoint search_group_bol (bol : bool) (pre grp post : regex) (s : string)
  : option string :=
  match (if bol then group_here pre grp post s else None) with
  | Some g => Some g
  | None =>
      match s with
      | EmptyString => None
      | String c s' => search_group_bol (Nat.eqb (Text.code c) 10) pre grp post s'
      end
  end.

(** Pattern combinators. *)
Definition chr (c : ascii) : regex := Chr (Ascii.eqb c).

(** A literal character under [(?i)]. *)
Definition chr_i (c : ascii) : regex :=
  Chr (fun x => Ascii.eqb x (Text.lower_char c) || Ascii.eqb x (Text.upper_ascii c)).

Fixpoint lit (s : string) : regex :=
  match s with
  | EmptyString => Eps
  | String c s' => Cat (chr c) (lit s')
  end.

Fixpoint lit_i (s : string) : regex :=
  match s with
  | EmptyString => Eps
  | String c s' => Cat (chr_i c) (lit_i s')
  end.

(** [[...]] over the characters of [s]. *)
Definition one_of (s : string) : regex :=
  Chr (fun x => existsb (Ascii.eqb x) (list_ascii_of_string s)).

Definition opt (r : regex) : regex := Alt r Eps.
Definition plus (r : regex) : regex := Cat r (Star r).

Fixpoint times (n : nat) (r : regex) : regex :=
  match n with
  | O => Eps
  | S n' => Cat r (times n' r)
  end.

(** [r{n,}]. *)
Definition at_least (n : nat) (r : regex) : regex := Cat (times n r) (Star r).

Definition space : regex := Chr Text.isspace.
Definition digit : regex := Chr Text.isdigit.
Definition alnum : regex :=
  Chr (fun x => Text.between 97 122 x || Text.between 65 90 x || Text.between 48 57 x).
(** [.] without [re.DOTALL]. *)
Definition dot : regex := Chr (fun x => negb (Nat.eqb (Text.code x) 10)).

End Re.

(** ** Python values and exceptions *)
Module Py.

(** The exception classes the scanner meets.  [JSONDecodeError] and
    [UnicodeDecodeError] are subclasses of [ValueError], which stands here
    for a [ValueError] that is neither; none of the three is an [OSError];
    [ParseError] is ElementTree's; [InvalidFileException] is plistlib's. *)
Inductive exn : Type :=
| OSError
| UnicodeDecodeError
| JSONDecodeError
| ParseError
| InvalidFileException
| AttributeError
| TypeError
| ValueError.

Inductive result (A : Type) : Type :=
| Ok (a : A)
| Raise (e : exn).
Arguments Ok {A} a.
Arguments Raise {A} e.

Definition rbind {A B : Type} (r : result A) (k : A -> result B) : result B :=
  match r with
  | Ok a => k a
  | Raise e => Raise e
  end.

(** [sys.get_int_max_str_digits()], at its default. *)
Definition max_str_digits : nat := 4300.

(** [int(s)] on a string of decimal digits: the conversion is refused with
    [ValueError] when the string has more digits than the cap. *)
Definition int (s : string) : result N :=
  if Nat.ltb max_str_digits (String.length s)
  then Raise ValueError
  else Ok (Text.int_of_digits s).

(** What [json.loads] and [plistlib.load] return.  A float is kept as a
    mantissa and a binary exponent; only its being zero is observed. *)
Inductive value : Type :=
| VNone
| VBool (b : bool)
| VInt (z : Z)
| VFloat (m e : Z)
| VStr (s : string)
| VBytes (b : string)
| VDate (stamp : Z)
| VList (l : list value)
| VDict (d : list (string * value)).

(** [bool(v)]. *)
Definition truthy (v : value) : bool :=
  match v with
  | VNone => false
  | VBool b => b
  | VInt z => negb (Z.eqb z 0)
  | VFloat m _ => negb (Z.eqb m 0)
  | VStr s => negb (String.eqb s EmptyString)
  | VBytes b => negb (String.eqb b EmptyString)
  | VDate _ => true
  | VList l => match l with [] => false | _ :: _ => true end
  | VDict d => match d with [] => false | _ :: _ => true end
  end.

Fixpoint lookup (k : string) (d : list (string * value)) : option value :=
  match d with
  | [] => None
  | (k', v) :: d' => if String.eqb k k' then Some v else lookup k d'
  end.

Definition has_key (k : string) (d : list (string * value)) : bool :=
  match lookup k d with Some _ => true | None => false end.

(** [d[k] = v]: replaced in place, or appended. *)
Fixpoint dict_set (k : string) (v : value) (d : list (string * value))
  : list (string * value) :=
  match d with
  | [] => [(k, v)]
  | (k', v') :: d' =>
      if String.eqb k k' then (k, v) :: d' else (k', v') :: dict_set k v d'
  end.

Definition dict_update (d extra : list (string * value)) : list (string * value) :=
  fold_left (fun acc kv => dict_set (fst kv) (snd kv) acc) extra d.

Definition dict_remove (k : string) (d : list (string * value))
  : list (string * value) :=
  filter (fun kv => negb (String.eqb k (fst kv))) d.

(** [v.get(k, default)]: only a dict has the method. *)
Definition get (v : value) (k : string) (default : value) : result value :=
  match v with
  | VDict d => Ok (match lookup k d with Some x => x | None => default end)
  | _ => Raise AttributeError
  end.

(** The operand of [**] in a dict display must be a mapping. *)
Definition as_mapping (v : value) : result (list (string * value)) :=
  match v with
  | VDict d => Ok d
  | _ => Raise TypeError
  end.

Definition is_str (s : string) (v : value) : bool :=
  match v with
  | VStr s' => String.eqb s s'
  | _ => false
  end.

(** [s in v] for a string [s]. *)
Definition contains_str (s : string) (v : value) : result bool :=
  match v with
  | VStr t => Ok (Text.contains s t)
  | VList l => Ok (existsb (is_str s) l)
  | VDict d => Ok (has_key s d)
  | _ => Raise TypeError
  end.

(** [iter(v)] in a [for] or a generator expression. *)
Definition iterate (v : value) : result (list value) :=
  match v with
  | VList l => Ok l
  | VDict d => Ok (map (fun kv => VStr (fst kv)) d)
  | VStr s => Ok (map (fun c => VStr (String c EmptyString)) (list_ascii_of_string s))
  | VBytes b => Ok (map (fun c => VInt (Z.of_nat (Text.code c))) (list_ascii_of_string b))
  | _ => Raise TypeError
  end.

End Py.

Notation "x <- r ;; k" := (Py.rbind r (fun x => k))
  (at level 61, r at next level, right associativity).

(** ** The scanned project

    The scanner only reads.  What it can observe of the directory it is
    given, and of the parsers it calls, is gathered in one record; paths are
    lists of segments below the resolved root.

    The record holds the answers of a run in which every probe answers:
    [exists] and [glob] return, a read returns text or fails with one of
    the two errors below, and a parser returns a document or rejects it
    with its own error.  A probe the operating system stops (a directory
    that may not be searched) and a parser that gives up with an error of
    another class (the recursion limit on a deeply nested document) are
    not in the record, and no statement of this file is about such a
    run. *)
Definition path : Type := list string.

(** An XML element as ElementTree presents it. *)
Inductive element : Type :=
| Element (tag : string) (attrs : list (string * string)) (children : list element).

(** Reading a file as text: the read fails with [OSError], or the bytes are
    not valid in the default encoding ([lossy] is what [errors="ignore"]
    keeps of them), or the file is text. *)
Inductive file_state : Type :=
| Unreadable
| Undecodable (lossy : string)
| Readable (text : string).

(** [ET.parse]: the read fails, the document is not well-formed, or a tree. *)
Inductive xml_state : Type :=
| XUnreadable
| XMalformed
| XDoc (root : element).

Record Env : Type := {
  (** [str(root)], absolute and resolved *)
  root_str : string;
  (** [root.is_dir()] *)
  root_is_dir : bool;
  (** [p.exists()] *)
  exists_ : path -> bool;
  (** [d.glob(pattern)], in discovery order *)
  glob : path -> string -> list path;
  file : path -> file_state;
  (** [plistlib.load] on the opened file *)
  plist_load : path -> Py.result Py.value;
  xml : path -> xml_state;
  (** the JSON parser, [None] on a document it rejects *)
  json_parse : string -> option Py.value;
  (** [str(v)] on values other than strings, and [str(e)] on exceptions *)
  py_str : Py.value -> string;
  exn_str : Py.exn -> string
}.

Module Fs.
Import Py.

(** [p.read_text()] *)
Definition read_text (env : Env) (p : path) : result string :=
  match file env p with
  | Unreadable => Raise OSError
  | Undecodable _ => Raise UnicodeDecodeError
  | Readable s => Ok s
  end.

(** [p.read_text(errors="ignore")] *)
Definition read_text_ignore (env : Env) (p : path) : result string :=
  match file env p with
  | Unreadable => Raise OSError
  | Undecodable s => Ok s
  | Readable s => Ok s
  end.

(** [json.loads] *)
Definition json_loads (env : Env) (s : string) : result value :=
  match json_parse env s with
  | Some v => Ok v
  | None => Raise JSONDecodeError
  end.

(** [ET.parse(p).getroot()] *)
Definition et_parse (env : Env) (p : path) : result element :=
  match xml env p with
  | XUnreadable => Raise OSError
  | XMalformed => Raise ParseError
  | XDoc e => Ok e
  end.

(** [p.relative_to(root)], as text *)
Definition rel (p : path) : string := Text.join "/" p.

(** [str(p)] *)
Definition path_str (env : Env) (p : path) : string :=
  match p with
  | [] => root_str env
  | _ :: _ =>
      if String.eqb (root_str env) "/" then "/" +s+ rel p
      else root_str env +s+ "/" +s+ rel p
  end.

(** [p.name] *)
Definition name (p : path) : string := last p EmptyString.

(** An f-string field. *)
Definition fmt (env : Env) (v : value) : string :=
  match v with
  | VStr s => s
  | _ => py_str env v
  end.

End Fs.

(** ** Findings and the [issues] list of a check *)
Record Finding : Type := {
  platform : string;
  category : string;
  message : string;
  severity : string
}.

(** A check appends to its local [issues] list, never reads it, and may
    raise: a check in progress is what it has appended, with its result or
    the exception raised.  What was appended before an exception stays, and
    a handler inside the check goes on appending. *)
Module Check.
Import Py.

Definition M (A : Type) : Type := (list Finding * result A)%type.

Definition ret {A : Type} (a : A) : M A := ([], Ok a).

Definition bind {A B : Type} (m : M A) (k : A -> M B) : M B :=
  match m with
  | (out, Ok a) => let (out', r) := k a in (out ++ out', r)
  | (out, Raise e) => (out, Raise e)
  end.

Definition lift {A : Type} (r : result A) : M A := ([], r).

(** [issues.append(f)] *)
Definition emit (f : Finding) : M unit := ([f], Ok tt).

(** [try: body  except <handled> as e: handler(e)] *)
Definition try_except (body : M unit) (handled : exn -> bool)
           (handler : exn -> M unit) : M unit :=
  match body with
  | (out, Raise e) =>
      if handled e then let (out', r) := handler e in (out ++ out', r)
      else (out, Raise e)
  | done => done
  end.

(** [return issues] *)
Definition run (m : M unit) : result (list Finding) :=
  match m with
  | (issues, Ok _) => Ok issues
  | (_, Raise e) => Raise e
  end.

(** The three local helpers every check defines. *)
Definition warn_as (pf cat msg sev : string) : M unit :=
  emit {| platform := pf; category := cat; message := msg; severity := sev |}.
Definition warn (pf cat msg : string) : M unit := warn_as pf cat msg "warning".
Definition error (pf cat msg : string) : M unit := warn_as pf cat msg "error".
Definition ok (pf cat msg : string) : M unit :=
  emit {| platform := pf; category := cat; message := msg; severity := "pass" |}.

Definition when (b : bool) (m : M unit) : M unit := if b then m else ret tt.

End Check.

Notation "x <~ m ;; k" := (Check.bind m (fun x => k))
  (at level 61, m at next level, right associativity).
Notation "m >> k" := (Check.bind m (fun _ => k))
  (at level 61, right associativity).

(** ** The scanner *)
Module Scanner.
Import Py Fs Check.

Record project : Type := {
  framework : string;
  platforms : list string
}.

Definition nonempty {A : Type} (l : list A) : bool :=
  match l with [] => false | _ :: _ => true end.

(** The two [if (root / d).exists(): platforms.append(d)] of the
    cross-platform branches. *)
Definition platform_dirs (env : Env) : list string :=
  (if exists_ env ["ios"] then ["ios"] else [])
  ++ (if exists_ env ["android"] then ["android"] else []).

(** The body of the [try] in [detect_project_type]: whether the package
    descriptor names React Native or Expo. *)
Definition package_is_react_native (env : Env) : result bool :=
  text <- read_text env ["package.json"] ;;
  pkg <- json_loads env text ;;
  d1 <- get pkg "dependencies" (VDict []) ;;
  m1 <- as_mapping d1 ;;
  d2 <- get pkg "devDependencies" (VDict []) ;;
  m2 <- as_mapping d2 ;;
  let deps := dict_update m1 m2 in
  Ok (has_key "react-native" deps || has_key "expo" deps).

Definition caught_json_os (e : exn) : bool :=
  match e with
  | JSONDecodeError | OSError => true
  | _ => false
  end.

Definition native_platforms (env : Env) : list string :=
  let xcodeproj := glob env [] "*.xcodeproj" ++ glob env [] "*.xcworkspace" in
  (if nonempty xcodeproj || exists_ env ["ios"] then ["ios"] else [])
  ++ (if exists_ env ["app"; "build.gradle"]
         || exists_ env ["app"; "build.gradle.kts"]
      then ["android"]
      else if exists_ env ["android"; "app"; "build.gradle"]
              || exists_ env ["android"; "app"; "build.gradle.kts"]
      then ["android"]
      else []).

Definition detect_project_type (env : Env) : result project :=
  if exists_ env ["pubspec.yaml"] && exists_ env ["lib"] then
    Ok {| framework := "flutter"; platforms := platform_dirs env |}
  else
    let native := Ok {| framework := "native"; platforms := native_platforms env |} in
    if exists_ env ["package.json"] then
      match package_is_react_native env with
      | Ok true =>
          Ok {| framework := "react-native"; platforms := platform_dirs env |}
      | Ok false => native
      | Raise e => if caught_json_os e then native else Raise e
      end
    else native.

(** *** Locating the artifacts *)

Definition mentions (env : Env) (word : string) (p : path) : bool :=
  Text.contains word (path_str env p).

Definition first_of {A : Type} (l : list A) : option A :=
  match l with
  | x :: _ => Some x
  | [] => None
  end.

Definition info_plist_candidates : list path :=
  [ ["ios"; "Runner"; "Info.plist"]; ["Info.plist"] ].

Definition find_info_plist (env : Env) : option path :=
  match find (exists_ env) info_plist_candidates with
  | Some p => Some p
  | None =>
      let plists := glob env [] "**/Info.plist" in
      match find (fun p => negb (mentions env "Pods" p)
                           && negb (mentions env "build" p)
                           && negb (mentions env "DerivedData" p)) plists with
      | Some p => Some p
      | None => first_of plists
      end
  end.

Definition android_manifest_candidates : list path :=
  [ ["android"; "app"; "src"; "main"; "AndroidManifest.xml"];
    ["app"; "src"; "main"; "AndroidManifest.xml"] ].

Definition find_android_manifest (env : Env) : option path :=
  match find (exists_ env) android_manifest_candidates with
  | Some p => Some p
  | None =>
      let manifests := glob env [] "**/src/main/AndroidManifest.xml" in
      match find (fun m => negb (mentions env "build" m)) manifests with
      | Some m => Some m
      | None => first_of manifests
      end
  end.

Definition build_gradle_candidates : list path :=
  [ ["android"; "app"; "build.gradle"];
    ["android"; "app"; "build.gradle.kts"];
    ["app"; "build.gradle"];
    ["app"; "build.gradle.kts"] ].

Definition find_build_gradle (env : Env) : option path :=
  find (exists_ env) build_gradle_candidates.

(** *** The secret patterns and the scan of source files *)

Definition key_names : Re.regex :=
  Re.Alt (Re.Cat (Re.lit_i "api") (Re.Cat (Re.opt (Re.one_of "_-")) (Re.lit_i "key")))
    (Re.Alt (Re.Cat (Re.lit_i "secret") (Re.Cat (Re.opt (Re.one_of "_-")) (Re.lit_i "key")))
       (Re.lit_i "password")).

Definition not_dquote : Re.regex :=
  Re.Chr (fun c => negb (Nat.eqb (Text.code c) 34)).

Definition quoted_8 : Re.regex :=
  Re.Cat (Re.lit Text.dquote) (Re.Cat (Re.at_least 8 not_dquote) (Re.lit Text.dquote)).

(** [(?i)(api[_-]?key|secret[_-]?key|password)\s*<sep>\s*Q[^Q]{8,}Q],
    with the double quote written Q and [<sep>] the class of separators. *)
Definition assignment_pattern (sep : string) : Re.regex :=
  Re.Cat key_names
    (Re.Cat (Re.Star Re.space)
       (Re.Cat (Re.one_of sep) (Re.Cat (Re.Star Re.space) quoted_8))).

(** [sk[-_](?:live|test)_[a-zA-Z0-9]{20,}] *)
Definition stripe_pattern : Re.regex :=
  Re.Cat (Re.lit "sk")
    (Re.Cat (Re.one_of "-_")
       (Re.Cat (Re.Alt (Re.lit "live") (Re.lit "test"))
          (Re.Cat (Re.lit "_") (Re.at_least 20 Re.alnum)))).

(** [AIza[0-9A-Za-z\-_]{35}] *)
Definition google_pattern : Re.regex :=
  Re.Cat (Re.lit "AIza")
    (Re.times 35 (Re.Alt Re.alnum (Re.one_of "-_"))).

Definition secret_patterns (sep : string) : list (Re.regex * string) :=
  [ (assignment_pattern sep, "Possible hardcoded API key/secret");
    (stripe_pattern, "Possible Stripe secret key");
    (google_pattern, "Possible Google API key") ].

Definition caught_os (e : exn) : bool :=
  match e with
  | OSError => true
  | _ => false
  end.

(** [for pattern, desc in secret_patterns: if re.search(...): warn; break] *)
Fixpoint scan_patterns (pf : string) (patterns : list (Re.regex * string))
         (content : string) (f : path) : M unit :=
  match patterns with
  | [] => ret tt
  | (pattern, desc) :: rest =>
      if Re.search pattern content
      then warn pf "security" (desc +s+ " found in " +s+ rel f)
      else scan_patterns pf rest content f
  end.

Definition scan_file (env : Env) (pf : string)
           (patterns : list (Re.regex * string)) (f : path) : M unit :=
  try_except
    (content <~ lift (read_text_ignore env f) ;;
     scan_patterns pf patterns content f)
    caught_os
    (fun _ => ret tt).

Section Files.
Variables (env : Env) (pf : string) (patterns : list (Re.regex * string)).

Fixpoint scan_files (files : list path) : M unit :=
  match files with
  | [] => ret tt
  | f :: rest => scan_file env pf patterns f >> scan_files rest
  end.
End Files.

(** [for f in files[:200]: ...] *)
Definition secret_scan (env : Env) (pf : string)
           (patterns : list (Re.regex * string)) (files : list path) : M unit :=
  scan_files env pf patterns (firstn 200 files).

(** *** iOS *)

Definition permission_keys : list (string * string) :=
  [ ("NSCameraUsageDescription", "Camera");
    ("NSPhotoLibraryUsageDescription", "Photo Library");
    ("NSLocationWhenInUseUsageDescription", "Location (When In Use)");
    ("NSLocationAlwaysAndWhenInUseUsageDescription", "Location (Always)");
    ("NSMicrophoneUsageDescription", "Microphone");
    ("NSContactsUsageDescription", "Contacts");
    ("NSCalendarsUsageDescription", "Calendars");
    ("NSBluetoothAlwaysUsageDescription", "Bluetooth");
    ("NSFaceIDUsageDescription", "Face ID");
    ("NSMotionUsageDescription", "Motion");
    ("NSLocalNetworkUsageDescription", "Local Network");
    ("NSSpeechRecognitionUsageDescription", "Speech Recognition");
    ("NSHealthShareUsageDescription", "Health (Read)");
    ("NSHealthUpdateUsageDescription", "Health (Write)");
    ("NSUserTrackingUsageDescription", "Tracking (ATT)") ].

(** [len(val.strip())]: text and bytes have [strip], nothing else a
    property list holds has. *)
Definition stripped_length (val : value) : result nat :=
  match val with
  | VStr s => Ok (String.length (Text.strip s))
  | VBytes b => Ok (String.length (Text.strip_bytes b))
  | _ => Raise AttributeError
  end.

Definition short_description (env : Env) (name : string) (val : value) : string :=
  name +s+ " permission description is very short: " +s+ Text.dquote
  +s+ fmt env val +s+ Text.dquote +s+ ". Apple may reject vague descriptions.".

(** [for key, name in permission_keys.items(): ...], returning
    [found_permissions]. *)
Section Permissions.
Variables (env : Env) (plist : value).

Fixpoint permission_loop (keys : list (string * string))
         (found_permissions : list string) : M (list string) :=
  match keys with
  | [] => ret found_permissions
  | (key, name) :: rest =>
      val <~ lift (get plist key VNone) ;;
      if truthy val then
        n <~ lift (stripped_length val) ;;
        if Nat.ltb n 10 then
          warn "ios" "privacy" (short_description env name val) >>
          permission_loop rest found_permissions
        else permission_loop rest (found_permissions ++ [name])
      else permission_loop rest found_permissions
  end.
End Permissions.

Definition permissions_found (found_permissions : list string) : string :=
  "Permission descriptions found for: " +s+ Text.join ", " found_permissions.

(** The permission usage descriptions: the loop, then the one summary. *)
Definition permission_checks (env : Env) (plist : value) : M unit :=
  found_permissions <~ permission_loop env plist permission_keys [] ;;
  when (nonempty found_permissions)
       (ok "ios" "privacy" (permissions_found found_permissions)).

Definition bundle_checks (env : Env) (plist : value) : M unit :=
  bundle_id <~ lift (get plist "CFBundleIdentifier" VNone) ;;
  if truthy bundle_id then
    uses_variable <~ lift (contains_str "$(" bundle_id) ;;
    if uses_variable
    then ok "ios" "config" ("Bundle identifier uses build variable: " +s+ fmt env bundle_id)
    else ok "ios" "config" ("Bundle identifier: " +s+ fmt env bundle_id)
  else error "ios" "config" "CFBundleIdentifier missing from Info.plist".

Definition version_checks (env : Env) (plist : value) : M unit :=
  version <~ lift (get plist "CFBundleShortVersionString" VNone) ;;
  build <~ lift (get plist "CFBundleVersion" VNone) ;;
  (if truthy version
   then ok "ios" "version"
           ("Version: " +s+ fmt env version +s+ " (build " +s+ fmt env build +s+ ")")
   else error "ios" "version" "CFBundleShortVersionString missing") >>
  when (negb (truthy build))
       (error "ios" "version" "CFBundleVersion (build number) missing").

Definition ats_checks (plist : value) : M unit :=
  ats <~ lift (get plist "NSAppTransportSecurity" (VDict [])) ;;
  arbitrary <~ lift (get ats "NSAllowsArbitraryLoads" VNone) ;;
  when (truthy arbitrary)
       (warn "ios" "security"
             "NSAllowsArbitraryLoads is enabled. Apple will require justification during review.").

(** The body of the [try] once the property list is loaded. *)
Definition info_plist_checks (env : Env) (plist : value) : M unit :=
  bundle_checks env plist >>
  version_checks env plist >>
  permission_checks env plist >>
  ats_checks plist.

Definition info_plist_block (env : Env) : M unit :=
  match find_info_plist env with
  | Some plist_path =>
      ok "ios" "config" ("Info.plist found at " +s+ rel plist_path) >>
      try_except
        (plist <~ lift (plist_load env plist_path) ;;
         info_plist_checks env plist)
        (fun _ => true)
        (fun e => warn "ios" "config" ("Could not parse Info.plist: " +s+ exn_str env e))
  | None => error "ios" "config" "Info.plist not found"
  end.

Definition outside_pods_build (env : Env) (p : path) : bool :=
  negb (mentions env "Pods" p) && negb (mentions env "build" p).

Definition privacy_manifest_block (env : Env) : M unit :=
  let privacy_manifests :=
    filter (outside_pods_build env) (glob env [] "**/PrivacyInfo.xcprivacy") in
  match privacy_manifests with
  | p :: _ => ok "ios" "privacy" ("Privacy manifest found: " +s+ rel p)
  | [] => error "ios" "privacy" "PrivacyInfo.xcprivacy not found. Required since iOS 17."
  end.

(** [any(img.get("size") == "1024x1024" and img.get("filename") for img in images)] *)
Fixpoint any_1024 (images : list value) : result bool :=
  match images with
  | [] => Ok false
  | img :: rest =>
      size <- get img "size" VNone ;;
      if is_str "1024x1024" size then
        filename <- get img "filename" VNone ;;
        if truthy filename then Ok true else any_1024 rest
      else any_1024 rest
  end.

Definition icon_contents_checks (env : Env) (contents_json : path) : M unit :=
  text <~ lift (read_text env contents_json) ;;
  contents <~ lift (json_loads env text) ;;
  images <~ lift (get contents "images" (VList [])) ;;
  items <~ lift (iterate images) ;;
  has_1024 <~ lift (any_1024 items) ;;
  if has_1024
  then ok "ios" "assets" "1024x1024 App Store icon found"
  else error "ios" "assets" "Missing 1024x1024 App Store icon in AppIcon.appiconset".

Definition icon_block (env : Env) : M unit :=
  let icon_sets :=
    filter (outside_pods_build env) (glob env [] "**/AppIcon.appiconset") in
  match icon_sets with
  | icon_set :: _ =>
      let contents_json := icon_set ++ ["Contents.json"] in
      if exists_ env contents_json then
        try_except
          (icon_contents_checks env contents_json)
          caught_json_os
          (fun _ => warn "ios" "assets" "Could not parse AppIcon.appiconset/Contents.json")
      else warn "ios" "assets" "AppIcon.appiconset found but no Contents.json"
  | [] => error "ios" "assets" "AppIcon.appiconset not found"
  end.

Definition swift_files (env : Env) : list path :=
  filter (outside_pods_build env) (glob env [] "**/*.swift").

Definition ios_checks (env : Env) : M unit :=
  info_plist_block env >>
  privacy_manifest_block env >>
  icon_block env >>
  secret_scan env "ios" (secret_patterns ":=") (swift_files env).

Definition check_ios (env : Env) (framework : string) : result (list Finding) :=
  run (ios_checks env).

(** *** Android *)

(** [e.get(k)] on an element. *)
Fixpoint attribute (k : string) (attrs : list (string * string)) : option string :=
  match attrs with
  | [] => None
  | (k', v) :: rest => if String.eqb k k' then Some v else attribute k rest
  end.

Definition element_get (e : element) (k : string) : option string :=
  match e with
  | Element _ attrs _ => attribute k attrs
  end.

(** [e.findall(tag)]: the direct children with that tag. *)
Definition findall (e : element) (wanted : string) : list element :=
  match e with
  | Element _ _ children =>
      filter (fun c => match c with Element t _ _ => String.eqb t wanted end) children
  end.

Definition android_name : string :=
  "{http://schemas.android.com/apk/res/android}name".

(** The last dotted component of the [android:name] attribute, the empty
    string standing for a missing attribute. *)
Definition permission_name (perm : element) : string :=
  let perm_name :=
    match element_get perm android_name with
    | Some v => v
    | None => EmptyString
    end in
  last (Text.split_on "." perm_name) EmptyString.

Definition dangerous_perms : list string :=
  [ "ACCESS_FINE_LOCATION"; "ACCESS_COARSE_LOCATION"; "ACCESS_BACKGROUND_LOCATION";
    "CAMERA"; "RECORD_AUDIO"; "READ_CONTACTS"; "WRITE_CONTACTS";
    "READ_CALENDAR"; "WRITE_CALENDAR"; "READ_PHONE_STATE";
    "CALL_PHONE"; "READ_CALL_LOG"; "WRITE_CALL_LOG";
    "BODY_SENSORS"; "SEND_SMS"; "READ_SMS";
    "READ_EXTERNAL_STORAGE"; "WRITE_EXTERNAL_STORAGE";
    "QUERY_ALL_PACKAGES" ].

Definition mem (s : string) (l : list string) : bool := existsb (String.eqb s) l.

Definition manifest_checks (manifest_root : element) : M unit :=
  (match element_get manifest_root "package" with
   | Some package =>
       if negb (String.eqb package EmptyString)
       then ok "android" "config" ("Package name: " +s+ package)
       else warn "android" "config" "Package name not in manifest (may be set in build.gradle)"
   | None => warn "android" "config" "Package name not in manifest (may be set in build.gradle)"
   end) >>
  let permissions := map permission_name (findall manifest_root "uses-permission") in
  when (nonempty permissions)
       (ok "android" "privacy" ("Declared permissions: " +s+ Text.join ", " permissions)) >>
  let used_dangerous := filter (fun p => mem p dangerous_perms) permissions in
  when (nonempty used_dangerous)
       (warn "android" "privacy"
             ("Dangerous permissions detected: " +s+ Text.join ", " used_dangerous
              +s+ ". Ensure runtime permission requests and justification.")) >>
  when (mem "INTERNET" permissions)
       (ok "android" "config" "INTERNET permission declared").

Definition caught_parse (e : exn) : bool :=
  match e with
  | ParseError => true
  | _ => false
  end.

Definition manifest_block (env : Env) : M unit :=
  match find_android_manifest env with
  | Some manifest_path =>
      ok "android" "config" ("AndroidManifest.xml found at " +s+ rel manifest_path) >>
      try_except
        (manifest_root <~ lift (et_parse env manifest_path) ;;
         manifest_checks manifest_root)
        caught_parse
        (fun e => warn "android" "config"
                       ("Could not parse AndroidManifest.xml: " +s+ exn_str env e))
  | None => error "android" "config" "AndroidManifest.xml not found"
  end.

Definition quotes : string := Text.dquote +s+ "'".

Definition not_quote : Re.regex :=
  Re.Chr (fun c => negb (existsb (Ascii.eqb c) (list_ascii_of_string quotes))).

(** [versionName\s+[Qq]([^Qq]+)[Qq]], Q and q the two quote characters *)
Definition search_version_name (content : string) : option string :=
  Re.search_group
    (Re.Cat (Re.lit "versionName") (Re.Cat (Re.plus Re.space) (Re.one_of quotes)))
    (Re.plus not_quote)
    (Re.one_of quotes)
    content.

(** [<word>\s+(\d+)] *)
Definition search_number (word : Re.regex) (content : string) : option string :=
  Re.search_group (Re.Cat word (Re.plus Re.space)) (Re.plus Re.digit) Re.Eps content.

(** [<name>(?:Version)?\s+(\d+)] *)
Definition search_sdk (name : string) (content : string) : option string :=
  search_number (Re.Cat (Re.lit name) (Re.opt (Re.lit "Version"))) content.

(** The target SDK sub-check. *)
Definition target_sdk_check (gradle_content : string) : M unit :=
  match search_sdk "targetSdk" gradle_content with
  | Some digits =>
      sdk_val <~ lift (Py.int digits) ;;
      if (sdk_val <? 34)%N
      then warn "android" "config"
                ("targetSdkVersion is " +s+ Text.str_of_N sdk_val
                 +s+ ". Google Play requires 34+ for new apps.")
      else ok "android" "config" ("targetSdkVersion: " +s+ Text.str_of_N sdk_val)
  | None => ret tt
  end.

(** The body of the [try] once the build descriptor is read.  [min_sdk]
    and [compile_sdk] are searched for by the source and never used. *)
Definition gradle_checks (gradle_content : string) : M unit :=
  let version_match := search_version_name gradle_content in
  let version_code_match := search_number (Re.lit "versionCode") gradle_content in
  (match version_match with
   | Some g => ok "android" "version" ("versionName: " +s+ g)
   | None => ret tt
   end) >>
  (match version_code_match with
   | Some g => ok "android" "version" ("versionCode: " +s+ g)
   | None => ret tt
   end) >>
  target_sdk_check gradle_content >>
  (if Text.contains "signingConfigs" gradle_content
      && Text.contains "release" gradle_content
   then ok "android" "build" "Release signing config found"
   else warn "android" "build"
             "No release signing config found in build.gradle. Required for Play Store submission.") >>
  (if Text.contains "minifyEnabled true" gradle_content
      || Text.contains "isMinifyEnabled = true" gradle_content
   then ok "android" "build" "Code minification (R8/ProGuard) enabled"
   else warn "android" "build"
             "minifyEnabled is not set to true for release. Recommended for smaller APK and code obfuscation.").

Definition gradle_block (env : Env) : M unit :=
  match find_build_gradle env with
  | Some gradle_path =>
      ok "android" "config" ("build.gradle found at " +s+ rel gradle_path) >>
      try_except
        (gradle_content <~ lift (read_text env gradle_path) ;;
         gradle_checks gradle_content)
        caught_os
        (fun e => warn "android" "config"
                       ("Could not read build.gradle: " +s+ exn_str env e))
  | None => error "android" "config" "App-level build.gradle not found"
  end.

Definition android_icon_block (env : Env) : M unit :=
  let android_base := if exists_ env ["android"] then ["android"] else [] in
  let res_dir := android_base ++ ["app"; "src"; "main"; "res"] in
  if exists_ env res_dir then
    let mipmap_dirs := glob env res_dir "mipmap-*" in
    (if nonempty mipmap_dirs
     then ok "android" "assets"
             ("Mipmap directories found: "
              +s+ Text.str_of_N (N.of_nat (List.length mipmap_dirs)) +s+ " densities")
     else warn "android" "assets" "No mipmap directories found for app icons") >>
    let adaptive_icons := glob env res_dir "mipmap-anydpi*/**/ic_launcher.xml" in
    if nonempty adaptive_icons
    then ok "android" "assets" "Adaptive icon configured"
    else warn "android" "assets"
              "No adaptive icon found (ic_launcher.xml in mipmap-anydpi). Recommended for Android 8+."
  else warn "android" "assets" "Resource directory not found at expected path".

Definition java_kotlin_files (env : Env) : list path :=
  filter (fun f => negb (mentions env "build" f) && negb (mentions env ".gradle" f))
         (glob env [] "**/*.kt" ++ glob env [] "**/*.java").

Definition android_checks (env : Env) : M unit :=
  manifest_block env >>
  gradle_block env >>
  android_icon_block env >>
  secret_scan env "android" (secret_patterns "=") (java_kotlin_files env).

Definition check_android (env : Env) (framework : string) : result (list Finding) :=
  run (android_checks env).

(** *** Flutter *)

(** [^version:\s*(.+)$] under [re.MULTILINE] *)
Definition search_pubspec_version (content : string) : option string :=
  Re.search_group_bol true
    (Re.Cat (Re.lit "version:") (Re.Star Re.space))
    (Re.plus Re.dot)
    Re.Eol
    content.

Definition pubspec_checks (env : Env) : M unit :=
  content <~ lift (read_text env ["pubspec.yaml"]) ;;
  (match search_pubspec_version content with
   | Some g => ok "flutter" "version" ("Version in pubspec.yaml: " +s+ Text.strip g)
   | None => error "flutter" "version" "No version found in pubspec.yaml"
   end) >>
  if Text.contains "sdk:" content
  then ok "flutter" "config" "Dart SDK constraint defined"
  else warn "flutter" "config" "No Dart SDK constraint in pubspec.yaml".

Definition podfile_lock_check (env : Env) (pf : string) : M unit :=
  if exists_ env ["ios"; "Podfile.lock"]
  then ok pf "config" "ios/Podfile.lock committed"
  else when (exists_ env ["ios"])
            (warn pf "config"
                  "ios/Podfile.lock not found. Should be committed to version control.").

Definition flutter_checks (env : Env) : M unit :=
  when (exists_ env ["pubspec.yaml"]) (pubspec_checks env) >>
  podfile_lock_check env "flutter".

Definition check_flutter (env : Env) : result (list Finding) :=
  run (flutter_checks env).

(** *** React Native *)

Definition debug_pkgs : list string :=
  [ "react-native-debugger"; "reactotron-react-native"; "expo-dev-client" ].

(** [[p for p in debug_pkgs if p in deps]] *)
Fixpoint found_debug_in (deps : value) (pkgs : list string) : result (list string) :=
  match pkgs with
  | [] => Ok []
  | p :: rest =>
      here <- contains_str p deps ;;
      more <- found_debug_in deps rest ;;
      Ok (if here then p :: more else more)
  end.

Definition expo_checks (env : Env) (deps : value) : M unit :=
  expo <~ lift (get deps "expo" (VStr "detected")) ;;
  ok "react-native" "config" ("Expo SDK: " +s+ fmt env expo) >>
  if exists_ env ["app.json"] || exists_ env ["app.config.js"]
     || exists_ env ["app.config.ts"]
  then ok "react-native" "config" "App config file found"
  else error "react-native" "config" "No app.json or app.config.js found for Expo project".

Definition package_json_checks (env : Env) : M unit :=
  text <~ lift (read_text env ["package.json"]) ;;
  pkg <~ lift (json_loads env text) ;;
  deps <~ lift (get pkg "dependencies" (VDict [])) ;;
  dev_deps <~ lift (get pkg "devDependencies" (VDict [])) ;;
  rn_version <~ lift (get deps "react-native" (VStr EmptyString)) ;;
  when (truthy rn_version)
       (ok "react-native" "config" ("React Native version: " +s+ fmt env rn_version)) >>
  has_expo <~ lift (contains_str "expo" deps) ;;
  when has_expo (expo_checks env deps) >>
  found_debug <~ lift (found_debug_in deps debug_pkgs) ;;
  when (nonempty found_debug)
       (warn "react-native" "build"
             ("Debug packages in production dependencies: " +s+ Text.join ", " found_debug
              +s+ ". Move to devDependencies or remove.")) >>
  version <~ lift (get pkg "version" VNone) ;;
  when (truthy version)
       (ok "react-native" "version" ("Version in package.json: " +s+ fmt env version)).

Definition react_native_checks (env : Env) : M unit :=
  when (exists_ env ["package.json"])
       (try_except
          (package_json_checks env)
          caught_json_os
          (fun _ => warn "react-native" "config" "Could not parse package.json")) >>
  podfile_lock_check env "react-native".

Definition check_react_native (env : Env) : result (list Finding) :=
  run (react_native_checks env).

(** *** Common *)

Definition env_file_checks (env : Env) : M unit :=
  let env_files :=
    filter (fun f => negb (String.eqb (name f) ".env.example")
                     && negb (String.eqb (name f) ".env.template"))
           (glob env [] ".env*") in
  when (nonempty env_files)
       (warn "common" "security"
             ("Environment files found: " +s+ Text.join ", " (map name env_files)
              +s+ ". Ensure these are in .gitignore and not bundled in release builds.")).

Definition gitignore_checks (env : Env) : M unit :=
  if exists_ env [".gitignore"] then
    gi_content <~ lift (read_text env [".gitignore"]) ;;
    if Text.contains ".env" gi_content
    then ok "common" "security" ".env is in .gitignore"
    else warn "common" "security" ".env is NOT in .gitignore. Secrets may be committed."
  else warn "common" "security" "No .gitignore found".

Definition readme_checks (env : Env) : M unit :=
  when (exists_ env ["README.md"])
       (readme_content <~ lift (read_text_ignore env ["README.md"]) ;;
        when (Text.contains "privacy" (Text.lower readme_content))
             (ok "common" "legal" "Privacy policy referenced in README")).

Definition common_checks (env : Env) : M unit :=
  env_file_checks env >>
  gitignore_checks env >>
  readme_checks env.

Definition check_common (env : Env) : result (list Finding) :=
  run (common_checks env).

(** *** The entry point and the report *)

Record summary : Type := {
  errors : nat;
  warnings : nat;
  passes : nat
}.

Record report : Type := {
  project_root : string;
  project_type : project;
  report_summary : summary;
  issues : list Finding
}.

(** [[i for i in all_issues if i["severity"] == sev]] *)
Definition with_severity (sev : string) (all_issues : list Finding) : list Finding :=
  filter (fun i => String.eqb (severity i) sev) all_issues.

(** The scan proper: [main] from the detection of the project type on. *)
Definition scan (env : Env) : result report :=
  project <- detect_project_type env ;;
  let all_issues := [] in
  common <- check_common env ;;
  let all_issues := all_issues ++ common in
  specific <-
    (if String.eqb (framework project) "flutter" then check_flutter env
     else if String.eqb (framework project) "react-native" then check_react_native env
     else Ok []) ;;
  let all_issues := all_issues ++ specific in
  ios <-
    (if mem "ios" (platforms project) then check_ios env (framework project)
     else Ok []) ;;
  let all_issues := all_issues ++ ios in
  android <-
    (if mem "android" (platforms project) then check_android env (framework project)
     else Ok []) ;;
  let all_issues := all_issues ++ android in
  let errors := with_severity "error" all_issues in
  let warnings := with_severity "warning" all_issues in
  let passes := with_severity "pass" all_issues in
  Ok {| project_root := root_str env;
        project_type := project;
        report_summary := {| errors := List.length errors;
                             warnings := List.length warnings;
                             passes := List.length passes |};
        issues := all_issues |}.

(** How a run ends: [sys.exit(status)] before any scan, an exception
    nothing caught, or the report written out. *)
Inductive outcome : Type :=
| Exit (status : nat)
| Uncaught (e : exn)
| Done (r : report).

(** [env] is the file system seen from the resolved first argument. *)
Definition main (argv : list string) (env : Env) : outcome :=
  if Nat.ltb (List.length argv) 2 then Exit 1
  else if negb (root_is_dir env) then Exit 1
  else match scan env with
       | Ok r => Done r
       | Raise e => Uncaught e
       end.

End Scanner.

(** ** Project trees to run the scanner on *)
Module Sample.
Import Py.

Fixpoint path_eqb (p q : path) : bool :=
  match p, q with
  | [], [] => true
  | a :: p', b :: q' => String.eqb a b && path_eqb p' q'
  | _, _ => false
  end.

(** An empty directory. *)
Definition bare : Env :=
  {| root_str := "/work/app";
     root_is_dir := true;
     exists_ := fun _ => false;
     glob := fun _ _ => [];
     file := fun _ => Unreadable;
     plist_load := fun _ => Raise OSError;
     xml := fun _ => XUnreadable;
     json_parse := fun _ => None;
     py_str := fun _ => "<value>";
     exn_str := fun _ => "<exception>" |}.

Definition with_present (ps : list path) (env : Env) : Env :=
  {| root_str := root_str env;
     root_is_dir := root_is_dir env;
     exists_ := fun p => existsb (path_eqb p) ps || exists_ env p;
     glob := glob env;
     file := file env;
     plist_load := plist_load env;
     xml := xml env;
     json_parse := json_parse env;
     py_str := py_str env;
     exn_str := exn_str env |}.

Definition with_file (p : path) (st : file_state) (env : Env) : Env :=
  {| root_str := root_str env;
     root_is_dir := root_is_dir env;
     exists_ := fun q => path_eqb q p || exists_ env q;
     glob := glob env;
     file := fun q => if path_eqb q p then st else file env q;
     plist_load := plist_load env;
     xml := xml env;
     json_parse := json_parse env;
     py_str := py_str env;
     exn_str := exn_str env |}.

(** [root.glob(pattern)] finds [found]. *)
Definition with_glob (pattern : string) (found : list path) (env : Env) : Env :=
  {| root_str := root_str env;
     root_is_dir := root_is_dir env;
     exists_ := exists_ env;
     glob := fun base pat =>
               match base with
               | [] => if String.eqb pat pattern then found else glob env base pat
               | _ :: _ => glob env base pat
               end;
     file := file env;
     plist_load := plist_load env;
     xml := xml env;
     json_parse := json_parse env;
     py_str := py_str env;
     exn_str := exn_str env |}.

(** Every property list loads as [v]. *)
Definition with_plist (v : value) (env : Env) : Env :=
  {| root_str := root_str env;
     root_is_dir := root_is_dir env;
     exists_ := exists_ env;
     glob := glob env;
     file := file env;
     plist_load := fun _ => Ok v;
     xml := xml env;
     json_parse := json_parse env;
     py_str := py_str env;
     exn_str := exn_str env |}.

(** The JSON text [text] parses to [v]. *)
Definition with_json (text : string) (v : value) (env : Env) : Env :=
  {| root_str := root_str env;
     root_is_dir := root_is_dir env;
     exists_ := exists_ env;
     glob := glob env;
     file := file env;
     plist_load := plist_load env;
     xml := xml env;
     json_parse := fun s => if String.eqb s text then Some v else json_parse env s;
     py_str := py_str env;
     exn_str := exn_str env |}.

Definition newline : string := String (ascii_of_nat 10) EmptyString.

(** The Flutter project of the end-to-end scenario: a manifest with a
    version and an SDK line, [lib/], [ios/] without lock file, no
    [android/]. *)
Definition flutter_app : Env :=
  with_file ["pubspec.yaml"]
    (Readable ("name: demo" +s+ newline +s+ "version: 1.0.0+1" +s+ newline
               +s+ "environment:" +s+ newline +s+ "  sdk: ^3.0.0" +s+ newline))
    (with_present [["lib"]; ["ios"]] bare).

(** A Flutter project that also ships a React Native package descriptor. *)
Definition hybrid_app : Env :=
  with_json "{deps}"
    (VDict [("dependencies", VDict [("react-native", VStr "0.74.0")])])
    (with_file ["package.json"] (Readable "{deps}") flutter_app).

(** The same descriptor without the Flutter markers. *)
Definition react_native_app : Env :=
  with_json "{deps}"
    (VDict [("dependencies", VDict [("react-native", VStr "0.74.0")])])
    (with_file ["package.json"] (Readable "{deps}") bare).

(** A package descriptor that is valid JSON but an array. *)
Definition array_package : Env :=
  with_json "[]" (VList []) (with_file ["package.json"] (Readable "[]") bare).

(** A package descriptor whose [dependencies] is [null]. *)
Definition null_dependencies : Env :=
  with_json "{null}" (VDict [("dependencies", VNone)])
    (with_file ["package.json"] (Readable "{null}") bare).

(** A package descriptor the parser rejects. *)
Definition broken_package : Env :=
  with_file ["package.json"] (Readable "{") bare.

(** [pubspec.yaml] exists and cannot be read (a directory of that name,
    or a file without read permission). *)
Definition unreadable_pubspec : Env :=
  with_file ["pubspec.yaml"] Unreadable (with_present [["lib"]] bare).

(** [.gitignore] exists and cannot be read. *)
Definition unreadable_gitignore : Env :=
  with_file [".gitignore"] Unreadable bare.

(** The only build descriptor sits in a module the conventional paths do
    not name. *)
Definition nested_gradle : Env :=
  with_glob "**/build.gradle" [["mobile"; "build.gradle"]]
    (with_present [["mobile"; "build.gradle"]] bare).

(** Two manifests outside the conventional places; the first one lies in
    a directory whose name merely contains the letters of a denylisted
    name. *)
Definition rebuilder_tree : Env :=
  with_glob "**/Info.plist"
    [["tools"; "rebuilder"; "Info.plist"]; ["App"; "Info.plist"]]
    bare.

(** A manifest only deep inside the tree. *)
Definition deep_manifest : Env :=
  with_glob "**/Info.plist" [["vendor"; "shell"; "ios"; "Info.plist"]] bare.

(** A manifest only inside the dependency manager's directory. *)
Definition pods_only : Env :=
  with_glob "**/Info.plist" [["Pods"; "Lib"; "Info.plist"]] bare.

(** An iOS tree whose manifest loads as [plist]. *)
Definition ios_app (plist : value) : Env :=
  with_plist plist (with_present [["Info.plist"]] bare).

Definition empty_camera : value :=
  VDict [("CFBundleIdentifier", VStr "com.example.app");
         ("NSCameraUsageDescription", VStr EmptyString)].

Definition number_after_text : value :=
  VDict [("CFBundleIdentifier", VStr "com.example.app");
         ("NSCameraUsageDescription", VStr "Scan receipts with the camera");
         ("NSMicrophoneUsageDescription", VInt 5)].

Definition nine_and_ten : value :=
  VDict [("CFBundleIdentifier", VStr "com.example.app");
         ("CFBundleShortVersionString", VStr "1.0");
         ("CFBundleVersion", VStr "7");
         ("NSCameraUsageDescription", VStr "  123456789  ");
         ("NSMicrophoneUsageDescription", VStr "1234567890")].

Definition api_key_line : string :=
  "api_key = " +s+ Text.dquote +s+ "abcdefgh12" +s+ Text.dquote.

Definition two_secrets : string :=
  api_key_line +s+ newline +s+ "val k = sk_live_abcdefghijklmnopqrst".

(** One Kotlin file holding [text]. *)
Definition kotlin_app (text : string) : Env :=
  with_glob "**/*.kt" [["app"; "src"; "Keys.kt"]]
    (with_file ["app"; "src"; "Keys.kt"] (Readable text) bare).

(** One Swift file holding [text]. *)
Definition swift_app (text : string) : Env :=
  with_glob "**/*.swift" [["Sources"; "Keys.swift"]]
    (with_file ["Sources"; "Keys.swift"] (Readable text) bare).

End Sample.

(** ** The locator policy in the words of the specification *)
Module Spec.

(** Conventional paths in order; failing that, the matches of a recursive
    search with the excluded ones dropped; failing that, the first raw
    match. *)
Definition locate (present : path -> bool) (conventional raw : list path)
           (excluded : path -> bool) : option path :=
  match find present conventional with
  | Some p => Some p
  | None =>
      match filter (fun p => negb (excluded p)) raw with
      | p :: _ => Some p
      | [] => Scanner.first_of raw
      end
  end.

(** A path is excluded when one of its segments is a denylisted name. *)
Definition has_denied_segment (denied : list string) (p : path) : bool :=
  existsb (fun segment => Scanner.mem segment denied) p.

End Spec.

(** ** Predicates used in the statements *)

(** Every finding a check has appended satisfies [P]. *)
Definition emits {A : Type} (P : Finding -> Prop) (m : Check.M A) : Prop :=
  Forall P (fst m).

Definition known_severity (f : Finding) : Prop :=
  Scanner.mem (severity f) ["error"; "warning"; "pass"] = true.

(** The number of findings of one severity. *)
Definition count_severity (sev : string) (l : list Finding) : nat :=
  count_occ string_dec (map severity l) sev.

(** What the code excludes from a search: a path whose text contains one of
    the names. *)
Definition mentions_any (env : Env) (names : list string) (p : path) : bool :=
  existsb (fun n => Scanner.mentions env n p) names.

(** The rule set chosen by the framework. *)
Definition framework_checks (env : Env) (p : Scanner.project) : Py.result (list Finding) :=
  if String.eqb (Scanner.framework p) "flutter" then Scanner.check_flutter env
  else if String.eqb (Scanner.framework p) "react-native" then Scanner.check_react_native env
  else Py.Ok [].

(** A platform's rule set, when the platform was detected. *)
Definition platform_checks (name : string)
           (check : Env -> string -> Py.result (list Finding))
           (env : Env) (p : Scanner.project) : Py.result (list Finding) :=
  if Scanner.mem name (Scanner.platforms p) then check env (Scanner.framework p) else Py.Ok [].

(** *** The permission usage descriptions, key by key *)

(** The values on which the test for a build variable, [in], is defined. *)
Definition searchable (v : Py.value) : bool :=
  match v with
  | Py.VStr _ | Py.VList _ | Py.VDict _ => true
  | _ => false
  end.

(** The values that have [strip]. *)
Definition strippable (v : Py.value) : bool :=
  match v with
  | Py.VStr _ | Py.VBytes _ => true
  | _ => false
  end.

(** The description a property list gives for a key, with its trimmed
    length: nothing for a key that is absent or whose value is falsy. *)
Definition described (d : list (string * Py.value)) (key : string)
  : option (Py.value * nat) :=
  match Py.lookup key d with
  | Some v =>
      if Py.truthy v then
        match Scanner.stripped_length v with
        | Py.Ok n => Some (v, n)
        | Py.Raise _ => None
        end
      else None
  | None => None
  end.

Definition short_finding (env : Env) (name : string) (val : Py.value) : Finding :=
  {| platform := "ios"; category := "privacy";
     message := Scanner.short_description env name val;
     severity := "warning" |}.

Definition found_finding (found : list string) : Finding :=
  {| platform := "ios"; category := "privacy";
     message := Scanner.permissions_found found;
     severity := "pass" |}.

(** What one catalogued key contributes: a warning, or its name among the
    permissions found, or nothing. *)
Definition key_warning (env : Env) (d : list (string * Py.value))
           (entry : string * string) : list Finding :=
  match described d (fst entry) with
  | Some (v, n) => if Nat.ltb n 10 then [short_finding env (snd entry) v] else []
  | None => []
  end.

Definition key_found (d : list (string * Py.value)) (entry : string * string)
  : list string :=
  match described d (fst entry) with
  | Some (_, n) => if Nat.ltb n 10 then [] else [snd entry]
  | None => []
  end.

(** The findings that come from the permission usage descriptions: the
    privacy warnings and the summary of the permissions found. *)
Definition is_permission_finding (f : Finding) : bool :=
  String.eqb (category f) "privacy"
  && (String.eqb (severity f) "warning"
      || Text.starts_with "Permission descriptions found for: " (message f)).

Definition other_finding (f : Finding) : Prop := is_permission_finding f = false.

(** The permission findings among what a check has appended. *)
Definition kept {A : Type} (m : Check.M A) : list Finding :=
  filter is_permission_finding (fst m).

(** ** Further predicates *)

(** The finding carries the tag of a rule set. *)
Definition tagged (pf : string) (f : Finding) : Prop := platform f = pf.

Definition is_dict (v : Py.value) : bool :=
  match v with
  | Py.VDict _ => true
  | _ => false
  end.

(** [d.get(k)] on the entries of a dictionary. *)
Definition field (k : string) (v : Py.value) : Py.value :=
  match v with
  | Py.VDict d => match Py.lookup k d with Some x => x | None => Py.VNone end
  | _ => Py.VNone
  end.

(** An image entry of the icon descriptor that is the store icon: of size
    1024x1024 and with a file name. *)
Definition is_store_icon (img : Py.value) : bool :=
  Py.is_str "1024x1024" (field "size" img) && Py.truthy (field "filename" img).

Definition all_digits (s : string) : bool :=
  forallb Text.isdigit (list_ascii_of_string s).

Definition has_dot (s : string) : bool :=
  existsb (Ascii.eqb ".") (list_ascii_of_string s).

Definition is_template (f : path) : bool :=
  String.eqb (Fs.name f) ".env.example" || String.eqb (Fs.name f) ".env.template".

(** Further project trees. *)
Module Tree.
Import Py.

(** An Android manifest at the conventional place that cannot be opened. *)
Definition locked_manifest : Env :=
  Sample.with_present [["app"; "src"; "main"; "AndroidManifest.xml"]] Sample.bare.

(** An icon set whose descriptor is a JSON array. *)
Definition array_icon_descriptor : Env :=
  Sample.with_json "[]" (VList [])
    (Sample.with_file ["Assets"; "AppIcon.appiconset"; "Contents.json"] (Readable "[]")
       (Sample.with_glob "**/AppIcon.appiconset" [["Assets"; "AppIcon.appiconset"]]
          Sample.bare)).

(** An icon set with the store icon among its images. *)
Definition icon_descriptor_with_store_icon : Env :=
  Sample.with_json "{images}"
    (VDict [("images",
             VList [VDict [("size", VStr "60x60"); ("filename", VStr "a.png")];
                    VDict [("size", VStr "1024x1024"); ("filename", VStr "store.png")]])])
    (Sample.with_file ["Assets"; "AppIcon.appiconset"; "Contents.json"]
       (Readable "{images}")
       (Sample.with_glob "**/AppIcon.appiconset" [["Assets"; "AppIcon.appiconset"]]
          Sample.bare)).

(** A manifest that is not well-formed XML and a build descriptor that
    cannot be opened, both at their conventional places. *)
Definition damaged_android : Env :=
  {| root_str := "/work/app";
     root_is_dir := true;
     exists_ := fun p =>
                  Sample.path_eqb p ["app"; "src"; "main"; "AndroidManifest.xml"]
                  || Sample.path_eqb p ["app"; "build.gradle"];
     glob := fun _ _ => [];
     file := fun _ => Unreadable;
     plist_load := fun _ => Raise OSError;
     xml := fun _ => XMalformed;
     json_parse := fun _ => None;
     py_str := fun _ => "<value>";
     exn_str := fun _ => "<exception>" |}.

(** A property list at the root that does not load. *)
Definition unloadable_plist : Env :=
  Sample.with_present [["Info.plist"]] Sample.bare.

(** A property list whose bundle identifier is a number. *)
Definition number_bundle : value :=
  VDict [("CFBundleIdentifier", VInt 7);
         ("NSCameraUsageDescription", VStr "Camera")].

(** A short description in a key that comes after a key holding a
    number. *)
Definition number_before_text : value :=
  VDict [("CFBundleIdentifier", VStr "com.example.app");
         ("NSCameraUsageDescription", VInt 5);
         ("NSMicrophoneUsageDescription", VStr "Mic")].

(** A short description in a key that comes before a key holding a
    number. *)
Definition short_then_number : value :=
  VDict [("CFBundleIdentifier", VStr "com.example.app");
         ("NSCameraUsageDescription", VStr "  123456789  ");
         ("NSMicrophoneUsageDescription", VInt 5)].

(** A short description, and an icon set whose descriptor is a JSON
    array. *)
Definition short_camera_array_icons : Env :=
  Sample.with_plist
    (VDict [("CFBundleIdentifier", VStr "com.example.app");
            ("NSCameraUsageDescription", VStr "Camera")])
    (Sample.with_present [["Info.plist"]] array_icon_descriptor).

(** Two manifests outside the conventional places, the first one inside
    the dependency manager's directory. *)
Definition two_manifests : Env :=
  Sample.with_glob "**/Info.plist"
    [["Pods"; "Lib"; "Info.plist"]; ["App"; "Info.plist"]]
    Sample.bare.

(** The same two manifests in a project checked out below a directory
    named [builds]. *)
Definition below_builds : Env :=
  {| root_str := "/home/ci/builds/app";
     root_is_dir := true;
     exists_ := fun _ => false;
     glob := fun base pat =>
               match base with
               | [] => if String.eqb pat "**/Info.plist"
                       then [["Pods"; "Lib"; "Info.plist"]; ["App"; "Info.plist"]]
                       else []
               | _ :: _ => []
               end;
     file := fun _ => Unreadable;
     plist_load := fun _ => Raise OSError;
     xml := fun _ => XUnreadable;
     json_parse := fun _ => None;
     py_str := fun _ => "<value>";
     exn_str := fun _ => "<exception>" |}.

(** A build descriptor at its conventional place that is not decodable
    text. *)
Definition garbled_gradle : Env :=
  Sample.with_file ["app"; "build.gradle"] (Undecodable "?") Sample.bare.

(** A build descriptor at its conventional place that reads [text]. *)
Definition gradle_app (text : string) : Env :=
  Sample.with_file ["app"; "build.gradle"] (Readable text) Sample.bare.

(** [n] times the digit 9. *)
Fixpoint nines (n : nat) : string :=
  match n with
  | O => EmptyString
  | S n' => String "9" (nines n')
  end.

(** A target SDK written with one digit more than [int] converts. *)
Definition long_target_sdk : string := "targetSdkVersion " +s+ nines 4301.

End Tree.

Definition is_security (f : Finding) : bool := String.eqb (category f) "security".

(** The findings of the target SDK sub-check: those of category [config]
    whose message begins with [targetSdkVersion]. *)
Definition is_target_sdk_finding (f : Finding) : bool :=
  String.eqb (category f) "config"
  && Text.starts_with "targetSdkVersion" (message f).

Definition has_newline (s : string) : bool :=
  existsb (fun c => Nat.eqb (Text.code c) 10) (list_ascii_of_string s).

(** The text starts a line when what precedes it is empty or ends with a
    newline. *)
Definition ends_line (before : string) : Prop :=
  before = EmptyString \/ exists earlier, before = earlier +s+ Sample.newline.

(** The text ends a line when what follows is empty or starts with a
    newline. *)
Definition starts_line (after : string) : Prop :=
  after = EmptyString \/ exists later, after = Sample.newline +s+ later.

(** ** Classification *)
Section Classification.
Import Py Fs Check Scanner.

(** C5.  A root holding both the Flutter manifest with [lib/] and a
    package descriptor naming React Native or Expo is classified as
    Flutter: the Flutter rule comes first and ends the detection, whatever
    the package descriptor says. *)
Theorem flutter_checked_first :
  forall env : Env,
    exists_ env ["pubspec.yaml"] = true ->
    exists_ env ["lib"] = true ->
    exists_ env ["package.json"] = true ->
    package_is_react_native env = Ok true ->
    detect_project_type env
    = Ok {| framework := "flutter"; platforms := platform_dirs env |}.
Proof.
  intros env Hpub Hlib _ _.
  unfold detect_project_type.
  rewrite Hpub, Hlib.
  reflexivity.
Qed.

Lemma flutter_checked_first_witness :
  detect_project_type Sample.hybrid_app
  = Ok {| framework := "flutter"; platforms := ["ios"] |}.
Proof.
  apply (flutter_checked_first Sample.hybrid_app); reflexivity.
Defined.

(** Without the Flutter markers the same descriptor makes the project a
    React Native one, so the order of the rules is what decides. *)
Example react_native_without_flutter_markers :
  detect_project_type Sample.react_native_app
  = Ok {| framework := "react-native"; platforms := [] |}.
Proof. reflexivity. Qed.

(** A descriptor the parser rejects, or one without dependency keys, falls
    through to the native rule. *)
Lemma unparsable_package_is_native :
  forall env : Env,
    (exists_ env ["pubspec.yaml"] && exists_ env ["lib"]) = false ->
    exists_ env ["package.json"] = true ->
    forall text,
      file env ["package.json"] = Readable text ->
      json_parse env text = None ->
      detect_project_type env
      = Ok {| framework := "native"; platforms := native_platforms env |}.
Proof.
  intros env Hf Hp text Ht Hj.
  unfold detect_project_type, package_is_react_native, read_text, json_loads.
  rewrite Hf, Hp, Ht. simpl. rewrite Hj. reflexivity.
Qed.

Lemma package_without_dependencies_is_native :
  forall env : Env,
    (exists_ env ["pubspec.yaml"] && exists_ env ["lib"]) = false ->
    exists_ env ["package.json"] = true ->
    forall text d,
      file env ["package.json"] = Readable text ->
      json_parse env text = Some (VDict d) ->
      lookup "dependencies" d = None ->
      lookup "devDependencies" d = None ->
      detect_project_type env
      = Ok {| framework := "native"; platforms := native_platforms env |}.
Proof.
  intros env Hf Hp text d Ht Hj H1 H2.
  unfold detect_project_type, package_is_react_native, read_text, json_loads.
  rewrite Hf, Hp, Ht. simpl. rewrite Hj. simpl. rewrite H1, H2. reflexivity.
Qed.

(** C3.  The classifier is not total: a package descriptor that is valid
    JSON of another shape than an object (here an array), or whose
    [dependencies] is not an object (here [null]), makes it raise
    [AttributeError] or [TypeError], which the handler for parse and read
    errors lets through, and the run ends with that exception. *)
Theorem classifier_raises_on_unexpected_shape :
  detect_project_type Sample.array_package = Raise AttributeError
  /\ main ["check_project.py"; "/work/app"] Sample.array_package
     = Uncaught AttributeError
  /\ detect_project_type Sample.null_dependencies = Raise TypeError
  /\ detect_project_type Sample.broken_package
     = Ok {| framework := "native"; platforms := [] |}.
Proof. repeat split; reflexivity. Qed.

End Classification.

(** ** Checks that let an exception through *)
Section Uncaught.
Import Py Fs Check Scanner.

(** C2.  Two rule sets read a file outside any handler: [check_flutter]
    reads [pubspec.yaml] and [check_common] reads [.gitignore].  When the
    file exists and cannot be read, the check raises [OSError] and returns
    no findings, and the whole run ends with that exception. *)
Theorem unreadable_file_escapes_the_check :
  check_flutter Sample.unreadable_pubspec = Raise OSError
  /\ check_common Sample.unreadable_gitignore = Raise OSError
  /\ main ["check_project.py"; "/work/app"] Sample.unreadable_gitignore
     = Uncaught OSError.
Proof. repeat split; reflexivity. Qed.

End Uncaught.

(** ** Locating the artifacts *)
Section Locator.
Import Py Fs Check Scanner.

Lemma find_is_first_kept :
  forall (A : Type) (keep : A -> bool) (l : list A),
    find keep l = first_of (filter keep l).
Proof.
  intros A keep l.
  induction l as [| x l IH]; simpl.
  - reflexivity.
  - destruct (keep x); simpl; [reflexivity | exact IH].
Qed.

Lemma locate_unfold :
  forall present conventional raw excluded,
    Spec.locate present conventional raw excluded
    = match find present conventional with
      | Some p => Some p
      | None =>
          match find (fun p => negb (excluded p)) raw with
          | Some p => Some p
          | None => first_of raw
          end
      end.
Proof.
  intros present conventional raw excluded.
  unfold Spec.locate.
  rewrite (find_is_first_kept _ (fun p => negb (excluded p)) raw).
  destruct (find present conventional); [reflexivity |].
  destruct (filter (fun p => negb (excluded p)) raw); reflexivity.
Qed.

Lemma find_ext_in :
  forall (A : Type) (f g : A -> bool) (l : list A),
    (forall x, In x l -> f x = g x) -> find f l = find g l.
Proof.
  intros A f g l Hfg.
  induction l as [| x l IH]; simpl; [reflexivity |].
  rewrite (Hfg x (or_introl eq_refl)), IH; [reflexivity |].
  intros y Hy. apply Hfg. right. exact Hy.
Qed.

(** C4.  Each locator returns the first conventional path that exists.
    Failing that, the two manifest locators follow the two-tier policy on
    what the recursive search finds, the first match with no excluded
    directory among its segments and else the first raw match, on every
    tree where the exclusion test of the code and the test on segments
    give the same answer on each match.  The build descriptor is looked
    for at its four conventional paths only: for it the search contributes
    nothing. *)
Theorem locators_follow_their_policy :
  forall env : Env,
    (forall p, find (exists_ env) info_plist_candidates = Some p ->
               find_info_plist env = Some p)
    /\ (forall p, find (exists_ env) android_manifest_candidates = Some p ->
                  find_android_manifest env = Some p)
    /\ ((forall p, In p (glob env [] "**/Info.plist") ->
                   mentions_any env ["Pods"; "build"; "DerivedData"] p
                   = Spec.has_denied_segment ["Pods"; "build"; "DerivedData"] p) ->
        find_info_plist env
        = Spec.locate (exists_ env) info_plist_candidates
            (glob env [] "**/Info.plist")
            (Spec.has_denied_segment ["Pods"; "build"; "DerivedData"]))
    /\ ((forall p, In p (glob env [] "**/src/main/AndroidManifest.xml") ->
                   mentions_any env ["build"] p
                   = Spec.has_denied_segment ["build"] p) ->
        find_android_manifest env
        = Spec.locate (exists_ env) android_manifest_candidates
            (glob env [] "**/src/main/AndroidManifest.xml")
            (Spec.has_denied_segment ["build"]))
    /\ find_build_gradle env
       = Spec.locate (exists_ env) build_gradle_candidates [] (fun _ => false).
Proof.
  intro env.
  split; [| split; [| split; [| split]]].
  - intros p Hp. unfold find_info_plist. rewrite Hp. reflexivity.
  - intros p Hp. unfold find_android_manifest. rewrite Hp. reflexivity.
  - intro Hagree. rewrite locate_unfold. unfold find_info_plist.
    destruct (find (exists_ env) info_plist_candidates); [reflexivity |].
    rewrite (find_ext_in _
               (fun p => negb (mentions env "Pods" p)
                         && negb (mentions env "build" p)
                         && negb (mentions env "DerivedData" p))
               (fun p => negb (Spec.has_denied_segment
                                 ["Pods"; "build"; "DerivedData"] p))).
    + reflexivity.
    + intros p Hp. rewrite <- (Hagree p Hp). unfold mentions_any. simpl.
      destruct (mentions env "Pods" p), (mentions env "build" p),
        (mentions env "DerivedData" p); reflexivity.
  - intro Hagree. rewrite locate_unfold. unfold find_android_manifest.
    destruct (find (exists_ env) android_manifest_candidates); [reflexivity |].
    rewrite (find_ext_in _
               (fun m => negb (mentions env "build" m))
               (fun p => negb (Spec.has_denied_segment ["build"] p))).
    + reflexivity.
    + intros p Hp. rewrite <- (Hagree p Hp). unfold mentions_any. simpl.
      destruct (mentions env "build" p); reflexivity.
  - rewrite locate_unfold. unfold find_build_gradle.
    destruct (find (exists_ env) build_gradle_candidates); reflexivity.
Qed.

Lemma locators_follow_their_policy_witness :
  find_info_plist Tree.two_manifests = Some ["App"; "Info.plist"]
  /\ find_build_gradle Tree.two_manifests = None.
Proof.
  destruct (locators_follow_their_policy Tree.two_manifests)
    as (_ & _ & Hplist & _ & Hgradle).
  split.
  - rewrite Hplist; [reflexivity |].
    intros p Hp. simpl in Hp.
    destruct Hp as [<- | [<- | []]]; reflexivity.
  - rewrite Hgradle. reflexivity.
Defined.

(** C4 as it was worded fails on the build descriptor: one that only a
    recursive search would find is not returned, since no search is made
    for it. *)
Lemma locator_policy_counterexample :
  find (exists_ Sample.nested_gradle) build_gradle_candidates = None
  /\ glob Sample.nested_gradle [] "**/build.gradle" = [["mobile"; "build.gradle"]]
  /\ Spec.locate (exists_ Sample.nested_gradle) build_gradle_candidates
       (glob Sample.nested_gradle [] "**/build.gradle")
       (Spec.has_denied_segment ["build"])
     = Some ["mobile"; "build.gradle"]
  /\ find_build_gradle Sample.nested_gradle = None.
Proof. repeat split; reflexivity. Qed.

(** Where the two tests part: the code looks for the excluded names in the
    text of the whole path, the project's own location included.  Below a
    directory named [builds] every match counts as excluded and the copy
    inside [Pods] is returned; a directory named [rebuilder] is passed
    over although it is no build directory. *)
Example exclusion_reads_the_path_text :
  find_info_plist Tree.below_builds = Some ["Pods"; "Lib"; "Info.plist"]
  /\ Spec.locate (exists_ Tree.below_builds) info_plist_candidates
       (glob Tree.below_builds [] "**/Info.plist")
       (Spec.has_denied_segment ["Pods"; "build"; "DerivedData"])
     = Some ["App"; "Info.plist"]
  /\ find_info_plist Sample.rebuilder_tree = Some ["App"; "Info.plist"]
  /\ Spec.locate (exists_ Sample.rebuilder_tree) info_plist_candidates
       (glob Sample.rebuilder_tree [] "**/Info.plist")
       (Spec.has_denied_segment ["Pods"; "build"; "DerivedData"])
     = Some ["tools"; "rebuilder"; "Info.plist"].
Proof. repeat split; reflexivity. Qed.

(** The fallbacks of the manifest search on two small trees. *)
Example deeply_nested_manifest_is_found :
  find_info_plist Sample.deep_manifest
  = Some ["vendor"; "shell"; "ios"; "Info.plist"].
Proof. reflexivity. Qed.

Example excluded_manifest_is_better_than_none :
  find_info_plist Sample.pods_only = Some ["Pods"; "Lib"; "Info.plist"].
Proof. reflexivity. Qed.

End Locator.

(** ** What the checks append *)

Arguments Check.ret : simpl never.
Arguments Check.bind : simpl never.
Arguments Check.lift : simpl never.
Arguments Check.emit : simpl never.
Arguments Check.try_except : simpl never.
Arguments Check.when : simpl never.
Arguments Check.warn : simpl never.
Arguments Check.error : simpl never.
Arguments Check.ok : simpl never.

Section Sequencing.
Import Py Fs Check Scanner.

Lemma bind_ok :
  forall (A B : Type) (m : M A) (k : A -> M B) (a : A),
    snd m = Ok a ->
    bind m k = (fst m ++ fst (k a), snd (k a)).
Proof.
  intros A B [out r] k a H. simpl in H. subst r.
  unfold bind. destruct (k a); reflexivity.
Qed.

Lemma bind_pair_ok :
  forall (A B : Type) (out : list Finding) (a : A) (k : A -> M B),
    bind (out, Ok a) k = (out ++ fst (k a), snd (k a)).
Proof. intros. exact (bind_ok A B (out, Ok a) k a eq_refl). Qed.

Lemma bind_raise :
  forall (A B : Type) (m : M A) (k : A -> M B) (e : exn),
    snd m = Raise e ->
    bind m k = (fst m, Raise e).
Proof.
  intros A B [out r] k e H. simpl in H. subst r. reflexivity.
Qed.

Lemma bind_lift_ok :
  forall (A B : Type) (a : A) (k : A -> M B), bind (lift (Ok a)) k = k a.
Proof.
  intros. unfold bind, lift. destruct (k a); reflexivity.
Qed.

End Sequencing.

Section Emits.
Import Py Fs Check Scanner.

Variable P : Finding -> Prop.

Lemma emits_ret : forall (A : Type) (a : A), emits P (ret a).
Proof. intros. constructor. Qed.

Lemma emits_lift : forall (A : Type) (r : result A), emits P (lift r).
Proof. intros. constructor. Qed.

Lemma emits_emit : forall f, P f -> emits P (emit f).
Proof. intros f Hf. unfold emits. simpl. auto. Qed.

Lemma emits_bind :
  forall (A B : Type) (m : M A) (k : A -> M B),
    emits P m -> (forall a, emits P (k a)) -> emits P (bind m k).
Proof.
  intros A B [out [a | e]] k Hm Hk; unfold emits, bind in *; simpl in *.
  - specialize (Hk a). destruct (k a) as [out' r]. simpl in *.
    apply Forall_app. split; assumption.
  - exact Hm.
Qed.

Lemma emits_try :
  forall body handled handler,
    emits P body -> (forall e, emits P (handler e)) ->
    emits P (try_except body handled handler).
Proof.
  intros [out [a | e]] handled handler Hb Hh; unfold emits, try_except in *;
    simpl in *.
  - exact Hb.
  - destruct (handled e); simpl; [| exact Hb].
    specialize (Hh e). destruct (handler e) as [out' r]. simpl in *.
    apply Forall_app. split; assumption.
Qed.

Lemma emits_when : forall b m, emits P m -> emits P (when b m).
Proof. intros [|] m Hm; unfold when; [exact Hm | constructor]. Qed.

Lemma run_emits :
  forall m issues, emits P m -> run m = Ok issues -> Forall P issues.
Proof.
  intros [out [a | e]] issues Hm Hrun; simpl in Hrun.
  - injection Hrun as <-. exact Hm.
  - discriminate.
Qed.

End Emits.

Ltac emits_case :=
  match goal with
  | |- emits _ (if ?b then _ else _) => destruct b
  | |- emits _ (match ?x with _ => _ end) => destruct x
  end.

(** Splits a check along its sequencing; [leaf] closes what is appended. *)
Ltac emits_with leaf :=
  repeat first
    [ apply emits_ret
    | apply emits_lift
    | leaf
    | apply emits_when
    | apply emits_bind; [| intros ?]
    | apply emits_try; [| intros ?]
    | emits_case ].

Section Severities.
Import Py Fs Check Scanner.

Lemma known_ok : forall pf cat msg, emits known_severity (ok pf cat msg).
Proof. intros. apply emits_emit. reflexivity. Qed.

Lemma known_warn : forall pf cat msg, emits known_severity (warn pf cat msg).
Proof. intros. apply emits_emit. reflexivity. Qed.

Lemma known_error : forall pf cat msg, emits known_severity (error pf cat msg).
Proof. intros. apply emits_emit. reflexivity. Qed.

Ltac known_leaf := first [apply known_ok | apply known_warn | apply known_error].
Ltac known := emits_with known_leaf.

Lemma known_scan_patterns :
  forall pf patterns content f,
    emits known_severity (scan_patterns pf patterns content f).
Proof.
  intros pf patterns content f.
  induction patterns as [| [pattern desc] rest IH]; simpl.
  - known.
  - destruct (Re.search pattern content); [known | exact IH].
Qed.

Lemma known_secret_scan :
  forall env pf patterns files,
    emits known_severity (secret_scan env pf patterns files).
Proof.
  intros env pf patterns files. unfold secret_scan.
  induction (firstn 200 files) as [| f rest IH]; simpl.
  - known.
  - apply emits_bind; [| intros _; exact IH].
    unfold scan_file. apply emits_try; [| intros; known].
    apply emits_bind; [known | intros content].
    apply known_scan_patterns.
Qed.

Lemma known_permission_loop :
  forall env plist keys found,
    emits known_severity (permission_loop env plist keys found).
Proof.
  intros env plist keys.
  induction keys as [| [key name] rest IH]; intro found; simpl.
  - known.
  - apply emits_bind; [known | intros val].
    destruct (truthy val); [| apply IH].
    apply emits_bind; [known | intros n].
    destruct (Nat.ltb n 10); [| apply IH].
    apply emits_bind; [known | intros _; apply IH].
Qed.

Lemma known_ios : forall env, emits known_severity (ios_checks env).
Proof.
  intro env. unfold ios_checks.
  apply emits_bind; [| intros _; apply emits_bind; [| intros _; apply emits_bind;
    [| intros _; apply known_secret_scan]]].
  - unfold info_plist_block, info_plist_checks, bundle_checks, version_checks,
      permission_checks, ats_checks.
    destruct (find_info_plist env); [| known].
    apply emits_bind; [known | intros _].
    apply emits_try; [| intros; known].
    apply emits_bind; [known | intros plist].
    apply emits_bind; [known | intros _].
    apply emits_bind; [known | intros _].
    apply emits_bind; [| intros _; known].
    apply emits_bind; [apply known_permission_loop | intros found; known].
  - unfold privacy_manifest_block. known.
  - unfold icon_block, icon_contents_checks. known.
Qed.

Lemma known_android : forall env, emits known_severity (android_checks env).
Proof.
  intro env. unfold android_checks.
  apply emits_bind; [| intros _; apply emits_bind; [| intros _; apply emits_bind;
    [| intros _; apply known_secret_scan]]].
  - unfold manifest_block, manifest_checks. known.
  - unfold gradle_block, gradle_checks, target_sdk_check. known.
  - unfold android_icon_block. known.
Qed.

Lemma known_flutter : forall env, emits known_severity (flutter_checks env).
Proof.
  intro env. unfold flutter_checks, pubspec_checks, podfile_lock_check. known.
Qed.

Lemma known_react_native :
  forall env, emits known_severity (react_native_checks env).
Proof.
  intro env.
  unfold react_native_checks, package_json_checks, expo_checks,
    podfile_lock_check.
  known.
Qed.

Lemma known_common : forall env, emits known_severity (common_checks env).
Proof.
  intro env.
  unfold common_checks, env_file_checks, gitignore_checks, readme_checks.
  known.
Qed.

Lemma with_severity_cons :
  forall sev f l,
    List.length (with_severity sev (f :: l))
    = (if String.eqb (severity f) sev then 1 else 0)
      + List.length (with_severity sev l).
Proof.
  intros sev f l. unfold with_severity. cbn [filter].
  destruct (String.eqb (severity f) sev); reflexivity.
Qed.

(** A list of findings of known severities splits into the three. *)
Lemma three_severities_cover :
  forall l : list Finding,
    Forall known_severity l ->
    List.length (with_severity "error" l)
    + List.length (with_severity "warning" l)
    + List.length (with_severity "pass" l)
    = List.length l.
Proof.
  intros l Hl.
  induction Hl as [| f l Hf _ IH]; [reflexivity |].
  rewrite !with_severity_cons. cbn [List.length].
  unfold known_severity, mem in Hf. cbn [existsb] in Hf.
  destruct (String.eqb (severity f) "error") eqn:He.
  - apply String.eqb_eq in He. rewrite He. cbn. lia.
  - destruct (String.eqb (severity f) "warning") eqn:Hw.
    + apply String.eqb_eq in Hw. rewrite Hw. cbn. lia.
    + destruct (String.eqb (severity f) "pass") eqn:Hp.
      * cbn. lia.
      * discriminate Hf.
Qed.

Lemma with_severity_counts :
  forall sev (l : list Finding),
    List.length (with_severity sev l) = count_severity sev l.
Proof.
  intros sev l.
  induction l as [| f l IH]; [reflexivity |].
  rewrite with_severity_cons, IH.
  unfold count_severity. cbn [map count_occ].
  destruct (String.eqb_spec (severity f) sev) as [He | He];
    destruct (string_dec (severity f) sev); try contradiction; reflexivity.
Qed.

End Severities.

(** ** Aggregation *)
Section Aggregation.
Import Py Fs Check Scanner.

Lemma main_done :
  forall argv env r, main argv env = Done r -> scan env = Ok r.
Proof.
  intros argv env r. unfold main.
  destruct (Nat.ltb (List.length argv) 2); [discriminate |].
  destruct (negb (root_is_dir env)); [discriminate |].
  destruct (scan env); [| discriminate].
  intro H. injection H as ->. reflexivity.
Qed.

Lemma scan_inversion :
  forall env r,
    scan env = Ok r ->
    exists p common specific ios android,
      detect_project_type env = Ok p
      /\ check_common env = Ok common
      /\ framework_checks env p = Ok specific
      /\ platform_checks "ios" check_ios env p = Ok ios
      /\ platform_checks "android" check_android env p = Ok android
      /\ project_type r = p
      /\ issues r = common ++ specific ++ ios ++ android
      /\ report_summary r
         = {| errors := List.length (with_severity "error" (issues r));
              warnings := List.length (with_severity "warning" (issues r));
              passes := List.length (with_severity "pass" (issues r)) |}.
Proof.
  intros env r. unfold scan.
  destruct (detect_project_type env) as [p | e] eqn:Hp; [| discriminate]. simpl.
  destruct (check_common env) as [common | e] eqn:Hc; [| discriminate]. simpl.
  fold (framework_checks env p).
  destruct (framework_checks env p) as [specific | e] eqn:Hs; [| discriminate].
  simpl.
  fold (platform_checks "ios" check_ios env p).
  destruct (platform_checks "ios" check_ios env p) as [ios | e] eqn:Hi;
    [| discriminate]. simpl.
  fold (platform_checks "android" check_android env p).
  destruct (platform_checks "android" check_android env p) as [android | e] eqn:Ha;
    [| discriminate]. simpl.
  intro H. injection H as <-. simpl.
  exists p, common, specific, ios, android.
  rewrite <- !app_assoc.
  repeat split; solve [reflexivity | assumption].
Qed.

(** C9.  The findings of a report are the findings of the common rule
    set, then of the framework's rule set, then of the iOS and of the
    Android rule set, each present when it applies, in that order and
    otherwise untouched. *)
Theorem findings_are_concatenated_in_order :
  forall argv env r,
    main argv env = Done r ->
    exists common specific ios android,
      check_common env = Ok common
      /\ framework_checks env (project_type r) = Ok specific
      /\ platform_checks "ios" check_ios env (project_type r) = Ok ios
      /\ platform_checks "android" check_android env (project_type r) = Ok android
      /\ issues r = common ++ specific ++ ios ++ android.
Proof.
  intros argv env r Hmain.
  apply main_done in Hmain.
  destruct (scan_inversion env r Hmain)
    as (p & common & specific & ios & android & _ & Hc & Hs & Hi & Ha & Hp & Hall & _).
  subst p.
  exists common, specific, ios, android.
  repeat split; assumption.
Qed.

Lemma findings_are_concatenated_in_order_witness :
  exists r common specific ios,
    main ["check_project.py"; "/work/app"] Sample.flutter_app = Done r
    /\ check_common Sample.flutter_app = Ok common
    /\ check_flutter Sample.flutter_app = Ok specific
    /\ check_ios Sample.flutter_app "flutter" = Ok ios
    /\ issues r = common ++ specific ++ ios ++ [].
Proof.
  destruct (findings_are_concatenated_in_order
              ["check_project.py"; "/work/app"] Sample.flutter_app
              (match main ["check_project.py"; "/work/app"] Sample.flutter_app with
               | Done r => r
               | _ => {| project_root := EmptyString;
                         project_type := {| framework := EmptyString; platforms := [] |};
                         report_summary := {| errors := 0; warnings := 0; passes := 0 |};
                         issues := [] |}
               end)
              eq_refl)
    as (common & specific & ios & android & Hc & Hs & Hi & Ha & Hall).
  vm_compute in Ha. injection Ha as <-.
  eexists. exists common, specific, ios.
  split; [vm_compute; reflexivity |].
  repeat split; assumption.
Defined.

Lemma checks_emit_known_severities :
  forall env p l,
    (check_common env = Ok l
     \/ framework_checks env p = Ok l
     \/ platform_checks "ios" check_ios env p = Ok l
     \/ platform_checks "android" check_android env p = Ok l) ->
    Forall known_severity l.
Proof.
  intros env p l [H | [H | [H | H]]].
  - exact (run_emits _ _ _ (known_common env) H).
  - unfold framework_checks in H.
    destruct (String.eqb (framework p) "flutter").
    + exact (run_emits _ _ _ (known_flutter env) H).
    + destruct (String.eqb (framework p) "react-native").
      * exact (run_emits _ _ _ (known_react_native env) H).
      * injection H as <-. constructor.
  - unfold platform_checks in H.
    destruct (mem "ios" (platforms p)).
    + exact (run_emits _ _ _ (known_ios env) H).
    + injection H as <-. constructor.
  - unfold platform_checks in H.
    destruct (mem "android" (platforms p)).
    + exact (run_emits _ _ _ (known_android env) H).
    + injection H as <-. constructor.
Qed.

(** C1.  In the report of a completed scan the three counts of the
    summary add up to the number of findings, and each count is the
    number of findings of its severity. *)
Theorem summary_counts_partition_findings :
  forall argv env r,
    main argv env = Done r ->
    errors (report_summary r) + warnings (report_summary r)
    + passes (report_summary r)
    = List.length (issues r)
    /\ errors (report_summary r) = count_severity "error" (issues r)
    /\ warnings (report_summary r) = count_severity "warning" (issues r)
    /\ passes (report_summary r) = count_severity "pass" (issues r).
Proof.
  intros argv env r Hmain.
  apply main_done in Hmain.
  destruct (scan_inversion env r Hmain)
    as (p & common & specific & ios & android & _ & Hc & Hs & Hi & Ha & _ & Hall & Hsum).
  rewrite Hsum. cbn [errors warnings passes].
  rewrite <- !with_severity_counts.
  repeat split.
  apply three_severities_cover.
  rewrite Hall.
  repeat (apply Forall_app; split);
    apply (checks_emit_known_severities env p); tauto.
Qed.

Lemma summary_counts_partition_findings_witness :
  exists r,
    main ["check_project.py"; "/work/app"] Sample.flutter_app = Done r
    /\ report_summary r = {| errors := 3; warnings := 2; passes := 2 |}
    /\ errors (report_summary r) + warnings (report_summary r)
       + passes (report_summary r)
       = List.length (issues r).
Proof.
  eexists. split; [vm_compute; reflexivity |].
  split; [reflexivity |].
  exact (proj1 (summary_counts_partition_findings
                  ["check_project.py"; "/work/app"] Sample.flutter_app _ eq_refl)).
Defined.

End Aggregation.

(** ** The scan for secrets *)
Section Secrets.
Import Py Fs Check Scanner.

Lemma scan_patterns_returns :
  forall pf patterns content f,
    snd (scan_patterns pf patterns content f) = Ok tt
    /\ List.length (fst (scan_patterns pf patterns content f)) <= 1.
Proof.
  intros pf patterns content f.
  induction patterns as [| [pattern desc] rest IH]; simpl.
  - split; [reflexivity | auto].
  - destruct (Re.search pattern content); [| exact IH].
    split; [reflexivity | auto].
Qed.

Lemma scan_file_returns :
  forall env pf patterns f,
    snd (scan_file env pf patterns f) = Ok tt
    /\ List.length (fst (scan_file env pf patterns f)) <= 1.
Proof.
  intros env pf patterns f.
  unfold scan_file, read_text_ignore, try_except, bind, lift.
  destruct (file env f) as [| lossy | text]; simpl.
  - split; [reflexivity | auto].
  - destruct (scan_patterns_returns pf patterns lossy f) as [Hs Hl].
    destruct (scan_patterns pf patterns lossy f) as [out r].
    simpl in *. subst r. split; [reflexivity | exact Hl].
  - destruct (scan_patterns_returns pf patterns text f) as [Hs Hl].
    destruct (scan_patterns pf patterns text f) as [out r].
    simpl in *. subst r. split; [reflexivity | exact Hl].
Qed.

Lemma scan_files_flat_map :
  forall env pf patterns files,
    scan_files env pf patterns files
    = (flat_map (fun f => fst (scan_file env pf patterns f)) files, Ok tt).
Proof.
  intros env pf patterns files.
  induction files as [| f rest IH]; [reflexivity |].
  cbn [scan_files flat_map].
  destruct (scan_file_returns env pf patterns f) as [Hs _].
  unfold bind. rewrite IH.
  destruct (scan_file env pf patterns f) as [out r]. simpl in *.
  subst r. reflexivity.
Qed.

Lemma flat_map_short :
  forall (A B : Type) (g : A -> list B) (l : list A),
    (forall a, List.length (g a) <= 1) ->
    List.length (flat_map g l) <= List.length l.
Proof.
  intros A B g l Hg.
  induction l as [| a l IH]; simpl; [auto |].
  rewrite length_app. specialize (Hg a). lia.
Qed.

Lemma first_match_wins :
  forall pf before pattern desc after content f,
    forallb (fun p => negb (Re.search (fst p) content)) before = true ->
    Re.search pattern content = true ->
    scan_patterns pf (before ++ (pattern, desc) :: after) content f
    = warn pf "security" (desc +s+ " found in " +s+ rel f).
Proof.
  intros pf before pattern desc after content f Hb Hp.
  induction before as [| [p d] before IH]; simpl in *.
  - rewrite Hp. reflexivity.
  - apply andb_prop in Hb. destruct Hb as [Hn Hb].
    apply negb_true_iff in Hn. rewrite Hn. exact (IH Hb).
Qed.

(** C8.  The scan reads the first 200 source files at most and never
    raises.  Each file read adds one security warning or none: the warning
    of the first pattern, in the fixed order, that matches its text, the
    later patterns not being tried.  A file holding the line
    [api_key = Q abcdefgh12 Q] (Q the double quote) is warned about once,
    also when a Stripe-like key follows in the same file. *)
Theorem secret_scan_one_warning_per_file :
  (forall env pf patterns files,
      secret_scan env pf patterns files
      = (flat_map (fun f => fst (scan_file env pf patterns f)) (firstn 200 files),
         Ok tt)
      /\ List.length (fst (secret_scan env pf patterns files)) <= 200
      /\ (forall f, List.length (fst (scan_file env pf patterns f)) <= 1)
      /\ (forall f content before pattern desc after,
             patterns = before ++ (pattern, desc) :: after ->
             read_text_ignore env f = Ok content ->
             forallb (fun p => negb (Re.search (fst p) content)) before = true ->
             Re.search pattern content = true ->
             fst (scan_file env pf patterns f)
             = [ {| platform := pf; category := "security";
                    message := desc +s+ " found in " +s+ rel f;
                    severity := "warning" |} ]))
  /\ map (fun p => Re.search (fst p) Sample.two_secrets) (secret_patterns "=")
     = [true; true; false]
  /\ filter (fun f => String.eqb (category f) "security")
            (fst (android_checks (Sample.kotlin_app Sample.two_secrets)))
     = [ {| platform := "android"; category := "security";
            message := "Possible hardcoded API key/secret found in app/src/Keys.kt";
            severity := "warning" |} ]
  /\ filter (fun f => String.eqb (category f) "security")
            (fst (android_checks (Sample.kotlin_app Sample.api_key_line)))
     = [ {| platform := "android"; category := "security";
            message := "Possible hardcoded API key/secret found in app/src/Keys.kt";
            severity := "warning" |} ]
  /\ filter (fun f => String.eqb (category f) "security")
            (fst (ios_checks (Sample.swift_app Sample.two_secrets)))
     = [ {| platform := "ios"; category := "security";
            message := "Possible hardcoded API key/secret found in Sources/Keys.swift";
            severity := "warning" |} ].
Proof.
  split; [| repeat split; vm_compute; reflexivity].
  intros env pf patterns files.
  assert (Hscan : secret_scan env pf patterns files
                  = (flat_map (fun f => fst (scan_file env pf patterns f))
                              (firstn 200 files), Ok tt))
    by (unfold secret_scan; apply scan_files_flat_map).
  split; [exact Hscan |].
  split.
  - rewrite Hscan. cbn [fst].
    apply Nat.le_trans with (List.length (firstn 200 files)).
    + apply flat_map_short. intro f. apply scan_file_returns.
    + apply firstn_le_length.
  - split.
    + intro f. apply scan_file_returns.
    + intros f content before pattern desc after -> Hread Hbefore Hmatch.
      unfold scan_file. rewrite Hread, bind_lift_ok.
      rewrite (first_match_wins pf before pattern desc after content f Hbefore Hmatch).
      reflexivity.
Qed.

Lemma secret_scan_one_warning_per_file_witness :
  fst (scan_file (Sample.kotlin_app Sample.two_secrets) "android"
                 (secret_patterns "=") ["app"; "src"; "Keys.kt"])
  = [ {| platform := "android"; category := "security";
         message := "Possible hardcoded API key/secret found in app/src/Keys.kt";
         severity := "warning" |} ].
Proof.
  exact (proj2 (proj2 (proj2 (proj1 secret_scan_one_warning_per_file
                                (Sample.kotlin_app Sample.two_secrets) "android"
                                (secret_patterns "=") [])))
               ["app"; "src"; "Keys.kt"] Sample.two_secrets
               [] (assignment_pattern "=") "Possible hardcoded API key/secret"
               [ (stripe_pattern, "Possible Stripe secret key");
                 (google_pattern, "Possible Google API key") ]
               eq_refl eq_refl eq_refl eq_refl).
Defined.

End Secrets.

(** ** The iOS permission usage descriptions *)
Section Permissions.
Import Py Fs Check Scanner.

Lemma filter_none :
  forall l : list Finding,
    Forall other_finding l -> filter is_permission_finding l = [].
Proof.
  intros l Hl. induction Hl as [| f l Hf _ IH]; simpl; [reflexivity |].
  unfold other_finding in Hf. rewrite Hf. exact IH.
Qed.

Lemma filter_all :
  forall l : list Finding,
    Forall (fun f => is_permission_finding f = true) l ->
    filter is_permission_finding l = l.
Proof.
  intros l Hl. induction Hl as [| f l Hf _ IH]; simpl; [reflexivity |].
  rewrite Hf, IH. reflexivity.
Qed.

Lemma kept_silent :
  forall (A : Type) (m : M A), emits other_finding m -> kept m = [].
Proof. intros A m Hm. apply filter_none. exact Hm. Qed.

Lemma kept_bind_then_silent :
  forall (A B : Type) (m : M A) (k : A -> M B),
    (forall a, emits other_finding (k a)) -> kept (bind m k) = kept m.
Proof.
  intros A B [out [a | e]] k Hk; unfold kept, bind; simpl.
  - specialize (Hk a). destruct (k a) as [out' r]. simpl.
    rewrite filter_app, (filter_none out' Hk), app_nil_r. reflexivity.
  - reflexivity.
Qed.

Lemma kept_silent_then :
  forall (A B : Type) (m : M A) (k : A -> M B) (a : A),
    emits other_finding m -> snd m = Ok a -> kept (bind m k) = kept (k a).
Proof.
  intros A B m k a Hm Hs.
  rewrite (bind_ok _ _ m k a Hs). unfold kept. simpl.
  rewrite filter_app, (filter_none _ Hm). reflexivity.
Qed.

Lemma kept_try_silent_handler :
  forall body handled handler,
    (forall e, emits other_finding (handler e)) ->
    kept (try_except body handled handler) = kept body.
Proof.
  intros [out [a | e]] handled handler Hh; unfold kept, try_except; simpl.
  - reflexivity.
  - destruct (handled e); [| reflexivity].
    specialize (Hh e). destruct (handler e) as [out' r]. simpl.
    rewrite filter_app, (filter_none out' Hh), app_nil_r. reflexivity.
Qed.

Ltac other_leaf :=
  first [ apply emits_emit; reflexivity ].
Ltac other := emits_with other_leaf.

Lemma other_scan_patterns :
  forall pf patterns content f,
    emits other_finding (scan_patterns pf patterns content f).
Proof.
  intros pf patterns content f.
  induction patterns as [| [pattern desc] rest IH]; simpl.
  - other.
  - destruct (Re.search pattern content); [other | exact IH].
Qed.

Lemma other_secret_scan :
  forall env pf patterns files,
    emits other_finding (secret_scan env pf patterns files).
Proof.
  intros env pf patterns files. unfold secret_scan.
  induction (firstn 200 files) as [| f rest IH]; simpl.
  - other.
  - apply emits_bind; [| intros _; exact IH].
    unfold scan_file. apply emits_try; [| intros; other].
    apply emits_bind; [other | intros content].
    apply other_scan_patterns.
Qed.

Lemma other_after_plist :
  forall env,
    emits other_finding
          (privacy_manifest_block env >>
           icon_block env >>
           secret_scan env "ios" (secret_patterns ":=") (swift_files env)).
Proof.
  intro env.
  apply emits_bind; [| intros _; apply emits_bind;
                        [| intros _; apply other_secret_scan]].
  - unfold privacy_manifest_block. other.
  - unfold icon_block, icon_contents_checks. other.
Qed.

Lemma other_bundle : forall env plist, emits other_finding (bundle_checks env plist).
Proof. intros. unfold bundle_checks. other. Qed.

Lemma other_version : forall env plist, emits other_finding (version_checks env plist).
Proof. intros. unfold version_checks. other. Qed.

Lemma other_ats : forall plist, emits other_finding (ats_checks plist).
Proof. intros. unfold ats_checks. other. Qed.

Lemma bundle_checks_return :
  forall env d,
    (forall v, lookup "CFBundleIdentifier" d = Some v ->
               truthy v = true -> searchable v = true) ->
    snd (bundle_checks env (VDict d)) = Ok tt.
Proof.
  intros env d H. unfold bundle_checks, get.
  rewrite bind_lift_ok.
  destruct (lookup "CFBundleIdentifier" d) as [v |] eqn:Hv; [| reflexivity].
  destruct (truthy v) eqn:Ht; [| reflexivity].
  specialize (H v eq_refl Ht).
  destruct v; try discriminate H; unfold contains_str;
    rewrite bind_lift_ok;
    match goal with |- context [if ?b then _ else _] => destruct b end;
    reflexivity.
Qed.

Lemma version_checks_return :
  forall env d, snd (version_checks env (VDict d)) = Ok tt.
Proof.
  intros env d. unfold version_checks, get.
  rewrite !bind_lift_ok.
  destruct (truthy _); destruct (negb (truthy _)); reflexivity.
Qed.

Lemma permission_loop_collects :
  forall env d keys found,
    (forall key name v,
        In (key, name) keys -> lookup key d = Some v ->
        truthy v = true -> strippable v = true) ->
    permission_loop env (VDict d) keys found
    = (flat_map (key_warning env d) keys,
       Ok (found ++ flat_map (key_found d) keys)).
Proof.
  intros env d keys.
  induction keys as [| [key name] rest IH]; intros found H.
  - simpl. rewrite app_nil_r. reflexivity.
  - assert (Hrest : forall key' name' v,
               In (key', name') rest -> lookup key' d = Some v ->
               truthy v = true -> strippable v = true).
    { intros key' name' v Hin. apply (H key' name' v). right. exact Hin. }
    specialize (H key name).
    cbn [permission_loop flat_map]. unfold key_warning at 1, key_found at 1.
    unfold described. cbn [fst snd get].
    rewrite bind_lift_ok.
    destruct (lookup key d) as [v |] eqn:Hv; cbn [truthy].
    + destruct (truthy v) eqn:Ht.
      * specialize (H v (or_introl eq_refl) eq_refl Ht).
        destruct v; try discriminate H; cbn [stripped_length];
          rewrite bind_lift_ok;
          match goal with |- context [Nat.ltb ?n 10] => destruct (Nat.ltb n 10) end.
        -- rewrite (bind_ok _ _ (warn _ _ _) _ tt eq_refl).
           rewrite (IH found Hrest). reflexivity.
        -- rewrite (IH _ Hrest), <- app_assoc. reflexivity.
        -- rewrite (bind_ok _ _ (warn _ _ _) _ tt eq_refl).
           rewrite (IH found Hrest). reflexivity.
        -- rewrite (IH _ Hrest), <- app_assoc. reflexivity.
      * rewrite (IH found Hrest). reflexivity.
    + rewrite (IH found Hrest). reflexivity.
Qed.

Lemma key_warning_is_permission_finding :
  forall env d keys,
    Forall (fun f => is_permission_finding f = true)
           (flat_map (key_warning env d) keys).
Proof.
  intros env d keys.
  induction keys as [| entry rest IH]; simpl; [constructor |].
  apply Forall_app. split; [| exact IH].
  unfold key_warning.
  destruct (described d (fst entry)) as [[v n] |]; [| constructor].
  destruct (Nat.ltb n 10); constructor; [reflexivity | constructor].
Qed.

Lemma permission_checks_collect :
  forall env d,
    (forall key name v,
        In (key, name) permission_keys -> lookup key d = Some v ->
        truthy v = true -> strippable v = true) ->
    permission_checks env (VDict d)
    = (flat_map (key_warning env d) permission_keys
       ++ (if nonempty (flat_map (key_found d) permission_keys)
           then [found_finding (flat_map (key_found d) permission_keys)]
           else []),
       Ok tt).
Proof.
  intros env d H. unfold permission_checks.
  rewrite (permission_loop_collects env d permission_keys [] H).
  rewrite bind_pair_ok. cbn [app].
  destruct (nonempty (flat_map (key_found d) permission_keys)); reflexivity.
Qed.

Lemma names_are_distinct :
  forall (l : list (string * string)) (a b n : string),
    NoDup (map snd l) -> In (a, n) l -> In (b, n) l -> a = b.
Proof.
  intros l a b n Hnd.
  induction l as [| [k m] l IH]; [contradiction |].
  cbn [map snd] in Hnd. apply NoDup_cons_iff in Hnd. destruct Hnd as [Hnot Hnd].
  intros [Ha | Ha] [Hb | Hb].
  - congruence.
  - injection Ha as -> ->. exfalso. apply Hnot.
    change n with (snd (b, n)). apply in_map. exact Hb.
  - injection Hb as -> ->. exfalso. apply Hnot.
    change n with (snd (a, n)). apply in_map. exact Ha.
  - exact (IH Hnd Ha Hb).
Qed.

Lemma permission_names_distinct : NoDup (map snd permission_keys).
Proof.
  cbn [map snd permission_keys].
  repeat (apply NoDup_cons;
          [ cbn [In]; intro Hin;
            repeat (destruct Hin as [Hin | Hin]; [discriminate Hin |]);
            exact Hin
          | ]).
  apply NoDup_nil.
Qed.

Lemma kept_ios_checks :
  forall env p d,
    find_info_plist env = Some p ->
    plist_load env p = Ok (VDict d) ->
    (forall v, lookup "CFBundleIdentifier" d = Some v ->
               truthy v = true -> searchable v = true) ->
    (forall key name v,
        In (key, name) permission_keys -> lookup key d = Some v ->
        truthy v = true -> strippable v = true) ->
    kept (ios_checks env)
    = flat_map (key_warning env d) permission_keys
      ++ (if nonempty (flat_map (key_found d) permission_keys)
          then [found_finding (flat_map (key_found d) permission_keys)]
          else []).
Proof.
  intros env p d Hfind Hload Hbundle Hkeys.
  unfold ios_checks.
  rewrite kept_bind_then_silent by (intros; apply other_after_plist).
  unfold info_plist_block. rewrite Hfind.
  rewrite (kept_silent_then _ _ (ok _ _ _) _ tt); [| other | reflexivity].
  rewrite kept_try_silent_handler by (intros; other).
  rewrite Hload, bind_lift_ok.
  unfold info_plist_checks.
  rewrite (kept_silent_then _ _ _ _ tt (other_bundle _ _)
             (bundle_checks_return env d Hbundle)).
  rewrite (kept_silent_then _ _ _ _ tt (other_version _ _)
             (version_checks_return env d)).
  rewrite kept_bind_then_silent by (intros; apply other_ats).
  unfold kept. rewrite (permission_checks_collect env d Hkeys). cbn [fst].
  apply filter_all. apply Forall_app. split.
  - apply key_warning_is_permission_finding.
  - destruct (nonempty _); [| constructor].
    constructor; [reflexivity | constructor].
Qed.

Lemma described_text :
  forall d key s,
    lookup key d = Some (VStr s) -> s <> EmptyString ->
    described d key = Some (VStr s, String.length (Text.strip s)).
Proof.
  intros d key s Hl Hs. unfold described. rewrite Hl. cbn [truthy].
  destruct (String.eqb_spec s EmptyString) as [He | He]; [contradiction |].
  reflexivity.
Qed.

Lemma in_fst_bind_left :
  forall (A B : Type) (m : M A) (k : A -> M B) (f : Finding),
    In f (fst m) -> In f (fst (bind m k)).
Proof.
  intros A B [out [a | e]] k f Hin; unfold bind; cbn [fst] in *.
  - destruct (k a) as [out' r]. cbn [fst]. apply in_or_app. left. exact Hin.
  - exact Hin.
Qed.

Lemma in_fst_bind_right :
  forall (A B : Type) (m : M A) (k : A -> M B) (a : A) (f : Finding),
    snd m = Ok a -> In f (fst (k a)) -> In f (fst (bind m k)).
Proof.
  intros A B m k a f Hm Hin. rewrite (bind_ok _ _ m k a Hm). cbn [fst].
  apply in_or_app. right. exact Hin.
Qed.

Lemma in_fst_try :
  forall body handled handler (f : Finding),
    In f (fst body) -> In f (fst (try_except body handled handler)).
Proof.
  intros [out [a | e]] handled handler f Hin; unfold try_except; cbn [fst] in *.
  - exact Hin.
  - destruct (handled e); [| exact Hin].
    destruct (handler e) as [out' r]. cbn [fst]. apply in_or_app. left. exact Hin.
Qed.

(** The loop warns about a short description as soon as it gets to its
    key, whatever the keys after it hold. *)
Lemma permission_loop_warns :
  forall env d before key name after s,
    (forall key' name' v,
        In (key', name') before -> lookup key' d = Some v ->
        truthy v = true -> strippable v = true) ->
    lookup key d = Some (VStr s) ->
    s <> EmptyString ->
    Nat.ltb (String.length (Text.strip s)) 10 = true ->
    forall found,
      In (short_finding env name (VStr s))
         (fst (permission_loop env (VDict d) (before ++ (key, name) :: after) found)).
Proof.
  intros env d before key name after s Hbefore Hl Hs Hlen.
  induction before as [| [key0 name0] before IH]; intro found.
  - cbn [app permission_loop get]. rewrite bind_lift_ok, Hl. cbn [truthy].
    destruct (String.eqb_spec s EmptyString) as [He | _]; [contradiction |].
    cbn [negb stripped_length]. rewrite bind_lift_ok, Hlen.
    apply in_fst_bind_left. left. reflexivity.
  - assert (Hrest : forall key' name' v,
               In (key', name') before -> lookup key' d = Some v ->
               truthy v = true -> strippable v = true).
    { intros key' name' v Hin. apply (Hbefore key' name' v). right. exact Hin. }
    specialize (IH Hrest).
    specialize (Hbefore key0 name0).
    cbn [app permission_loop get]. rewrite bind_lift_ok.
    destruct (lookup key0 d) as [v |] eqn:Hv; cbn [truthy]; [| apply IH].
    destruct (truthy v) eqn:Ht; [| apply IH].
    specialize (Hbefore v (or_introl eq_refl) eq_refl Ht).
    destruct v; try discriminate Hbefore; cbn [stripped_length];
      rewrite bind_lift_ok;
      match goal with |- context [Nat.ltb ?n 10] => destruct (Nat.ltb n 10) end;
      first [ apply IH
            | apply (in_fst_bind_right _ _ _ _ tt); [reflexivity | apply IH] ].
Qed.

(** C6.  Take an iOS check that returns its findings, on a property list
    that loads as a dictionary in which the bundle identifier, if any, can
    be searched.  A catalogued key whose non-empty text is shorter than 10
    characters once trimmed is warned about, provided the catalogued keys
    before it hold, if anything, text.  When every catalogued key holds, if
    anything, text, the permission findings are, in catalogue order, these
    warnings and then a single pass finding naming the keys whose
    description has 10 characters or more, if there is any: a key of
    trimmed length below 10 is warned about and not named, one of trimmed
    length 10 or more is named and not warned about. *)
Theorem permission_descriptions_at_ten :
  forall env fw issues p d,
    check_ios env fw = Ok issues ->
    find_info_plist env = Some p ->
    plist_load env p = Ok (VDict d) ->
    (forall v, lookup "CFBundleIdentifier" d = Some v ->
               truthy v = true -> searchable v = true) ->
    (forall before key name after s,
        permission_keys = before ++ (key, name) :: after ->
        (forall key' name' v,
            In (key', name') before -> lookup key' d = Some v ->
            truthy v = true -> strippable v = true) ->
        lookup key d = Some (VStr s) ->
        s <> EmptyString ->
        Nat.ltb (String.length (Text.strip s)) 10 = true ->
        In (short_finding env name (VStr s)) issues)
    /\ ((forall key name v,
            In (key, name) permission_keys -> lookup key d = Some v ->
            truthy v = true -> strippable v = true) ->
        let found := flat_map (key_found d) permission_keys in
        filter is_permission_finding issues
        = flat_map (key_warning env d) permission_keys
          ++ (if nonempty found then [found_finding found] else [])
        /\ forall key name s,
            In (key, name) permission_keys ->
            lookup key d = Some (VStr s) ->
            s <> EmptyString ->
            if Nat.ltb (String.length (Text.strip s)) 10
            then In (short_finding env name (VStr s)) issues
                 /\ ~ In name found
            else In name found
                 /\ In (found_finding found) issues
                 /\ key_warning env d (key, name) = []).
Proof.
  intros env fw issues p d Hrun Hfind Hload Hbundle.
  split.
  { intros before key name after s Hsplit Hbefore Hl Hs Hlen.
    unfold check_ios, run in Hrun.
    destruct (ios_checks env) as [out [[] | e]] eqn:Hios; [| discriminate Hrun].
    injection Hrun as <-.
    change out with (fst (out, @Ok unit tt)). rewrite <- Hios.
    unfold ios_checks. apply in_fst_bind_left.
    unfold info_plist_block. rewrite Hfind.
    apply (in_fst_bind_right _ _ _ _ tt); [reflexivity |].
    apply in_fst_try. rewrite Hload, bind_lift_ok.
    unfold info_plist_checks.
    apply (in_fst_bind_right _ _ _ _ tt); [exact (bundle_checks_return env d Hbundle) |].
    apply (in_fst_bind_right _ _ _ _ tt); [exact (version_checks_return env d) |].
    apply in_fst_bind_left. unfold permission_checks. apply in_fst_bind_left.
    rewrite Hsplit.
    exact (permission_loop_warns env d before key name after s Hbefore Hl Hs Hlen []). }
  intros Hkeys found.
  assert (Hkept : filter is_permission_finding issues
                  = flat_map (key_warning env d) permission_keys
                    ++ (if nonempty found then [found_finding found] else [])).
  { unfold found.
    rewrite <- (kept_ios_checks env p d Hfind Hload Hbundle Hkeys).
    unfold check_ios, run in Hrun. unfold kept.
    destruct (ios_checks env) as [out [[] | e]]; [| discriminate].
    injection Hrun as <-. reflexivity. }
  split; [exact Hkept |].
  intros key name s Hin Hl Hs.
  pose proof (described_text d key s Hl Hs) as Hd.
  destruct (Nat.ltb (String.length (Text.strip s)) 10) eqn:Hlen.
  - split.
    + assert (Hw : In (short_finding env name (VStr s))
                      (filter is_permission_finding issues)).
      { rewrite Hkept. apply in_or_app. left.
        apply in_flat_map. exists (key, name). split; [exact Hin |].
        unfold key_warning. cbn [fst snd]. rewrite Hd, Hlen. left. reflexivity. }
      apply filter_In in Hw. exact (proj1 Hw).
    + intro Hfound. apply in_flat_map in Hfound.
      destruct Hfound as [[key' name'] [Hin' Hk]].
      unfold key_found in Hk. cbn [fst snd] in Hk.
      destruct (described d key') as [[v n] |] eqn:Hd'; [| contradiction].
      destruct (Nat.ltb n 10) eqn:Hn; [contradiction |].
      destruct Hk as [-> | []].
      assert (key' = key)
        by exact (names_are_distinct _ _ _ _ permission_names_distinct Hin' Hin).
      subst key'. rewrite Hd in Hd'. injection Hd' as <- <-. congruence.
  - assert (Hname : In name found).
    { apply in_flat_map. exists (key, name). split; [exact Hin |].
      unfold key_found. cbn [fst snd]. rewrite Hd, Hlen. left. reflexivity. }
    split; [exact Hname |]. split.
    + assert (Hw : In (found_finding found)
                      (filter is_permission_finding issues)).
      { rewrite Hkept. apply in_or_app. right.
        destruct found; [contradiction |]. left. reflexivity. }
      apply filter_In in Hw. exact (proj1 Hw).
    + unfold key_warning. cbn [fst snd]. rewrite Hd, Hlen. reflexivity.
Qed.

Lemma permission_descriptions_at_ten_witness :
  String.length (Text.strip "  123456789  ") = 9
  /\ String.length (Text.strip "1234567890") = 10
  /\ (exists issues,
         check_ios (Sample.ios_app Tree.short_then_number) "native" = Ok issues
         /\ In (short_finding (Sample.ios_app Tree.short_then_number) "Camera"
                              (VStr "  123456789  ")) issues)
  /\ exists issues,
      check_ios (Sample.ios_app Sample.nine_and_ten) "native" = Ok issues
      /\ In (short_finding (Sample.ios_app Sample.nine_and_ten) "Camera"
                           (VStr "  123456789  ")) issues
      /\ In (found_finding ["Microphone"]) issues.
Proof.
  split; [reflexivity |]. split; [reflexivity |]. split.
  { assert (Hbundle : forall v,
               lookup "CFBundleIdentifier"
                      [("CFBundleIdentifier", VStr "com.example.app");
                       ("NSCameraUsageDescription", VStr "  123456789  ");
                       ("NSMicrophoneUsageDescription", VInt 5)]
               = Some v ->
               truthy v = true -> searchable v = true).
    { intros v Hv _. vm_compute in Hv. injection Hv as <-. reflexivity. }
    eexists. split; [vm_compute; reflexivity |].
    refine (proj1 (permission_descriptions_at_ten
                     (Sample.ios_app Tree.short_then_number) "native" _
                     ["Info.plist"] _ eq_refl eq_refl eq_refl Hbundle)
                  [] "NSCameraUsageDescription" "Camera" _ "  123456789  "
                  eq_refl _ eq_refl _ eq_refl).
    - intros key' name' v Hin. contradiction.
    - discriminate. }
  assert (Hbundle : forall v,
             lookup "CFBundleIdentifier"
                    [("CFBundleIdentifier", VStr "com.example.app");
                     ("CFBundleShortVersionString", VStr "1.0");
                     ("CFBundleVersion", VStr "7");
                     ("NSCameraUsageDescription", VStr "  123456789  ");
                     ("NSMicrophoneUsageDescription", VStr "1234567890")]
             = Some v ->
             truthy v = true -> searchable v = true).
  { intros v Hv _. vm_compute in Hv. injection Hv as <-. reflexivity. }
  assert (Hkeys : forall key name v,
             In (key, name) permission_keys ->
             lookup key
                    [("CFBundleIdentifier", VStr "com.example.app");
                     ("CFBundleShortVersionString", VStr "1.0");
                     ("CFBundleVersion", VStr "7");
                     ("NSCameraUsageDescription", VStr "  123456789  ");
                     ("NSMicrophoneUsageDescription", VStr "1234567890")]
             = Some v ->
             truthy v = true -> strippable v = true).
  { intros key name v Hin Hv _. cbn [permission_keys In] in Hin.
    repeat (destruct Hin as [Hin | Hin];
            [ injection Hin as <- <-; vm_compute in Hv;
              first [discriminate Hv | injection Hv as <-; reflexivity]
            | ]).
    contradiction. }
  eexists. split; [vm_compute; reflexivity |].
  destruct (proj2 (permission_descriptions_at_ten
                     (Sample.ios_app Sample.nine_and_ten) "native" _ ["Info.plist"] _
                     eq_refl eq_refl eq_refl Hbundle) Hkeys) as [_ Hper].
  split.
  - refine (proj1 (Hper "NSCameraUsageDescription" "Camera" "  123456789  "
                        (or_introl eq_refl) eq_refl _)).
    discriminate.
  - refine (proj1 (proj2 (Hper "NSMicrophoneUsageDescription" "Microphone"
                               "1234567890" _ eq_refl _))).
    + cbn [permission_keys In]. tauto.
    + discriminate.
Defined.

(** C6 as it was worded fails, and each condition above is needed.  A
    catalogued key whose description is the empty string, of trimmed
    length 0, is not warned about.  A key whose description has more than
    10 characters is named in no pass finding when a later catalogued key
    holds a number: the loop raises there and the property list is
    reported as unparsable.  A short description is not warned about when
    the bundle identifier is a number, nor when an earlier catalogued key
    holds one.  And no finding at all is returned when the check raises
    further on, here on an icon descriptor that is a JSON array. *)
Lemma permission_descriptions_counterexample :
  lookup "NSCameraUsageDescription"
         [("CFBundleIdentifier", VStr "com.example.app");
          ("NSCameraUsageDescription", VStr EmptyString)]
  = Some (VStr EmptyString)
  /\ String.length (Text.strip EmptyString) = 0
  /\ check_ios (Sample.ios_app Sample.empty_camera) "native"
     = Ok [ {| platform := "ios"; category := "config";
               message := "Info.plist found at Info.plist"; severity := "pass" |};
            {| platform := "ios"; category := "config";
               message := "Bundle identifier: com.example.app"; severity := "pass" |};
            {| platform := "ios"; category := "version";
               message := "CFBundleShortVersionString missing"; severity := "error" |};
            {| platform := "ios"; category := "version";
               message := "CFBundleVersion (build number) missing";
               severity := "error" |};
            {| platform := "ios"; category := "privacy";
               message := "PrivacyInfo.xcprivacy not found. Required since iOS 17.";
               severity := "error" |};
            {| platform := "ios"; category := "assets";
               message := "AppIcon.appiconset not found"; severity := "error" |} ]
  /\ String.length (Text.strip "Scan receipts with the camera") = 29
  /\ check_ios (Sample.ios_app Sample.number_after_text) "native"
     = Ok [ {| platform := "ios"; category := "config";
               message := "Info.plist found at Info.plist"; severity := "pass" |};
            {| platform := "ios"; category := "config";
               message := "Bundle identifier: com.example.app"; severity := "pass" |};
            {| platform := "ios"; category := "version";
               message := "CFBundleShortVersionString missing"; severity := "error" |};
            {| platform := "ios"; category := "version";
               message := "CFBundleVersion (build number) missing";
               severity := "error" |};
            {| platform := "ios"; category := "config";
               message := "Could not parse Info.plist: <exception>";
               severity := "warning" |};
            {| platform := "ios"; category := "privacy";
               message := "PrivacyInfo.xcprivacy not found. Required since iOS 17.";
               severity := "error" |};
            {| platform := "ios"; category := "assets";
               message := "AppIcon.appiconset not found"; severity := "error" |} ]
  /\ String.length (Text.strip "Camera") = 6
  /\ check_ios (Sample.ios_app Tree.number_bundle) "native"
     = Ok [ {| platform := "ios"; category := "config";
               message := "Info.plist found at Info.plist"; severity := "pass" |};
            {| platform := "ios"; category := "config";
               message := "Could not parse Info.plist: <exception>";
               severity := "warning" |};
            {| platform := "ios"; category := "privacy";
               message := "PrivacyInfo.xcprivacy not found. Required since iOS 17.";
               severity := "error" |};
            {| platform := "ios"; category := "assets";
               message := "AppIcon.appiconset not found"; severity := "error" |} ]
  /\ String.length (Text.strip "Mic") = 3
  /\ check_ios (Sample.ios_app Tree.number_before_text) "native"
     = Ok [ {| platform := "ios"; category := "config";
               message := "Info.plist found at Info.plist"; severity := "pass" |};
            {| platform := "ios"; category := "config";
               message := "Bundle identifier: com.example.app"; severity := "pass" |};
            {| platform := "ios"; category := "version";
               message := "CFBundleShortVersionString missing"; severity := "error" |};
            {| platform := "ios"; category := "version";
               message := "CFBundleVersion (build number) missing";
               severity := "error" |};
            {| platform := "ios"; category := "config";
               message := "Could not parse Info.plist: <exception>";
               severity := "warning" |};
            {| platform := "ios"; category := "privacy";
               message := "PrivacyInfo.xcprivacy not found. Required since iOS 17.";
               severity := "error" |};
            {| platform := "ios"; category := "assets";
               message := "AppIcon.appiconset not found"; severity := "error" |} ]
  /\ check_ios Tree.short_camera_array_icons "native" = Raise AttributeError.
Proof. repeat split; reflexivity. Qed.

End Permissions.

(** ** Descriptions that are present and empty *)
Section Falsy.
Import Py Fs Check Scanner.

Lemma lookup_remove_other :
  forall key k d, k <> key -> lookup k (dict_remove key d) = lookup k d.
Proof.
  intros key k d Hne.
  induction d as [| [k' v] d IH]; [reflexivity |].
  cbn [dict_remove filter fst lookup].
  destruct (String.eqb_spec key k') as [-> | Hk]; cbn [negb].
  - destruct (String.eqb_spec k k'); [contradiction | exact IH].
  - cbn [lookup]. destruct (String.eqb k k'); [reflexivity | exact IH].
Qed.

Lemma lookup_remove_same :
  forall key d, lookup key (dict_remove key d) = None.
Proof.
  intros key d.
  induction d as [| [k' v] d IH]; [reflexivity |].
  cbn [dict_remove filter fst].
  destruct (String.eqb_spec key k') as [-> | Hk]; cbn [negb].
  - exact IH.
  - cbn [lookup]. destruct (String.eqb_spec key k'); [contradiction | exact IH].
Qed.

Lemma get_remove_other :
  forall key k d default,
    k <> key ->
    get (VDict (dict_remove key d)) k default = get (VDict d) k default.
Proof.
  intros key k d default Hne. unfold get.
  rewrite (lookup_remove_other key k d Hne). reflexivity.
Qed.

Lemma permission_loop_remove :
  forall env d key v,
    lookup key d = Some v -> truthy v = false ->
    forall keys found,
      permission_loop env (VDict (dict_remove key d)) keys found
      = permission_loop env (VDict d) keys found.
Proof.
  intros env d key v Hl Hf keys.
  induction keys as [| [k name] rest IH]; intro found; [reflexivity |].
  cbn [permission_loop].
  destruct (String.eqb_spec k key) as [-> | Hne].
  - unfold get. rewrite lookup_remove_same, Hl, !bind_lift_ok.
    cbn [truthy]. rewrite Hf. apply IH.
  - rewrite (get_remove_other key k d VNone Hne).
    destruct (get (VDict d) k VNone) as [val | e]; [| reflexivity].
    rewrite !bind_lift_ok.
    destruct (truthy val); [| apply IH].
    destruct (stripped_length val) as [n | e]; [| reflexivity].
    rewrite !bind_lift_ok.
    destruct (Nat.ltb n 10); [| apply IH].
    rewrite (IH found). reflexivity.
Qed.

Lemma catalogued_key_is_no_other_key :
  forall key name,
    In (key, name) permission_keys ->
    "CFBundleIdentifier" <> key
    /\ "CFBundleShortVersionString" <> key
    /\ "CFBundleVersion" <> key
    /\ "NSAppTransportSecurity" <> key.
Proof.
  intros key name Hin. cbn [permission_keys In] in Hin.
  repeat (destruct Hin as [Hin | Hin];
          [injection Hin as <- <-; repeat split; discriminate |]).
  contradiction.
Qed.

Lemma info_plist_checks_remove :
  forall env d key name v,
    In (key, name) permission_keys ->
    lookup key d = Some v -> truthy v = false ->
    info_plist_checks env (VDict (dict_remove key d))
    = info_plist_checks env (VDict d).
Proof.
  intros env d key name v Hin Hl Hf.
  destruct (catalogued_key_is_no_other_key key name Hin) as (H1 & H2 & H3 & H4).
  unfold info_plist_checks, bundle_checks, version_checks, permission_checks,
    ats_checks.
  rewrite (get_remove_other key _ d VNone H1).
  rewrite (get_remove_other key _ d VNone H2).
  rewrite (get_remove_other key _ d VNone H3).
  rewrite (get_remove_other key _ d (VDict []) H4).
  rewrite (permission_loop_remove env d key v Hl Hf).
  reflexivity.
Qed.

(** Only the loading of the property list looks at [plist_load]. *)
Ltac same_fields :=
  cbn [Sample.with_plist root_str root_is_dir exists_ glob file plist_load
         xml json_parse py_str exn_str];
  try reflexivity.

Lemma find_info_plist_with_plist :
  forall v env, find_info_plist (Sample.with_plist v env) = find_info_plist env.
Proof.
  intros. unfold find_info_plist, mentions, path_str. same_fields.
Qed.

Lemma permission_loop_with_plist :
  forall v env plist keys found,
    permission_loop (Sample.with_plist v env) plist keys found
    = permission_loop env plist keys found.
Proof.
  intros v env plist keys.
  induction keys as [| [k name] rest IH]; intro found; [reflexivity |].
  cbn [permission_loop].
  destruct (get plist k VNone) as [val | e]; [| reflexivity].
  rewrite !bind_lift_ok.
  destruct (truthy val); [| apply IH].
  destruct (stripped_length val) as [n | e]; [| reflexivity].
  rewrite !bind_lift_ok.
  destruct (Nat.ltb n 10); [| apply IH].
  rewrite IH. reflexivity.
Qed.

Lemma info_plist_checks_with_plist :
  forall v env plist,
    info_plist_checks (Sample.with_plist v env) plist
    = info_plist_checks env plist.
Proof.
  intros. unfold info_plist_checks, permission_checks.
  rewrite permission_loop_with_plist.
  unfold bundle_checks, version_checks, fmt. same_fields.
Qed.

Lemma scan_files_with_plist :
  forall v env pf patterns files,
    scan_files (Sample.with_plist v env) pf patterns files
    = scan_files env pf patterns files.
Proof.
  intros v env pf patterns files.
  induction files as [| f rest IH]; [reflexivity |].
  cbn [scan_files]. rewrite IH.
  unfold scan_file, read_text_ignore. same_fields.
Qed.

Lemma after_plist_with_plist :
  forall v env,
    privacy_manifest_block (Sample.with_plist v env) = privacy_manifest_block env
    /\ icon_block (Sample.with_plist v env) = icon_block env
    /\ swift_files (Sample.with_plist v env) = swift_files env.
Proof.
  intros. split; [| split].
  - unfold privacy_manifest_block, outside_pods_build, mentions, path_str.
    same_fields.
  - unfold icon_block, icon_contents_checks, outside_pods_build, mentions,
      path_str, read_text, json_loads.
    same_fields.
  - unfold swift_files, outside_pods_build, mentions, path_str. same_fields.
Qed.

Lemma ios_checks_with_plist :
  forall v env,
    ios_checks (Sample.with_plist v env)
    = (match find_info_plist env with
       | Some plist_path =>
           ok "ios" "config" ("Info.plist found at " +s+ rel plist_path) >>
           try_except
             (info_plist_checks env v)
             (fun _ => true)
             (fun e => warn "ios" "config"
                            ("Could not parse Info.plist: " +s+ exn_str env e))
       | None => error "ios" "config" "Info.plist not found"
       end) >>
      privacy_manifest_block env >>
      icon_block env >>
      secret_scan env "ios" (secret_patterns ":=") (swift_files env).
Proof.
  intros v env.
  destruct (after_plist_with_plist v env) as (Hp & Hi & Hs).
  unfold ios_checks, secret_scan. rewrite Hp, Hi, Hs, scan_files_with_plist.
  unfold info_plist_block. rewrite find_info_plist_with_plist.
  destruct (find_info_plist env) as [plist_path |]; [| reflexivity].
  change (plist_load (Sample.with_plist v env) plist_path) with (Ok v).
  rewrite bind_lift_ok, info_plist_checks_with_plist.
  reflexivity.
Qed.

(** C10.  A catalogued key whose value is the empty string, or any other
    falsy value, leaves no trace in the iOS check: the loop passes it by,
    neither warning nor counting it, and the check returns exactly what it
    returns for the property list without that key. *)
Theorem falsy_description_is_passed_by :
  forall env fw d key name v,
    In (key, name) permission_keys ->
    lookup key d = Some v ->
    truthy v = false ->
    (forall rest found,
        permission_loop env (VDict d) ((key, name) :: rest) found
        = permission_loop env (VDict d) rest found)
    /\ check_ios (Sample.with_plist (VDict d) env) fw
       = check_ios (Sample.with_plist (VDict (dict_remove key d)) env) fw.
Proof.
  intros env fw d key name v Hin Hl Hf.
  split.
  - intros rest found. cbn [permission_loop]. unfold get.
    rewrite Hl, bind_lift_ok, Hf. reflexivity.
  - unfold check_ios. rewrite !ios_checks_with_plist.
    rewrite (info_plist_checks_remove env d key name v Hin Hl Hf).
    reflexivity.
Qed.

Lemma falsy_description_is_passed_by_witness :
  check_ios (Sample.ios_app Sample.empty_camera) "native"
  = check_ios (Sample.ios_app
                 (VDict [("CFBundleIdentifier", VStr "com.example.app")]))
              "native".
Proof.
  exact (proj2 (falsy_description_is_passed_by
                  (Sample.with_present [["Info.plist"]] Sample.bare) "native"
                  [("CFBundleIdentifier", VStr "com.example.app");
                   ("NSCameraUsageDescription", VStr EmptyString)]
                  "NSCameraUsageDescription" "Camera" (VStr EmptyString)
                  (or_introl eq_refl) eq_refl eq_refl)).
Defined.

End Falsy.

(** ** More on classification and aggregation *)
Section ClassificationShape.
Import Py Fs Check Scanner.

Lemma platform_dirs_shape :
  forall env,
    In (platform_dirs env) [[]; ["ios"]; ["android"]; ["ios"; "android"]].
Proof.
  intro env. unfold platform_dirs.
  destruct (exists_ env ["ios"]), (exists_ env ["android"]); simpl; tauto.
Qed.

Lemma native_platforms_shape :
  forall env,
    In (native_platforms env) [[]; ["ios"]; ["android"]; ["ios"; "android"]].
Proof.
  intro env. unfold native_platforms.
  destruct (nonempty _ || exists_ env ["ios"]);
    destruct (exists_ env ["app"; "build.gradle"] || _);
    try destruct (exists_ env ["android"; "app"; "build.gradle"] || _);
    simpl; tauto.
Qed.

(** X1.  Whenever the classifier returns, the framework is one of the three
    names and the platforms are [ios] and [android], each at most once and
    in that order. *)
Theorem classification_is_well_formed :
  forall env p,
    detect_project_type env = Ok p ->
    In (framework p) ["flutter"; "react-native"; "native"]
    /\ In (platforms p) [[]; ["ios"]; ["android"]; ["ios"; "android"]].
Proof.
  intros env p. unfold detect_project_type.
  pose proof (platform_dirs_shape env) as Hd.
  pose proof (native_platforms_shape env) as Hn.
  destruct (exists_ env ["pubspec.yaml"] && exists_ env ["lib"]).
  - intro H. injection H as <-. simpl. tauto.
  - destruct (exists_ env ["package.json"]).
    + destruct (package_is_react_native env) as [[|] | e].
      * intro H. injection H as <-. simpl. tauto.
      * intro H. injection H as <-. simpl. tauto.
      * destruct (caught_json_os e); [| discriminate].
        intro H. injection H as <-. simpl. tauto.
    + intro H. injection H as <-. simpl. tauto.
Qed.

Lemma classification_is_well_formed_witness :
  In "flutter" ["flutter"; "react-native"; "native"]
  /\ In ["ios"] [[]; ["ios"]; ["android"]; ["ios"; "android"]].
Proof.
  exact (classification_is_well_formed Sample.hybrid_app
           {| framework := "flutter"; platforms := ["ios"] |} eq_refl).
Defined.

(** X2.  A root without any of the markers the classifier looks for is a
    native project without platforms, and the report of its scan holds the
    findings of the common rule set and nothing else. *)
Theorem unrecognised_project_gets_common_findings_only :
  forall argv env r,
    main argv env = Done r ->
    exists_ env ["pubspec.yaml"] = false ->
    exists_ env ["package.json"] = false ->
    glob env [] "*.xcodeproj" = [] ->
    glob env [] "*.xcworkspace" = [] ->
    exists_ env ["ios"] = false ->
    exists_ env ["app"; "build.gradle"] = false ->
    exists_ env ["app"; "build.gradle.kts"] = false ->
    exists_ env ["android"; "app"; "build.gradle"] = false ->
    exists_ env ["android"; "app"; "build.gradle.kts"] = false ->
    project_type r = {| framework := "native"; platforms := [] |}
    /\ check_common env = Ok (issues r).
Proof.
  intros argv env r Hmain Hpub Hpkg Hx1 Hx2 Hios Ha1 Ha2 Ha3 Ha4.
  apply main_done in Hmain.
  destruct (scan_inversion env r Hmain)
    as (p & common & specific & ios & android & Hp & Hc & Hs & Hi & Ha & Hpt & Hall & _).
  assert (Hnative : p = {| framework := "native"; platforms := [] |}).
  { unfold detect_project_type, native_platforms in Hp.
    rewrite Hpub, Hpkg, Hx1, Hx2, Hios, Ha1, Ha2, Ha3, Ha4 in Hp.
    simpl in Hp. injection Hp as <-. reflexivity. }
  subst p. rewrite Hnative in *.
  unfold framework_checks in Hs. simpl in Hs. injection Hs as <-.
  unfold platform_checks in Hi, Ha. simpl in Hi, Ha.
  injection Hi as <-. injection Ha as <-.
  split; [reflexivity |].
  rewrite Hall, !app_nil_r. exact Hc.
Qed.

Lemma unrecognised_project_gets_common_findings_only_witness :
  exists r,
    main ["check_project.py"; "/work/app"] Sample.bare = Done r
    /\ project_type r = {| framework := "native"; platforms := [] |}
    /\ check_common Sample.bare = Ok (issues r).
Proof.
  eexists. split; [vm_compute; reflexivity |].
  exact (unrecognised_project_gets_common_findings_only
           ["check_project.py"; "/work/app"] Sample.bare _ eq_refl
           eq_refl eq_refl eq_refl eq_refl eq_refl eq_refl eq_refl eq_refl eq_refl).
Defined.

End ClassificationShape.

(** ** The tag of a rule set on its findings *)
Section Tags.
Import Py Fs Check Scanner.

Lemma emits_pattern_warnings :
  forall (P : Finding -> Prop) pf patterns content f,
    (forall msg, P {| platform := pf; category := "security";
                      message := msg; severity := "warning" |}) ->
    emits P (scan_patterns pf patterns content f).
Proof.
  intros P pf patterns content f HP.
  induction patterns as [| [pattern desc] more IH]; simpl.
  - apply emits_ret.
  - destruct (Re.search pattern content); [| exact IH].
    apply emits_emit. apply HP.
Qed.

Lemma emits_scan_warnings :
  forall (P : Finding -> Prop) env pf patterns files,
    (forall msg, P {| platform := pf; category := "security";
                      message := msg; severity := "warning" |}) ->
    emits P (secret_scan env pf patterns files).
Proof.
  intros P env pf patterns files HP. unfold secret_scan.
  induction (firstn 200 files) as [| f rest IH]; simpl.
  - apply emits_ret.
  - apply emits_bind; [| intros _; exact IH].
    unfold scan_file. apply emits_try; [| intros; apply emits_ret].
    apply emits_bind; [apply emits_lift | intros content].
    apply emits_pattern_warnings. exact HP.
Qed.

Lemma emits_permission_warnings :
  forall (P : Finding -> Prop) env plist keys found,
    (forall msg, P {| platform := "ios"; category := "privacy";
                      message := msg; severity := "warning" |}) ->
    emits P (permission_loop env plist keys found).
Proof.
  intros P env plist keys found HP. revert found.
  induction keys as [| [key name] rest IH]; intro found; simpl.
  - apply emits_ret.
  - apply emits_bind; [apply emits_lift | intros val].
    destruct (truthy val); [| apply IH].
    apply emits_bind; [apply emits_lift | intros n].
    destruct (Nat.ltb n 10); [| apply IH].
    apply emits_bind; [apply emits_emit; apply HP | intros _; apply IH].
Qed.

Ltac tag_leaf := apply emits_emit; reflexivity.
Ltac tags := emits_with tag_leaf.

Lemma ios_findings_are_tagged : forall env, emits (tagged "ios") (ios_checks env).
Proof.
  intro env. unfold ios_checks.
  apply emits_bind; [| intros _; apply emits_bind; [| intros _; apply emits_bind;
    [| intros _; apply emits_scan_warnings; reflexivity]]].
  - unfold info_plist_block, info_plist_checks, bundle_checks, version_checks,
      permission_checks, ats_checks.
    destruct (find_info_plist env); [| tags].
    apply emits_bind; [tags | intros _].
    apply emits_try; [| intros; tags].
    apply emits_bind; [tags | intros plist].
    apply emits_bind; [tags | intros _].
    apply emits_bind; [tags | intros _].
    apply emits_bind; [| intros _; tags].
    apply emits_bind;
      [apply emits_permission_warnings; reflexivity | intros found; tags].
  - unfold privacy_manifest_block. tags.
  - unfold icon_block, icon_contents_checks. tags.
Qed.

Lemma android_findings_are_tagged :
  forall env, emits (tagged "android") (android_checks env).
Proof.
  intro env. unfold android_checks.
  apply emits_bind; [| intros _; apply emits_bind; [| intros _; apply emits_bind;
    [| intros _; apply emits_scan_warnings; reflexivity]]].
  - unfold manifest_block, manifest_checks. tags.
  - unfold gradle_block, gradle_checks, target_sdk_check. tags.
  - unfold android_icon_block. tags.
Qed.

Lemma flutter_findings_are_tagged :
  forall env, emits (tagged "flutter") (flutter_checks env).
Proof.
  intro env. unfold flutter_checks, pubspec_checks, podfile_lock_check. tags.
Qed.

Lemma react_native_findings_are_tagged :
  forall env, emits (tagged "react-native") (react_native_checks env).
Proof.
  intro env.
  unfold react_native_checks, package_json_checks, expo_checks, podfile_lock_check.
  tags.
Qed.

Lemma common_findings_are_tagged :
  forall env, emits (tagged "common") (common_checks env).
Proof.
  intro env.
  unfold common_checks, env_file_checks, gitignore_checks, readme_checks. tags.
Qed.

(** X3.  In the report of a completed scan the findings come in four
    groups, in this order: those tagged [common], those tagged with the
    framework detected ([flutter] or [react-native]; none for a native
    project), those tagged [ios] and those tagged [android]. *)
Theorem findings_are_grouped_by_rule_set :
  forall argv env r,
    main argv env = Done r ->
    exists common specific ios android,
      issues r = common ++ specific ++ ios ++ android
      /\ Forall (tagged "common") common
      /\ Forall (tagged (framework (project_type r))) specific
      /\ (framework (project_type r) = "native" -> specific = [])
      /\ Forall (tagged "ios") ios
      /\ Forall (tagged "android") android.
Proof.
  intros argv env r Hmain.
  apply main_done in Hmain.
  destruct (scan_inversion env r Hmain)
    as (p & common & specific & ios & android & _ & Hc & Hs & Hi & Ha & Hp & Hall & _).
  subst p.
  exists common, specific, ios, android.
  split; [exact Hall |].
  split; [exact (run_emits _ _ _ (common_findings_are_tagged env) Hc) |].
  unfold framework_checks in Hs. unfold platform_checks in Hi, Ha.
  split; [| split; [| split]].
  - destruct (String.eqb_spec (framework (project_type r)) "flutter") as [-> | _].
    + exact (run_emits _ _ _ (flutter_findings_are_tagged env) Hs).
    + destruct (String.eqb_spec (framework (project_type r)) "react-native")
        as [-> | _].
      * exact (run_emits _ _ _ (react_native_findings_are_tagged env) Hs).
      * injection Hs as <-. constructor.
  - intro Hn. rewrite Hn in Hs. simpl in Hs. injection Hs as <-. reflexivity.
  - destruct (mem "ios" (platforms (project_type r))).
    + exact (run_emits _ _ _ (ios_findings_are_tagged env) Hi).
    + injection Hi as <-. constructor.
  - destruct (mem "android" (platforms (project_type r))).
    + exact (run_emits _ _ _ (android_findings_are_tagged env) Ha).
    + injection Ha as <-. constructor.
Qed.

Lemma findings_are_grouped_by_rule_set_witness :
  exists r common specific ios android,
    main ["check_project.py"; "/work/app"] Sample.flutter_app = Done r
    /\ issues r = common ++ specific ++ ios ++ android
    /\ Forall (tagged "common") common
    /\ Forall (tagged "flutter") specific
    /\ Forall (tagged "ios") ios
    /\ Forall (tagged "android") android.
Proof.
  eexists.
  destruct (findings_are_grouped_by_rule_set
              ["check_project.py"; "/work/app"] Sample.flutter_app _ eq_refl)
    as (common & specific & ios & android & Hall & Hc & Hs & _ & Hi & Ha).
  exists common, specific, ios, android.
  split; [vm_compute; reflexivity |].
  repeat split; assumption.
Defined.

End Tags.

(** ** What the manifest locators return *)
Section LocatorResults.
Import Py Fs Check Scanner.

Lemma first_of_none :
  forall (A : Type) (l : list A), first_of l = None <-> l = [].
Proof.
  intros A [| x l]; simpl; split; intro H; try reflexivity; discriminate.
Qed.

Lemma first_of_in :
  forall (A : Type) (l : list A) (x : A), first_of l = Some x -> In x l.
Proof.
  intros A [| y l] x H; simpl in H; [discriminate |].
  injection H as ->. left. reflexivity.
Qed.

(** X4.  The two manifest locators return nothing only when nothing is
    there: no conventional path exists and the recursive search finds no
    file at all.  What they return is a conventional path that exists or a
    match of the search. *)
Theorem manifest_is_missed_only_when_absent :
  forall env,
    (find_info_plist env = None <->
     exists_ env ["ios"; "Runner"; "Info.plist"] = false
     /\ exists_ env ["Info.plist"] = false
     /\ glob env [] "**/Info.plist" = [])
    /\ (find_android_manifest env = None <->
        exists_ env ["android"; "app"; "src"; "main"; "AndroidManifest.xml"] = false
        /\ exists_ env ["app"; "src"; "main"; "AndroidManifest.xml"] = false
        /\ glob env [] "**/src/main/AndroidManifest.xml" = [])
    /\ (forall p,
           find_info_plist env = Some p ->
           (In p info_plist_candidates /\ exists_ env p = true)
           \/ In p (glob env [] "**/Info.plist"))
    /\ (forall p,
           find_android_manifest env = Some p ->
           (In p android_manifest_candidates /\ exists_ env p = true)
           \/ In p (glob env [] "**/src/main/AndroidManifest.xml")).
Proof.
  intro env. unfold find_info_plist, find_android_manifest.
  split; [| split; [| split]].
  - cbn [find info_plist_candidates].
    destruct (exists_ env ["ios"; "Runner"; "Info.plist"]);
      [split; [discriminate | intros (H & _); discriminate H] |].
    destruct (exists_ env ["Info.plist"]);
      [split; [discriminate | intros (_ & H & _); discriminate H] |].
    destruct (find _ (glob env [] "**/Info.plist")) as [q |] eqn:Hq.
    + split; [discriminate |]. intros (_ & _ & H). rewrite H in Hq. discriminate Hq.
    + rewrite first_of_none. tauto.
  - cbn [find android_manifest_candidates].
    destruct (exists_ env ["android"; "app"; "src"; "main"; "AndroidManifest.xml"]);
      [split; [discriminate | intros (H & _); discriminate H] |].
    destruct (exists_ env ["app"; "src"; "main"; "AndroidManifest.xml"]);
      [split; [discriminate | intros (_ & H & _); discriminate H] |].
    destruct (find _ (glob env [] "**/src/main/AndroidManifest.xml")) as [q |] eqn:Hq.
    + split; [discriminate |]. intros (_ & _ & H). rewrite H in Hq. discriminate Hq.
    + rewrite first_of_none. tauto.
  - intros p.
    destruct (find (exists_ env) info_plist_candidates) as [q |] eqn:Hq.
    + intro H. injection H as <-. left. exact (find_some _ _ Hq).
    + destruct (find _ (glob env [] "**/Info.plist")) as [q |] eqn:Hg.
      * intro H. injection H as <-. right. exact (proj1 (find_some _ _ Hg)).
      * intro H. right. exact (first_of_in _ _ _ H).
  - intros p.
    destruct (find (exists_ env) android_manifest_candidates) as [q |] eqn:Hq.
    + intro H. injection H as <-. left. exact (find_some _ _ Hq).
    + destruct (find _ (glob env [] "**/src/main/AndroidManifest.xml"))
        as [q |] eqn:Hg.
      * intro H. injection H as <-. right. exact (proj1 (find_some _ _ Hg)).
      * intro H. right. exact (first_of_in _ _ _ H).
Qed.

Lemma manifest_is_missed_only_when_absent_witness :
  find_info_plist Sample.bare = None
  /\ In ["Pods"; "Lib"; "Info.plist"] (glob Sample.pods_only [] "**/Info.plist").
Proof.
  split.
  - apply (proj1 (manifest_is_missed_only_when_absent Sample.bare)).
    repeat split; reflexivity.
  - destruct (proj1 (proj2 (proj2 (manifest_is_missed_only_when_absent Sample.pods_only)))
                _ eq_refl) as [[_ H] | H]; [discriminate H | exact H].
Defined.

End LocatorResults.

(** ** What the patterns capture *)
Section Captures.
Import Py Fs Check Scanner.

Lemma first_some_found :
  forall (A B : Type) (f : A -> option B) (l : list A) (b : B),
    Re.first_some f l = Some b -> exists a, In a l /\ f a = Some b.
Proof.
  intros A B f l b. induction l as [| a l IH]; simpl; [discriminate |].
  destruct (f a) as [b' |] eqn:Hfa.
  - intro H. injection H as ->. exists a. split; [left; reflexivity | exact Hfa].
  - intro H. destruct (IH H) as (a' & Hin & Ha'). exists a'. split; [right |]; assumption.
Qed.

Lemma group_here_found :
  forall pre grp post s g,
    Re.group_here pre grp post s = Some g ->
    exists n1 n2,
      In n1 (Re.ends pre s)
      /\ In n2 (Re.ends grp (Text.drop n1 s))
      /\ Re.matches_here post (Text.drop (n1 + n2) s) = true
      /\ g = Text.take n2 (Text.drop n1 s).
Proof.
  intros pre grp post s g H. unfold Re.group_here in H.
  destruct (first_some_found _ _ _ _ _ H) as (n1 & Hn1 & H1).
  destruct (first_some_found _ _ _ _ _ H1) as (n2 & Hn2 & H2).
  exists n1, n2.
  destruct (Re.matches_here post (Text.drop (n1 + n2) s)); [| discriminate].
  injection H2 as <-. repeat split; assumption.
Qed.

Lemma search_group_found :
  forall pre grp post s g,
    Re.search_group pre grp post s = Some g ->
    exists i, Re.group_here pre grp post (Text.drop i s) = Some g.
Proof.
  intros pre grp post s g.
  induction s as [| c s IH]; simpl.
  - destruct (Re.group_here pre grp post EmptyString) eqn:Hh; [| discriminate].
    intro H. injection H as ->. exists 0. exact Hh.
  - destruct (Re.group_here pre grp post (String c s)) eqn:Hh.
    + intro H. injection H as ->. exists 0. exact Hh.
    + intro H. destruct (IH H) as (i & Hi). exists (S i). exact Hi.
Qed.

Lemma ends_star_of_class :
  forall p fuel s n,
    In n (Re.ends_star (Re.ends (Re.Chr p)) fuel s) ->
    n <= String.length s
    /\ forallb p (list_ascii_of_string (Text.take n s)) = true.
Proof.
  intros p fuel.
  induction fuel as [| fuel IH]; intros s n Hin.
  - simpl in Hin. destruct Hin as [<- | []]. split; [lia | destruct s; reflexivity].
  - cbn [Re.ends_star] in Hin. apply in_app_or in Hin.
    destruct Hin as [Hin | [<- | []]]; [| split; [lia | destruct s; reflexivity]].
    apply in_flat_map in Hin. destruct Hin as (k & Hk & Hin).
    destruct s as [| c s]; [contradiction |].
    cbn [Re.ends] in Hk. destruct (p c) eqn:Hpc; [| contradiction].
    destruct Hk as [<- | []].
    apply in_map_iff in Hin. destruct Hin as (m & <- & Hm).
    cbn [Text.drop] in Hm. destruct (IH s m Hm) as [Hle Hall].
    split; [simpl; lia |].
    cbn [Nat.add Text.take list_ascii_of_string forallb].
    rewrite Hpc. exact Hall.
Qed.

Lemma ends_plus_of_class :
  forall p s n,
    In n (Re.ends (Re.plus (Re.Chr p)) s) ->
    1 <= n <= String.length s
    /\ forallb p (list_ascii_of_string (Text.take n s)) = true.
Proof.
  intros p s n Hin. unfold Re.plus in Hin. cbn [Re.ends] in Hin.
  apply in_flat_map in Hin. destruct Hin as (k & Hk & Hin).
  destruct s as [| c s]; [contradiction |].
  destruct (p c) eqn:Hpc; [| contradiction].
  destruct Hk as [<- | []].
  apply in_map_iff in Hin. destruct Hin as (m & <- & Hm).
  cbn [Text.drop] in Hm.
  destruct (ends_star_of_class p _ s m Hm) as [Hle Hall].
  split; [simpl; lia |].
  cbn [Nat.add Text.take list_ascii_of_string forallb].
  rewrite Hpc. exact Hall.
Qed.

Lemma take_is_empty :
  forall n s, Text.take n s = EmptyString -> n = 0 \/ s = EmptyString.
Proof.
  intros [| n] [| c s] H; try (left; reflexivity); try (right; reflexivity).
  discriminate H.
Qed.

(** X5.  The number a pattern of the build descriptor captures
    ([versionCode], and the three SDK levels with or without [Version]) is
    never empty and consists of decimal digits only, so its conversion by
    [int] is defined. *)
Theorem captured_number_is_digits :
  forall word content g,
    search_number word content = Some g ->
    g <> EmptyString /\ all_digits g = true.
Proof.
  intros word content g H. unfold search_number in H.
  destruct (search_group_found _ _ _ _ _ H) as (i & Hi).
  destruct (group_here_found _ _ _ _ _ Hi) as (n1 & n2 & _ & Hn2 & _ & ->).
  destruct (ends_plus_of_class _ _ _ Hn2) as [[Hpos Hle] Hall].
  split; [| exact Hall].
  intro Hempty. destruct (take_is_empty _ _ Hempty) as [H0 | Hs].
  - lia.
  - rewrite Hs in Hle. simpl in Hle. lia.
Qed.

Lemma captured_number_is_digits_witness :
  search_sdk "targetSdk" "    targetSdkVersion 34" = Some "34"
  /\ "34" <> EmptyString /\ all_digits "34" = true.
Proof.
  split; [reflexivity |].
  exact (captured_number_is_digits
           (Re.Cat (Re.lit "targetSdk") (Re.opt (Re.lit "Version")))
           "    targetSdkVersion 34" "34" eq_refl).
Defined.

End Captures.

(** ** Whether a check returns *)
Section Raising.
Import Py Fs Check Scanner.

Lemma snd_bind :
  forall (A B : Type) (m : M A) (k : A -> M B),
    snd (bind m k)
    = match snd m with
      | Ok a => snd (k a)
      | Raise e => Raise e
      end.
Proof.
  intros A B [out [a | e]] k; unfold bind; simpl; [| reflexivity].
  destruct (k a); reflexivity.
Qed.

Lemma snd_bind_lift :
  forall (A B : Type) (r : result A) (k : A -> M B),
    snd (bind (lift r) k)
    = match r with
      | Ok a => snd (k a)
      | Raise e => Raise e
      end.
Proof. intros. rewrite snd_bind. reflexivity. Qed.

Lemma snd_try :
  forall body handled handler,
    snd (try_except body handled handler)
    = match snd body with
      | Ok a => Ok a
      | Raise e => if handled e then snd (handler e) else Raise e
      end.
Proof.
  intros [out [a | e]] handled handler; unfold try_except; simpl; [reflexivity |].
  destruct (handled e); [| reflexivity].
  destruct (handler e); reflexivity.
Qed.

Lemma snd_when :
  forall b m, snd (when b m) = if b then snd m else Ok tt.
Proof. intros [|] m; reflexivity. Qed.

Lemma run_raises :
  forall m e, run m = Raise e <-> snd m = Raise e.
Proof.
  intros [out [[] | e']] e; unfold run; cbn [snd]; split; intro H;
    first [discriminate H | injection H as ->; reflexivity].
Qed.

Lemma run_returns :
  forall m issues, run m = Ok issues <-> snd m = Ok tt /\ fst m = issues.
Proof.
  intros [out [[] | e']] issues; simpl; split.
  - intro H. injection H as <-. split; reflexivity.
  - intros [_ <-]. reflexivity.
  - discriminate.
  - intros [H _]. discriminate H.
Qed.

Lemma secret_scan_returns :
  forall env pf patterns files,
    snd (secret_scan env pf patterns files) = Ok tt.
Proof.
  intros. unfold secret_scan. rewrite scan_files_flat_map. reflexivity.
Qed.

Lemma podfile_lock_check_returns :
  forall env pf, snd (podfile_lock_check env pf) = Ok tt.
Proof.
  intros env pf. unfold podfile_lock_check.
  destruct (exists_ env ["ios"; "Podfile.lock"]); [reflexivity |].
  destruct (exists_ env ["ios"]); reflexivity.
Qed.

End Raising.

(** ** The Android and iOS checks and the exceptions they let through *)
Section PlatformRaising.
Import Py Fs Check Scanner.

Lemma manifest_checks_returns :
  forall manifest_root, snd (manifest_checks manifest_root) = Ok tt.
Proof.
  intro manifest_root. unfold manifest_checks.
  rewrite !snd_bind, !snd_when.
  destruct (element_get manifest_root "package") as [package |];
    [destruct (negb (String.eqb package EmptyString)) |];
    cbn [ok warn warn_as emit snd];
    repeat match goal with
           | |- context [if ?b then _ else _] => destruct b
           end;
    reflexivity.
Qed.

Lemma int_raises_value_error :
  forall s e, Py.int s = Raise e -> e = ValueError.
Proof.
  intros s e. unfold Py.int.
  destruct (Nat.ltb max_str_digits (String.length s)); [| discriminate].
  intro H. injection H as <-. reflexivity.
Qed.

Lemma target_sdk_check_result :
  forall content,
    snd (target_sdk_check content)
    = match search_sdk "targetSdk" content with
      | Some digits =>
          match Py.int digits with
          | Ok _ => Ok tt
          | Raise e => Raise e
          end
      | None => Ok tt
      end.
Proof.
  intro content. unfold target_sdk_check.
  destruct (search_sdk "targetSdk" content) as [digits |]; [| reflexivity].
  rewrite snd_bind_lift.
  destruct (Py.int digits) as [sdk_val | e]; [| reflexivity].
  destruct (sdk_val <? 34)%N; reflexivity.
Qed.

Lemma gradle_checks_result :
  forall content, snd (gradle_checks content) = snd (target_sdk_check content).
Proof.
  intro content. unfold gradle_checks.
  rewrite !snd_bind.
  destruct (search_version_name content);
    destruct (search_number (Re.lit "versionCode") content);
    cbn [ok ret emit snd];
    (destruct (snd (target_sdk_check content)) as [[] | e]; [| reflexivity]);
    destruct (Text.contains "signingConfigs" content
              && Text.contains "release" content);
    destruct (Text.contains "minifyEnabled true" content
              || Text.contains "isMinifyEnabled = true" content);
    reflexivity.
Qed.

Lemma manifest_block_result :
  forall env,
    snd (manifest_block env)
    = match find_android_manifest env with
      | Some p =>
          match xml env p with
          | XUnreadable => Raise OSError
          | _ => Ok tt
          end
      | None => Ok tt
      end.
Proof.
  intro env. unfold manifest_block.
  destruct (find_android_manifest env) as [p |]; [| reflexivity].
  rewrite snd_bind. cbn [ok emit snd].
  rewrite snd_try, snd_bind_lift. unfold et_parse.
  destruct (xml env p); [reflexivity | reflexivity |].
  rewrite manifest_checks_returns. reflexivity.
Qed.

Lemma gradle_block_result :
  forall env,
    snd (gradle_block env)
    = match find_build_gradle env with
      | Some g =>
          match file env g with
          | Unreadable => Ok tt
          | Undecodable _ => Raise UnicodeDecodeError
          | Readable content => snd (target_sdk_check content)
          end
      | None => Ok tt
      end.
Proof.
  intro env. unfold gradle_block.
  destruct (find_build_gradle env) as [g |]; [| reflexivity].
  rewrite snd_bind. cbn [ok emit snd].
  rewrite snd_try, snd_bind_lift. unfold read_text.
  destruct (file env g) as [| lossy | content]; [reflexivity | reflexivity |].
  rewrite gradle_checks_result, target_sdk_check_result.
  destruct (search_sdk "targetSdk" content) as [digits |]; [| reflexivity].
  destruct (Py.int digits) as [sdk_val | e] eqn:Hint; [reflexivity |].
  rewrite (int_raises_value_error _ _ Hint). reflexivity.
Qed.

Lemma android_icon_block_returns :
  forall env, snd (android_icon_block env) = Ok tt.
Proof.
  intro env. unfold android_icon_block.
  destruct (exists_ env _); [| reflexivity].
  rewrite snd_bind.
  destruct (nonempty (glob env _ "mipmap-*")); cbn [ok warn warn_as emit snd];
    destruct (nonempty _); reflexivity.
Qed.

(** X8.  [check_android] lets two read errors through.  When the manifest
    it located cannot be opened, the [OSError] of the XML parser passes the
    handler for parse errors and the check raises it.  When the manifest is
    absent or could be opened and the build descriptor it located is not
    decodable text, the [UnicodeDecodeError] passes the handler for read
    errors and the check raises it. *)
Theorem android_check_lets_read_errors_through :
  forall env fw,
    (forall p,
        find_android_manifest env = Some p ->
        xml env p = XUnreadable ->
        check_android env fw = Raise OSError)
    /\ (forall g lossy,
           (find_android_manifest env = None
            \/ exists p, find_android_manifest env = Some p
                         /\ xml env p <> XUnreadable) ->
           find_build_gradle env = Some g ->
           file env g = Undecodable lossy ->
           check_android env fw = Raise UnicodeDecodeError).
Proof.
  intros env fw. split.
  - intros p Hm Hx. unfold check_android. apply run_raises.
    unfold android_checks. rewrite snd_bind, manifest_block_result, Hm, Hx.
    reflexivity.
  - intros g lossy Hm Hg Hf. unfold check_android. apply run_raises.
    unfold android_checks.
    rewrite !snd_bind, manifest_block_result, gradle_block_result, Hg, Hf.
    destruct Hm as [-> | (p & -> & Hx)]; [reflexivity |].
    destruct (xml env p); [exfalso; apply Hx; reflexivity | reflexivity | reflexivity].
Qed.

Lemma android_check_lets_read_errors_through_witness :
  check_android Tree.locked_manifest "native" = Raise OSError
  /\ check_android Tree.garbled_gradle "native" = Raise UnicodeDecodeError.
Proof.
  split.
  - exact (proj1 (android_check_lets_read_errors_through Tree.locked_manifest "native")
                 ["app"; "src"; "main"; "AndroidManifest.xml"] eq_refl eq_refl).
  - apply (proj2 (android_check_lets_read_errors_through Tree.garbled_gradle "native")
                 ["app"; "build.gradle"] "?").
    + left. reflexivity.
    + reflexivity.
    + reflexivity.
Defined.

End PlatformRaising.

(** ** Failures that become findings *)
Section Degrading.
Import Py Fs Check Scanner.

(** X9.  In [check_android] a manifest that is found and is not
    well-formed XML costs one warning, appended after the pass for its
    being found, and a build descriptor that is found and cannot be opened
    costs one warning likewise; the check goes on to the icons and the
    secret scan and returns. *)
Theorem damaged_android_files_become_warnings :
  forall env fw p g,
    find_android_manifest env = Some p ->
    xml env p = XMalformed ->
    find_build_gradle env = Some g ->
    file env g = Unreadable ->
    check_android env fw
    = Ok ([ {| platform := "android"; category := "config";
               message := "AndroidManifest.xml found at " +s+ rel p;
               severity := "pass" |};
            {| platform := "android"; category := "config";
               message := "Could not parse AndroidManifest.xml: " +s+ exn_str env ParseError;
               severity := "warning" |};
            {| platform := "android"; category := "config";
               message := "build.gradle found at " +s+ rel g;
               severity := "pass" |};
            {| platform := "android"; category := "config";
               message := "Could not read build.gradle: " +s+ exn_str env OSError;
               severity := "warning" |} ]
          ++ fst (android_icon_block env)
          ++ fst (secret_scan env "android" (secret_patterns "=") (java_kotlin_files env))).
Proof.
  intros env fw p g Hm Hx Hg Hf.
  unfold check_android. apply run_returns.
  unfold android_checks.
  assert (Hmb : manifest_block env
                = ([ {| platform := "android"; category := "config";
                        message := "AndroidManifest.xml found at " +s+ rel p;
                        severity := "pass" |};
                     {| platform := "android"; category := "config";
                        message := "Could not parse AndroidManifest.xml: "
                                   +s+ exn_str env ParseError;
                        severity := "warning" |} ], Ok tt)).
  { unfold manifest_block, et_parse. rewrite Hm, Hx. reflexivity. }
  assert (Hgb : gradle_block env
                = ([ {| platform := "android"; category := "config";
                        message := "build.gradle found at " +s+ rel g;
                        severity := "pass" |};
                     {| platform := "android"; category := "config";
                        message := "Could not read build.gradle: "
                                   +s+ exn_str env OSError;
                        severity := "warning" |} ], Ok tt)).
  { unfold gradle_block, read_text. rewrite Hg, Hf. reflexivity. }
  rewrite Hmb, bind_pair_ok, Hgb. cbn [fst snd].
  rewrite bind_pair_ok. cbn [fst snd].
  rewrite (bind_ok _ _ (android_icon_block env) _ tt (android_icon_block_returns env)).
  cbn [fst snd]. rewrite secret_scan_returns.
  split; reflexivity.
Qed.

Lemma damaged_android_files_become_warnings_witness :
  exists issues,
    check_android Tree.damaged_android "native" = Ok issues
    /\ List.length issues = 5.
Proof.
  eexists. split.
  - exact (damaged_android_files_become_warnings Tree.damaged_android "native"
             ["app"; "src"; "main"; "AndroidManifest.xml"] ["app"; "build.gradle"]
             eq_refl eq_refl eq_refl eq_refl).
  - reflexivity.
Defined.

Lemma info_plist_block_returns :
  forall env, snd (info_plist_block env) = Ok tt.
Proof.
  intro env. unfold info_plist_block.
  destruct (find_info_plist env) as [p |]; [| reflexivity].
  rewrite snd_bind. cbn [ok emit snd]. rewrite snd_try.
  destruct (snd (bind _ _)) as [[] | e]; reflexivity.
Qed.

(** X10.  Once [find_info_plist] has returned a path, the property-list
    block of [check_ios] returns whatever loading the file and reading the
    document raise: the handler catches every exception.  When loading
    fails, the block is the pass for the file found followed by one warning
    that quotes the exception. *)
Theorem property_list_failures_become_one_warning :
  forall env p,
    find_info_plist env = Some p ->
    snd (info_plist_block env) = Ok tt
    /\ forall e,
        plist_load env p = Raise e ->
        fst (info_plist_block env)
        = [ {| platform := "ios"; category := "config";
               message := "Info.plist found at " +s+ rel p; severity := "pass" |};
            {| platform := "ios"; category := "config";
               message := "Could not parse Info.plist: " +s+ exn_str env e;
               severity := "warning" |} ].
Proof.
  intros env p Hp. split; [apply info_plist_block_returns |].
  intros e He. unfold info_plist_block. rewrite Hp, He. reflexivity.
Qed.

Lemma property_list_failures_become_one_warning_witness :
  snd (info_plist_block Tree.unloadable_plist) = Ok tt
  /\ fst (info_plist_block Tree.unloadable_plist)
     = [ {| platform := "ios"; category := "config";
            message := "Info.plist found at Info.plist"; severity := "pass" |};
         {| platform := "ios"; category := "config";
            message := "Could not parse Info.plist: <exception>";
            severity := "warning" |} ].
Proof.
  destruct (property_list_failures_become_one_warning
              Tree.unloadable_plist ["Info.plist"] eq_refl) as [Hret Hout].
  split; [exact Hret |].
  exact (Hout OSError eq_refl).
Defined.

(** X11.  In [check_react_native] a package descriptor that exists and
    cannot be opened, or that the JSON parser rejects, costs exactly one
    warning; the check then only adds its finding on the dependency lock
    file and returns. *)
Theorem unparsable_package_descriptor_is_one_warning :
  forall env,
    exists_ env ["package.json"] = true ->
    (file env ["package.json"] = Unreadable
     \/ exists text,
         file env ["package.json"] = Readable text /\ json_parse env text = None) ->
    check_react_native env
    = Ok ({| platform := "react-native"; category := "config";
             message := "Could not parse package.json"; severity := "warning" |}
          :: fst (podfile_lock_check env "react-native")).
Proof.
  intros env Hex Hbad.
  unfold check_react_native. apply run_returns.
  unfold react_native_checks. rewrite Hex. unfold when.
  assert (Hpkg : try_except (package_json_checks env) caught_json_os
                   (fun _ => warn "react-native" "config" "Could not parse package.json")
                 = ([ {| platform := "react-native"; category := "config";
                         message := "Could not parse package.json";
                         severity := "warning" |} ], Ok tt)).
  { unfold package_json_checks, read_text, json_loads.
    destruct Hbad as [Hf | (text & Hf & Hj)]; rewrite Hf; [reflexivity |].
    rewrite bind_lift_ok, Hj. reflexivity. }
  rewrite Hpkg, bind_pair_ok. cbn [fst snd].
  rewrite podfile_lock_check_returns. split; reflexivity.
Qed.

Lemma unparsable_package_descriptor_is_one_warning_witness :
  check_react_native Sample.broken_package
  = Ok [ {| platform := "react-native"; category := "config";
            message := "Could not parse package.json"; severity := "warning" |} ].
Proof.
  apply (unparsable_package_descriptor_is_one_warning Sample.broken_package eq_refl).
  right. exists "{". split; reflexivity.
Defined.

End Degrading.

(** ** The icon descriptor *)
Section IconDescriptor.
Import Py Fs Check Scanner.

Lemma any_1024_on_dicts :
  forall images,
    Forall (fun img => is_dict img = true) images ->
    any_1024 images = Ok (existsb is_store_icon images).
Proof.
  intros images Hall.
  induction Hall as [| img rest Himg _ IH]; [reflexivity |].
  destruct img; try discriminate Himg.
  cbn [any_1024 existsb]. unfold is_store_icon, field, get. cbn [rbind].
  destruct (is_str "1024x1024" _); cbn [andb orb]; [| exact IH].
  destruct (truthy _); [reflexivity | exact IH].
Qed.

Lemma privacy_manifest_block_returns :
  forall env, snd (privacy_manifest_block env) = Ok tt.
Proof.
  intro env. unfold privacy_manifest_block.
  destruct (filter _ _); reflexivity.
Qed.

(** X12.  [check_ios] lets a misshapen icon descriptor through.  When an
    icon set is found outside [Pods] and [build] and its [Contents.json]
    exists, the handler around the descriptor catches JSON and read errors
    only: a descriptor that is not decodable text makes the check raise
    [UnicodeDecodeError], JSON that is not an object makes it raise
    [AttributeError], and an object whose [images] cannot be iterated makes
    it raise [TypeError]. *)
Theorem ios_check_lets_icon_descriptor_errors_through :
  forall env fw icon_set others,
    filter (outside_pods_build env) (glob env [] "**/AppIcon.appiconset")
    = icon_set :: others ->
    exists_ env (icon_set ++ ["Contents.json"]) = true ->
    (forall lossy,
        file env (icon_set ++ ["Contents.json"]) = Undecodable lossy ->
        check_ios env fw = Raise UnicodeDecodeError)
    /\ (forall text doc,
           file env (icon_set ++ ["Contents.json"]) = Readable text ->
           json_parse env text = Some doc ->
           is_dict doc = false ->
           check_ios env fw = Raise AttributeError)
    /\ (forall text d images,
           file env (icon_set ++ ["Contents.json"]) = Readable text ->
           json_parse env text = Some (VDict d) ->
           lookup "images" d = Some images ->
           iterate images = Raise TypeError ->
           check_ios env fw = Raise TypeError).
Proof.
  intros env fw icon_set others Hsets Hex.
  assert (Hraise : forall e,
             snd (icon_contents_checks env (icon_set ++ ["Contents.json"])) = Raise e ->
             caught_json_os e = false ->
             check_ios env fw = Raise e).
  { intros e Hc Hcaught. unfold check_ios. apply run_raises.
    unfold ios_checks. rewrite !snd_bind.
    rewrite info_plist_block_returns, privacy_manifest_block_returns.
    unfold icon_block. rewrite Hsets, Hex, snd_try, Hc, Hcaught. reflexivity. }
  split; [| split].
  - intros lossy Hf. apply Hraise; [| reflexivity].
    unfold icon_contents_checks, read_text. rewrite Hf, snd_bind_lift.
    reflexivity.
  - intros text doc Hf Hj Hdoc. apply Hraise; [| reflexivity].
    unfold icon_contents_checks, read_text, json_loads.
    rewrite Hf, bind_lift_ok, Hj, bind_lift_ok, snd_bind_lift.
    destruct doc; try discriminate Hdoc; reflexivity.
  - intros text d images Hf Hj Himages Hiter. apply Hraise; [| reflexivity].
    unfold icon_contents_checks, read_text, json_loads.
    rewrite Hf, bind_lift_ok, Hj, bind_lift_ok. cbn [get]. rewrite Himages.
    rewrite bind_lift_ok, snd_bind_lift, Hiter. reflexivity.
Qed.

Lemma ios_check_lets_icon_descriptor_errors_through_witness :
  check_ios Tree.array_icon_descriptor "native" = Raise AttributeError.
Proof.
  exact (proj1 (proj2 (ios_check_lets_icon_descriptor_errors_through
                         Tree.array_icon_descriptor "native"
                         ["Assets"; "AppIcon.appiconset"] [] eq_refl eq_refl))
               "[]" (VList []) eq_refl eq_refl eq_refl).
Defined.

(** X13.  When [Contents.json] is an object whose [images] is a list of
    objects, the icon check passes exactly when some image has the size
    1024x1024 and a non-empty file name, and reports the store icon missing
    otherwise. *)
Theorem store_icon_is_found_among_images :
  forall env cj text d images,
    file env cj = Readable text ->
    json_parse env text = Some (VDict d) ->
    lookup "images" d = Some (VList images) ->
    Forall (fun img => is_dict img = true) images ->
    icon_contents_checks env cj
    = ([ if existsb is_store_icon images
         then {| platform := "ios"; category := "assets";
                 message := "1024x1024 App Store icon found"; severity := "pass" |}
         else {| platform := "ios"; category := "assets";
                 message := "Missing 1024x1024 App Store icon in AppIcon.appiconset";
                 severity := "error" |} ],
       Ok tt).
Proof.
  intros env cj text d images Hf Hj Hl Himgs.
  unfold icon_contents_checks, read_text, json_loads, get.
  rewrite Hf, bind_lift_ok, Hj, bind_lift_ok, Hl, bind_lift_ok.
  cbn [iterate]. rewrite bind_lift_ok, (any_1024_on_dicts images Himgs), bind_lift_ok.
  destruct (existsb is_store_icon images); reflexivity.
Qed.

Lemma store_icon_is_found_among_images_witness :
  icon_contents_checks Tree.icon_descriptor_with_store_icon
                       ["Assets"; "AppIcon.appiconset"; "Contents.json"]
  = ([ {| platform := "ios"; category := "assets";
          message := "1024x1024 App Store icon found"; severity := "pass" |} ],
     Ok tt).
Proof.
  apply (store_icon_is_found_among_images Tree.icon_descriptor_with_store_icon
           ["Assets"; "AppIcon.appiconset"; "Contents.json"] "{images}"
           [("images",
             VList [VDict [("size", VStr "60x60"); ("filename", VStr "a.png")];
                    VDict [("size", VStr "1024x1024"); ("filename", VStr "store.png")]])]
           [VDict [("size", VStr "60x60"); ("filename", VStr "a.png")];
            VDict [("size", VStr "1024x1024"); ("filename", VStr "store.png")]]
           eq_refl eq_refl eq_refl).
  repeat constructor.
Defined.

End IconDescriptor.

(** ** Permission names, environment files and dependencies *)
Section Names.
Import Py Fs Check Scanner.

Lemma split_on_nonempty :
  forall sep s, Text.split_on sep s <> [].
Proof.
  intros sep [| c s]; simpl; [discriminate |].
  destruct (Ascii.eqb c sep); [discriminate |].
  destruct (Text.split_on sep s); discriminate.
Qed.

(** Splitting at a character and joining with it gives the text back. *)
Lemma join_split_on :
  forall sep s,
    Text.join (String sep EmptyString) (Text.split_on sep s) = s.
Proof.
  intros sep s. unfold Text.join.
  induction s as [| c s IH]; [reflexivity |].
  cbn [Text.split_on].
  destruct (Ascii.eqb_spec c sep) as [-> | Hne].
  - pose proof (split_on_nonempty sep s) as Hn.
    destruct (Text.split_on sep s) as [| h t]; [contradiction |].
    cbn [String.concat] in *. rewrite IH. reflexivity.
  - pose proof (split_on_nonempty sep s) as Hn.
    destruct (Text.split_on sep s) as [| h t]; [contradiction |].
    cbn [String.concat] in *. destruct t as [| h' t].
    + rewrite IH. reflexivity.
    + rewrite <- IH. reflexivity.
Qed.

Lemma split_on_pieces_lack_separator :
  forall sep s,
    Forall (fun piece => existsb (Ascii.eqb sep) (list_ascii_of_string piece) = false)
           (Text.split_on sep s).
Proof.
  intros sep s.
  induction s as [| c s IH]; cbn [Text.split_on].
  - constructor; [reflexivity | constructor].
  - destruct (Ascii.eqb_spec c sep) as [-> | Hne].
    + constructor; [reflexivity | exact IH].
    + pose proof (split_on_nonempty sep s) as Hn.
      destruct (Text.split_on sep s) as [| h t]; [contradiction |].
      inversion IH as [| ? ? Hh Ht]; subst.
      constructor; [| exact Ht].
      cbn [list_ascii_of_string existsb]. rewrite Hh.
      destruct (Ascii.eqb_spec sep c) as [-> | _]; [contradiction | reflexivity].
Qed.

Lemma append_assoc_here :
  forall a b c : string, (a +s+ b) +s+ c = a +s+ (b +s+ c).
Proof.
  intros a b c. induction a as [| x a IH]; simpl; [reflexivity |].
  rewrite IH. reflexivity.
Qed.

Lemma join_ends_with_last :
  forall sep l,
    l <> [] ->
    String.concat sep l = last l EmptyString
    \/ exists before, String.concat sep l = before +s+ sep +s+ last l EmptyString.
Proof.
  intros sep l Hl.
  induction l as [| x l IH]; [contradiction |].
  destruct l as [| y l].
  - left. reflexivity.
  - right.
    change (String.concat sep (x :: y :: l))
      with (x +s+ sep +s+ String.concat sep (y :: l)).
    change (last (x :: y :: l) EmptyString) with (last (y :: l) EmptyString).
    destruct (IH ltac:(discriminate)) as [H | (before & H)].
    + exists x. rewrite H. reflexivity.
    + exists (x +s+ sep +s+ before). rewrite H.
      rewrite !append_assoc_here. reflexivity.
Qed.

(** X14.  The name under which a declared Android permission is reported is
    what follows the last dot of its [android:name] attribute, or the whole
    attribute when it has no dot: it holds no dot itself and the attribute
    ends with it.  A permission without the attribute is reported under the
    empty name. *)
Theorem permission_name_is_last_component :
  forall perm,
    has_dot (permission_name perm) = false
    /\ (element_get perm android_name = None -> permission_name perm = EmptyString)
    /\ forall full,
        element_get perm android_name = Some full ->
        full = permission_name perm
        \/ exists before, full = before +s+ "." +s+ permission_name perm.
Proof.
  intro perm. unfold permission_name, has_dot.
  split; [| split].
  - destruct (element_get perm android_name) as [full |]; [| reflexivity].
    pose proof (split_on_pieces_lack_separator "." full) as Hall.
    pose proof (split_on_nonempty "." full) as Hne.
    rewrite Forall_forall in Hall. apply Hall.
    destruct (exists_last Hne) as (init & lst & ->).
    rewrite last_last. apply in_or_app. right. left. reflexivity.
  - intros ->. reflexivity.
  - intros full ->.
    pose proof (join_split_on "." full) as Hjoin. unfold Text.join in Hjoin.
    destruct (join_ends_with_last "." (Text.split_on "." full)
                (split_on_nonempty "." full)) as [H | (before & H)].
    + left. rewrite <- H. symmetry. exact Hjoin.
    + right. exists before. rewrite <- H. symmetry. exact Hjoin.
Qed.

Lemma permission_name_is_last_component_witness :
  permission_name
    (Element "uses-permission" [(android_name, "android.permission.CAMERA")] [])
  = "CAMERA"
  /\ ("android.permission.CAMERA" = "CAMERA"
      \/ exists before, "android.permission.CAMERA" = before +s+ "." +s+ "CAMERA").
Proof.
  split; [reflexivity |].
  exact (proj2 (proj2 (permission_name_is_last_component
                         (Element "uses-permission"
                                  [(android_name, "android.permission.CAMERA")] [])))
               "android.permission.CAMERA" eq_refl).
Defined.

(** X15.  [check_common] warns about environment files unless every file
    the pattern [.env*] finds at the root is one of the two documented
    templates, [.env.example] and [.env.template]; a template is never
    among the names its warning lists. *)
Theorem environment_templates_are_not_reported :
  forall env,
    (fst (env_file_checks env) = []
     <-> Forall (fun f => is_template f = true) (glob env [] ".env*"))
    /\ forall f,
        In f (glob env [] ".env*") ->
        is_template f = false ->
        exists listed,
          In (name f) listed
          /\ Forall (fun n => n <> ".env.example" /\ n <> ".env.template") listed
          /\ fst (env_file_checks env)
             = [ {| platform := "common"; category := "security";
                    message := "Environment files found: " +s+ Text.join ", " listed
                               +s+ ". Ensure these are in .gitignore and not bundled in release builds.";
                    severity := "warning" |} ].
Proof.
  intro env. unfold env_file_checks.
  assert (Hsame : forall f,
             (negb (String.eqb (name f) ".env.example")
              && negb (String.eqb (name f) ".env.template"))
             = negb (is_template f)).
  { intro f. unfold is_template.
    destruct (String.eqb (name f) ".env.example"),
      (String.eqb (name f) ".env.template"); reflexivity. }
  rewrite (filter_ext _ _ Hsame).
  split.
  - induction (glob env [] ".env*") as [| f l IH]; cbn [filter].
    + split; [constructor | reflexivity].
    + destruct (is_template f) eqn:Ht; cbn [negb].
      * split.
        -- intro H. constructor; [exact Ht | exact (proj1 IH H)].
        -- intro H. inversion H; subst. apply (proj2 IH). assumption.
      * split; [discriminate |].
        intro H. inversion H as [| ? ? Hf _]; subst. congruence.
  - intros f Hin Ht.
    exists (map name (filter (fun f => negb (is_template f)) (glob env [] ".env*"))).
    assert (Hkept : In f (filter (fun f => negb (is_template f)) (glob env [] ".env*"))).
    { apply filter_In. split; [exact Hin | rewrite Ht; reflexivity]. }
    split; [apply in_map; exact Hkept |].
    split.
    + apply Forall_forall. intros n Hn.
      apply in_map_iff in Hn. destruct Hn as (g & <- & Hg).
      apply filter_In in Hg. destruct Hg as [_ Hg].
      unfold is_template in Hg.
      destruct (String.eqb_spec (name g) ".env.example") as [He | He];
        [discriminate Hg |].
      destruct (String.eqb_spec (name g) ".env.template") as [He' | He'];
        [discriminate Hg |].
      split; assumption.
    + destruct (filter (fun f => negb (is_template f)) (glob env [] ".env*"));
        [contradiction | reflexivity].
Qed.

Lemma environment_templates_are_not_reported_witness :
  fst (env_file_checks
         (Sample.with_glob ".env*" [[".env.example"]; [".env.template"]] Sample.bare))
  = [].
Proof.
  apply (proj1 (environment_templates_are_not_reported
                  (Sample.with_glob ".env*" [[".env.example"]; [".env.template"]]
                                    Sample.bare))).
  repeat constructor.
Defined.

Lemma has_key_dict_set :
  forall k k' v d,
    has_key k (dict_set k' v d) = String.eqb k k' || has_key k d.
Proof.
  intros k k' v d. unfold has_key.
  induction d as [| [k0 v0] d IH]; cbn [dict_set lookup].
  - destruct (String.eqb k k'); reflexivity.
  - destruct (String.eqb_spec k' k0) as [-> | Hne]; cbn [lookup].
    + destruct (String.eqb k k0); reflexivity.
    + destruct (String.eqb_spec k k0) as [-> | Hk].
      * destruct (String.eqb k0 k'); reflexivity.
      * exact IH.
Qed.

Lemma has_key_cons :
  forall k k' v d,
    has_key k ((k', v) :: d) = String.eqb k k' || has_key k d.
Proof.
  intros k k' v d. unfold has_key. cbn [lookup].
  destruct (String.eqb k k'); reflexivity.
Qed.

Lemma has_key_dict_update :
  forall k extra d,
    has_key k (dict_update d extra) = has_key k d || has_key k extra.
Proof.
  intros k extra. unfold dict_update.
  induction extra as [| [k' v] extra IH]; intro d; cbn [fold_left fst snd].
  - rewrite orb_false_r. reflexivity.
  - rewrite IH, has_key_dict_set, has_key_cons.
    destruct (String.eqb k k'), (has_key k d), (has_key k extra); reflexivity.
Qed.

(** X16.  For a package descriptor that is a JSON object whose
    [dependencies] and [devDependencies], where present, are objects, the
    classifier's probe answers yes exactly when [react-native] or [expo] is
    a key of either: a development dependency counts as much as a regular
    one. *)
Theorem development_dependencies_count :
  forall env text d deps dev_deps,
    file env ["package.json"] = Readable text ->
    json_parse env text = Some (VDict d) ->
    get (VDict d) "dependencies" (VDict []) = Ok (VDict deps) ->
    get (VDict d) "devDependencies" (VDict []) = Ok (VDict dev_deps) ->
    package_is_react_native env
    = Ok (has_key "react-native" deps || has_key "react-native" dev_deps
          || has_key "expo" deps || has_key "expo" dev_deps).
Proof.
  intros env text d deps dev_deps Hf Hj Hd Hv.
  unfold package_is_react_native, read_text, json_loads.
  rewrite Hf. cbn [rbind]. rewrite Hj. cbn [rbind].
  rewrite Hd. cbn [rbind as_mapping]. rewrite Hv. cbn [rbind as_mapping].
  rewrite !has_key_dict_update.
  destruct (has_key "react-native" deps), (has_key "react-native" dev_deps),
    (has_key "expo" deps), (has_key "expo" dev_deps); reflexivity.
Qed.

Lemma development_dependencies_count_witness :
  package_is_react_native
    (Sample.with_json "{dev}" (VDict [("devDependencies", VDict [("expo", VStr "51")])])
       (Sample.with_file ["package.json"] (Readable "{dev}") Sample.bare))
  = Ok true.
Proof.
  exact (development_dependencies_count
           (Sample.with_json "{dev}"
              (VDict [("devDependencies", VDict [("expo", VStr "51")])])
              (Sample.with_file ["package.json"] (Readable "{dev}") Sample.bare))
           "{dev}" [("devDependencies", VDict [("expo", VStr "51")])]
           [] [("expo", VStr "51")] eq_refl eq_refl eq_refl eq_refl).
Defined.

End Names.

(** ** The version line of the Flutter manifest *)
Section PubspecVersion.
Import Py Fs Check Scanner.

Lemma search_group_bol_found :
  forall pre grp post s bol g,
    Re.search_group_bol bol pre grp post s = Some g ->
    exists i, Re.group_here pre grp post (Text.drop i s) = Some g.
Proof.
  intros pre grp post s.
  induction s as [| c s IH]; intros bol g; cbn [Re.search_group_bol].
  - destruct bol; [| discriminate].
    destruct (Re.group_here pre grp post EmptyString) eqn:Hh; [| discriminate].
    intro H. injection H as ->. exists 0. exact Hh.
  - destruct (if bol then Re.group_here pre grp post (String c s) else None) eqn:Hh.
    + intro H. injection H as ->. exists 0.
      destruct bol; [exact Hh | discriminate Hh].
    + intro H. destruct (IH _ _ H) as (i & Hi). exists (S i). exact Hi.
Qed.

Lemma ends_lit_prefix :
  forall w s n, In n (Re.ends (Re.lit w) s) -> String.prefix w s = true.
Proof.
  induction w as [| c w IH]; intros s n Hin.
  - destruct s; reflexivity.
  - cbn [Re.lit Re.ends] in Hin. apply in_flat_map in Hin.
    destruct Hin as (k & Hk & Hin).
    destruct s as [| c' s]; [contradiction |].
    unfold Re.chr in Hk. cbn [Re.ends] in Hk.
    destruct (Ascii.eqb_spec c c') as [<- | _]; [| contradiction].
    destruct Hk as [<- | []].
    apply in_map_iff in Hin. destruct Hin as (m & _ & Hm).
    cbn [Text.drop] in Hm. cbn [String.prefix].
    destruct (ascii_dec c c); [| contradiction].
    exact (IH s m Hm).
Qed.

Lemma contains_from_suffix :
  forall w i s, String.prefix w (Text.drop i s) = true -> Text.contains w s = true.
Proof.
  intros w i. induction i as [| i IH]; intros s H.
  - cbn [Text.drop] in H. destruct s; cbn [Text.contains]; rewrite H; reflexivity.
  - destruct s as [| c s].
    + cbn [Text.drop] in H. cbn [Text.contains]. rewrite H. reflexivity.
    + cbn [Text.drop] in H. cbn [Text.contains].
      destruct (String.prefix w (String c s)); [reflexivity |].
      exact (IH s H).
Qed.

Lemma version_line_needs_its_key :
  forall content g,
    search_pubspec_version content = Some g ->
    Text.contains "version:" content = true.
Proof.
  intros content g H. unfold search_pubspec_version in H.
  destruct (search_group_bol_found _ _ _ _ _ _ H) as (i & Hi).
  destruct (group_here_found _ _ _ _ _ Hi) as (n1 & n2 & Hn1 & _).
  cbn [Re.ends] in Hn1. apply in_flat_map in Hn1.
  destruct Hn1 as (k & Hk & _).
  exact (contains_from_suffix "version:" i content (ends_lit_prefix _ _ _ Hk)).
Qed.

(** X17.  A Flutter manifest in which the text [version:] does not occur
    at all gets the error for the missing version as the first finding of
    [check_flutter]. *)
Theorem manifest_without_version_key_is_an_error :
  forall env content,
    exists_ env ["pubspec.yaml"] = true ->
    file env ["pubspec.yaml"] = Readable content ->
    Text.contains "version:" content = false ->
    exists others,
      check_flutter env
      = Ok ({| platform := "flutter"; category := "version";
               message := "No version found in pubspec.yaml"; severity := "error" |}
            :: others).
Proof.
  intros env content Hex Hf Hno.
  assert (Hnone : search_pubspec_version content = None).
  { destruct (search_pubspec_version content) as [g |] eqn:Hs; [| reflexivity].
    rewrite (version_line_needs_its_key content g Hs) in Hno. discriminate Hno. }
  unfold check_flutter, flutter_checks, pubspec_checks, read_text.
  rewrite Hex, Hf. unfold when. rewrite bind_lift_ok, Hnone.
  destruct (Text.contains "sdk:" content);
    destruct (exists_ env ["ios"; "Podfile.lock"]) eqn:Hl;
    destruct (exists_ env ["ios"]) eqn:Hi;
    unfold podfile_lock_check; rewrite Hl, ?Hi;
    eexists; reflexivity.
Qed.

Lemma manifest_without_version_key_is_an_error_witness :
  exists others,
    check_flutter
      (Sample.with_file ["pubspec.yaml"] (Readable "name: demo") Sample.bare)
    = Ok ({| platform := "flutter"; category := "version";
             message := "No version found in pubspec.yaml"; severity := "error" |}
          :: others).
Proof.
  exact (manifest_without_version_key_is_an_error
           (Sample.with_file ["pubspec.yaml"] (Readable "name: demo") Sample.bare)
           "name: demo" eq_refl eq_refl eq_refl).
Defined.

End PubspecVersion.

Section PubspecVersionFound.
Import Py Fs Check Scanner.

Lemma ends_lit_exact :
  forall w t, Re.ends (Re.lit w) (w +s+ t) = [String.length w].
Proof.
  induction w as [| c w IH]; intro t; [reflexivity |].
  cbn [Re.lit Re.ends String.append]. unfold Re.chr at 1. cbn [Re.ends].
  rewrite Ascii.eqb_refl. cbn [flat_map Text.drop].
  rewrite IH. reflexivity.
Qed.

Lemma ends_star_offers_nothing :
  forall step fuel s, In 0 (Re.ends_star step fuel s).
Proof.
  intros step [| fuel] s; cbn [Re.ends_star].
  - left. reflexivity.
  - apply in_or_app. right. left. reflexivity.
Qed.

Lemma ends_star_class_reaches :
  forall p v rest fuel,
    forallb p (list_ascii_of_string v) = true ->
    String.length v <= fuel ->
    In (String.length v) (Re.ends_star (Re.ends (Re.Chr p)) fuel (v +s+ rest)).
Proof.
  intros p v. induction v as [| c v IH]; intros rest fuel Hall Hlen.
  - apply ends_star_offers_nothing.
  - cbn [list_ascii_of_string forallb] in Hall.
    apply andb_prop in Hall. destruct Hall as [Hc Hv].
    destruct fuel as [| fuel]; [simpl in Hlen; lia |].
    cbn [Re.ends_star String.append Re.ends]. rewrite Hc.
    cbn [flat_map Text.drop]. apply in_or_app. left.
    rewrite app_nil_r. cbn [String.length].
    apply (in_map (Nat.add 1)). apply IH; [exact Hv | simpl in Hlen; lia].
Qed.

Lemma length_append :
  forall a b, String.length (a +s+ b) = String.length a + String.length b.
Proof.
  induction a as [| c a IH]; intro b; simpl; [reflexivity |].
  rewrite IH. reflexivity.
Qed.

Lemma ends_plus_class_reaches :
  forall p v rest,
    v <> EmptyString ->
    forallb p (list_ascii_of_string v) = true ->
    In (String.length v) (Re.ends (Re.plus (Re.Chr p)) (v +s+ rest)).
Proof.
  intros p [| c v] rest Hne Hall; [contradiction |].
  cbn [list_ascii_of_string forallb] in Hall.
  apply andb_prop in Hall. destruct Hall as [Hc Hv].
  unfold Re.plus. cbn [Re.ends String.append]. rewrite Hc.
  cbn [flat_map Text.drop]. rewrite app_nil_r. cbn [String.length].
  apply (in_map (Nat.add 1)).
  apply ends_star_class_reaches; [exact Hv |].
  rewrite length_append. lia.
Qed.

Lemma drop_append :
  forall a b, Text.drop (String.length a) (a +s+ b) = b.
Proof.
  induction a as [| c a IH]; intro b; [destruct b; reflexivity | exact (IH b)].
Qed.

Lemma first_some_finds :
  forall (A B : Type) (f : A -> option B) (l : list A) (a : A) (b : B),
    In a l -> f a = Some b -> exists b', Re.first_some f l = Some b'.
Proof.
  intros A B f l a b Hin Hfa.
  induction l as [| x l IH]; [contradiction |].
  cbn [Re.first_some fold_right].
  destruct (f x) as [bx |] eqn:Hfx; [exists bx; reflexivity |].
  destruct Hin as [-> | Hin]; [congruence |].
  exact (IH Hin).
Qed.

Lemma no_newline_is_all_dots :
  forall v,
    has_newline v = false ->
    forallb (fun x => negb (Nat.eqb (Text.code x) 10)) (list_ascii_of_string v) = true.
Proof.
  intro v. unfold has_newline.
  induction (list_ascii_of_string v) as [| c l IH]; [reflexivity |].
  cbn [existsb forallb]. intro H. apply orb_false_elim in H.
  destruct H as [Hc Hl]. rewrite Hc, (IH Hl). reflexivity.
Qed.

Lemma version_line_matches_here :
  forall value after,
    value <> EmptyString ->
    has_newline value = false ->
    starts_line after ->
    exists g,
      Re.group_here (Re.Cat (Re.lit "version:") (Re.Star Re.space))
                    (Re.plus Re.dot) Re.Eol
                    ("version:" +s+ value +s+ after)
      = Some g.
Proof.
  intros value after Hne Hnl Hafter. unfold Re.group_here.
  destruct (first_some_finds _ _
              (fun n2 =>
                 if Re.matches_here Re.Eol
                      (Text.drop (8 + n2) ("version:" +s+ value +s+ after))
                 then Some (Text.take n2 (Text.drop 8 ("version:" +s+ value +s+ after)))
                 else None)
              (Re.ends (Re.plus Re.dot) (Text.drop 8 ("version:" +s+ value +s+ after)))
              (String.length value)
              (Text.take (String.length value) (value +s+ after)))
    as (g & Hg).
  - change (Text.drop 8 ("version:" +s+ value +s+ after)) with (value +s+ after).
    apply ends_plus_class_reaches; [exact Hne |].
    exact (no_newline_is_all_dots value Hnl).
  - change (Text.drop (8 + String.length value) ("version:" +s+ value +s+ after))
      with (Text.drop (String.length value) (value +s+ after)).
    rewrite drop_append.
    destruct Hafter as [-> | (later & ->)]; reflexivity.
  - apply (first_some_finds _ _ _ _ 8 g); [| exact Hg].
    cbn [Re.ends]. rewrite (ends_lit_exact "version:" (value +s+ after)).
    cbn [flat_map String.length]. rewrite app_nil_r.
    change 8 with (8 + 0). apply in_map. apply ends_star_offers_nothing.
Qed.

Lemma line_start_is_tried :
  forall pre grp post before t bol,
    (before = EmptyString -> bol = true) ->
    ends_line before ->
    (exists g, Re.group_here pre grp post t = Some g) ->
    exists g, Re.search_group_bol bol pre grp post (before +s+ t) = Some g.
Proof.
  intros pre grp post before t.
  induction before as [| c before IH]; intros bol Hbol Hline (g & Hg).
  - rewrite (Hbol eq_refl). cbn [String.append].
    destruct t; cbn [Re.search_group_bol]; rewrite Hg; exists g; reflexivity.
  - cbn [String.append Re.search_group_bol].
    destruct (if bol then Re.group_here pre grp post (String c (before +s+ t))
              else None) as [g' |]; [exists g'; reflexivity |].
    apply IH; [| | exists g; exact Hg].
    + intros ->. destruct Hline as [H | (earlier & H)]; [discriminate H |].
      destruct earlier as [| c' earlier].
      * injection H as ->. reflexivity.
      * injection H as _ H. destruct earlier; discriminate H.
    + destruct before as [| c1 before]; [left; reflexivity |].
      right. destruct Hline as [H | (earlier & H)]; [discriminate H |].
      destruct earlier as [| c' earlier]; [discriminate H |].
      injection H as _ H. exists earlier. exact H.
Qed.

(** X18.  A Flutter manifest with a line that begins with [version:] and
    goes on, up to the end of the line, with at least one character gets a
    pass for its version as the first finding of [check_flutter], and not
    the error for a missing version. *)
Theorem version_line_is_recognised :
  forall env before value after,
    exists_ env ["pubspec.yaml"] = true ->
    file env ["pubspec.yaml"]
    = Readable (before +s+ "version:" +s+ value +s+ after) ->
    ends_line before ->
    value <> EmptyString ->
    has_newline value = false ->
    starts_line after ->
    exists g others,
      check_flutter env
      = Ok ({| platform := "flutter"; category := "version";
               message := "Version in pubspec.yaml: " +s+ Text.strip g;
               severity := "pass" |}
            :: others).
Proof.
  intros env before value after Hex Hf Hbefore Hne Hnl Hafter.
  destruct (line_start_is_tried
              (Re.Cat (Re.lit "version:") (Re.Star Re.space)) (Re.plus Re.dot) Re.Eol
              before ("version:" +s+ value +s+ after) true
              (fun _ => eq_refl) Hbefore
              (version_line_matches_here value after Hne Hnl Hafter))
    as (g & Hg).
  exists g.
  unfold check_flutter, flutter_checks, pubspec_checks, read_text.
  rewrite Hex, Hf. unfold when. rewrite bind_lift_ok.
  unfold search_pubspec_version. rewrite Hg.
  destruct (Text.contains "sdk:" _);
    destruct (exists_ env ["ios"; "Podfile.lock"]) eqn:Hl;
    destruct (exists_ env ["ios"]) eqn:Hi;
    unfold podfile_lock_check; rewrite Hl, ?Hi;
    eexists; reflexivity.
Qed.

Lemma version_line_is_recognised_witness :
  exists g others,
    check_flutter Sample.flutter_app
    = Ok ({| platform := "flutter"; category := "version";
             message := "Version in pubspec.yaml: " +s+ Text.strip g;
             severity := "pass" |}
          :: others).
Proof.
  apply (version_line_is_recognised Sample.flutter_app
           ("name: demo" +s+ Sample.newline) " 1.0.0+1"
           (Sample.newline +s+ "environment:" +s+ Sample.newline
            +s+ "  sdk: ^3.0.0" +s+ Sample.newline)).
  - reflexivity.
  - reflexivity.
  - right. exists "name: demo". reflexivity.
  - discriminate.
  - reflexivity.
  - right. eexists. reflexivity.
Defined.

End PubspecVersionFound.

(** ** Security findings of the Android check; exceptions of the classifier *)
Section SecurityFindings.
Import Py Fs Check Scanner.

Lemma filter_fst_bind :
  forall (q : Finding -> bool) (A B : Type) (m : M A) (k : A -> M B),
    filter q (fst (bind m k))
    = filter q (fst m)
      ++ match snd m with
         | Ok a => filter q (fst (k a))
         | Raise _ => []
         end.
Proof.
  intros q A B [out [a | e]] k; unfold bind; cbn [fst snd].
  - destruct (k a) as [out' r]. cbn [fst]. apply filter_app.
  - rewrite app_nil_r. reflexivity.
Qed.

Lemma filter_rejects_all :
  forall (q : Finding -> bool) (l : list Finding),
    Forall (fun f => q f = false) l -> filter q l = [].
Proof.
  intros q l Hl. induction Hl as [| f l Hf _ IH]; cbn [filter]; [reflexivity |].
  rewrite Hf. exact IH.
Qed.

Lemma filter_keeps_all :
  forall (q : Finding -> bool) (l : list Finding),
    Forall (fun f => q f = true) l -> filter q l = l.
Proof.
  intros q l Hl. induction Hl as [| f l Hf _ IH]; cbn [filter]; [reflexivity |].
  rewrite Hf, IH. reflexivity.
Qed.

Ltac plain_leaf := apply emits_emit; reflexivity.

Lemma android_blocks_emit_no_security :
  forall env,
    emits (fun f => is_security f = false) (manifest_block env)
    /\ emits (fun f => is_security f = false) (gradle_block env)
    /\ emits (fun f => is_security f = false) (android_icon_block env).
Proof.
  intro env. split; [| split].
  - unfold manifest_block, manifest_checks. emits_with plain_leaf.
  - unfold gradle_block, gradle_checks, target_sdk_check. emits_with plain_leaf.
  - unfold android_icon_block. emits_with plain_leaf.
Qed.

(** X19.  In what [check_android] returns, the findings of category
    [security] are exactly those of the secret scan over the Kotlin and Java
    files, in scan order: at most one per file, and never more than 200. *)
Theorem android_security_findings_are_the_scan :
  forall env fw issues,
    check_android env fw = Ok issues ->
    filter is_security issues
    = fst (secret_scan env "android" (secret_patterns "=") (java_kotlin_files env))
    /\ List.length (filter is_security issues) <= 200
    /\ List.length (filter is_security issues) <= List.length (java_kotlin_files env).
Proof.
  intros env fw issues H. unfold check_android in H.
  apply run_returns in H. destruct H as [Hret <-].
  destruct (android_blocks_emit_no_security env) as (Hm & Hg & Hi).
  assert (Hscan : filter is_security (fst (android_checks env))
                  = fst (secret_scan env "android" (secret_patterns "=")
                                     (java_kotlin_files env))).
  { unfold android_checks in *.
    rewrite !snd_bind in Hret. rewrite !filter_fst_bind.
    rewrite (filter_rejects_all _ _ Hm), (filter_rejects_all _ _ Hg),
      (filter_rejects_all _ _ Hi).
    destruct (snd (manifest_block env)) as [[] | e]; [| discriminate Hret].
    destruct (snd (gradle_block env)) as [[] | e]; [| discriminate Hret].
    destruct (snd (android_icon_block env)) as [[] | e]; [| discriminate Hret].
    cbn [app]. apply filter_keeps_all.
    apply (emits_scan_warnings (fun f => is_security f = true)).
    reflexivity. }
  rewrite Hscan. split; [reflexivity |].
  unfold secret_scan. rewrite scan_files_flat_map. cbn [fst].
  assert (Hshort : List.length
                     (flat_map (fun f => fst (scan_file env "android" (secret_patterns "=") f))
                               (firstn 200 (java_kotlin_files env)))
                   <= List.length (firstn 200 (java_kotlin_files env))).
  { apply flat_map_short. intro f. apply scan_file_returns. }
  rewrite length_firstn in Hshort. split; lia.
Qed.

Lemma android_security_findings_are_the_scan_witness :
  exists issues,
    check_android (Sample.kotlin_app Sample.two_secrets) "native" = Ok issues
    /\ List.length (filter is_security issues) <= 1.
Proof.
  eexists. split; [vm_compute; reflexivity |].
  exact (proj2 (proj2 (android_security_findings_are_the_scan
                         (Sample.kotlin_app Sample.two_secrets) "native" _ eq_refl))).
Defined.

(** X20.  The classifier lets the shape of a package descriptor through.
    When the Flutter markers are not both there and [package.json] exists
    and parses, JSON that is not an object makes [detect_project_type]
    raise [AttributeError], and an object whose [dependencies] is neither
    absent nor an object makes it raise [TypeError]: the handler catches
    JSON and read errors only. *)
Theorem classifier_lets_descriptor_shape_through :
  forall env text doc,
    (exists_ env ["pubspec.yaml"] && exists_ env ["lib"]) = false ->
    exists_ env ["package.json"] = true ->
    file env ["package.json"] = Readable text ->
    json_parse env text = Some doc ->
    (is_dict doc = false -> detect_project_type env = Raise AttributeError)
    /\ (forall d deps,
           doc = VDict d ->
           lookup "dependencies" d = Some deps ->
           is_dict deps = false ->
           detect_project_type env = Raise TypeError).
Proof.
  intros env text doc Hflutter Hex Hf Hj.
  unfold detect_project_type. rewrite Hflutter, Hex.
  unfold package_is_react_native, read_text, json_loads.
  rewrite Hf. cbn [rbind]. rewrite Hj. cbn [rbind].
  split.
  - intro Hdoc. destruct doc; try discriminate Hdoc; reflexivity.
  - intros d deps -> Hdeps Hshape. cbn [get rbind]. rewrite Hdeps.
    destruct deps; try discriminate Hshape; reflexivity.
Qed.

Lemma classifier_lets_descriptor_shape_through_witness :
  detect_project_type Sample.array_package = Raise AttributeError
  /\ detect_project_type Sample.null_dependencies = Raise TypeError.
Proof.
  split.
  - exact (proj1 (classifier_lets_descriptor_shape_through
                    Sample.array_package "[]" (VList [])
                    eq_refl eq_refl eq_refl eq_refl) eq_refl).
  - exact (proj2 (classifier_lets_descriptor_shape_through
                    Sample.null_dependencies "{null}"
                    (VDict [("dependencies", VNone)])
                    eq_refl eq_refl eq_refl eq_refl)
                 [("dependencies", VNone)] VNone eq_refl eq_refl eq_refl).
Defined.

End SecurityFindings.

(** ** The React Native check; findings and the platforms detected *)
Section ReactNative.
Import Py Fs Check Scanner.

Lemma found_debug_in_dict :
  forall d pkgs, exists found, found_debug_in (VDict d) pkgs = Ok found.
Proof.
  intros d pkgs. induction pkgs as [| p rest (found & IH)].
  - exists []. reflexivity.
  - cbn [found_debug_in contains_str rbind]. rewrite IH. cbn [rbind].
    eexists. reflexivity.
Qed.


Lemma snd_bind_unit :
  forall (B : Type) (m : M unit) (k : unit -> M B),
    snd m = Ok tt -> snd (bind m k) = snd (k tt).
Proof. intros B m k Hm. rewrite snd_bind, Hm. reflexivity. Qed.

Lemma when_returns :
  forall b m, snd m = Ok tt -> snd (when b m) = Ok tt.
Proof. intros [|] m Hm; [exact Hm | reflexivity]. Qed.

Lemma expo_checks_return :
  forall env d, snd (expo_checks env (VDict d)) = Ok tt.
Proof.
  intros env d. unfold expo_checks. cbn [get]. rewrite bind_lift_ok.
  erewrite snd_bind_unit; [| reflexivity].
  destruct (exists_ env ["app.json"] || exists_ env ["app.config.js"]
            || exists_ env ["app.config.ts"]); reflexivity.
Qed.

Lemma package_json_checks_on_objects :
  forall env text d deps,
    file env ["package.json"] = Readable text ->
    json_parse env text = Some (VDict d) ->
    get (VDict d) "dependencies" (VDict []) = Ok (VDict deps) ->
    snd (package_json_checks env) = Ok tt.
Proof.
  intros env text d deps Hf Hj Hd.
  unfold package_json_checks, read_text, json_loads.
  rewrite Hf, bind_lift_ok, Hj, bind_lift_ok, Hd, bind_lift_ok.
  cbn [get]. rewrite !bind_lift_ok.
  erewrite snd_bind_unit; [| apply when_returns; reflexivity].
  cbn [contains_str]. rewrite bind_lift_ok.
  erewrite snd_bind_unit; [| apply when_returns; apply expo_checks_return].
  destruct (found_debug_in_dict deps debug_pkgs) as (found & ->).
  rewrite bind_lift_ok.
  erewrite snd_bind_unit; [| apply when_returns; reflexivity].
  apply when_returns. reflexivity.
Qed.

(** X21.  [check_react_native] lets the shape of the package descriptor
    through.  When [package.json] exists and parses, JSON that is not an
    object, or an object whose [dependencies] is neither absent nor an
    object, makes the check raise [AttributeError]; a descriptor that is
    not decodable text makes it raise [UnicodeDecodeError].  The handler
    catches JSON and read errors only. *)
Theorem react_native_check_lets_descriptor_shape_through :
  forall env,
    exists_ env ["package.json"] = true ->
    (forall lossy,
        file env ["package.json"] = Undecodable lossy ->
        check_react_native env = Raise UnicodeDecodeError)
    /\ (forall text doc,
           file env ["package.json"] = Readable text ->
           json_parse env text = Some doc ->
           is_dict doc = false
           \/ (exists deps,
                  get doc "dependencies" (VDict []) = Ok deps
                  /\ is_dict deps = false) ->
           check_react_native env = Raise AttributeError).
Proof.
  intros env Hex.
  assert (Hraise : forall e,
             snd (package_json_checks env) = Raise e ->
             caught_json_os e = false ->
             check_react_native env = Raise e).
  { intros e Hp Hc. unfold check_react_native. apply run_raises.
    unfold react_native_checks.
    rewrite snd_bind, snd_when, Hex, snd_try, Hp, Hc. reflexivity. }
  split.
  - intros lossy Hf. apply Hraise; [| reflexivity].
    unfold package_json_checks, read_text. rewrite Hf, snd_bind_lift.
    reflexivity.
  - intros text doc Hf Hj Hshape. apply Hraise; [| reflexivity].
    unfold package_json_checks, read_text, json_loads.
    rewrite Hf, bind_lift_ok, Hj, bind_lift_ok.
    destruct Hshape as [Hdoc | (deps & Hd & Hdeps)].
    + destruct doc; try discriminate Hdoc; rewrite snd_bind_lift; reflexivity.
    + rewrite Hd, bind_lift_ok.
      destruct doc; try discriminate Hd.
      cbn [get]. rewrite bind_lift_ok.
      destruct deps; try discriminate Hdeps; rewrite snd_bind_lift; reflexivity.
Qed.

Lemma react_native_check_lets_descriptor_shape_through_witness :
  check_react_native Sample.array_package = Raise AttributeError.
Proof.
  apply (proj2 (react_native_check_lets_descriptor_shape_through
                  Sample.array_package eq_refl) "[]" (VList []) eq_refl eq_refl).
  left. reflexivity.
Defined.

(** X22.  A report holds findings of a platform or framework only when the
    classifier detected it: the project type of the report is what
    [detect_project_type] returned, a finding tagged [ios] or [android]
    implies that platform among those it returned, and one tagged
    [flutter] or [react-native] implies that framework. *)
Theorem findings_imply_detection :
  forall argv env r f,
    main argv env = Done r ->
    In f (issues r) ->
    exists p,
      detect_project_type env = Ok p
      /\ project_type r = p
      /\ (platform f = "ios" -> mem "ios" (platforms p) = true)
      /\ (platform f = "android" -> mem "android" (platforms p) = true)
      /\ (platform f = "flutter" -> framework p = "flutter")
      /\ (platform f = "react-native" -> framework p = "react-native").
Proof.
  intros argv env r f Hmain Hin.
  apply main_done in Hmain.
  destruct (scan_inversion env r Hmain)
    as (p & common & specific & ios & android & Hdetect & Hc & Hs & Hi & Ha & Hp
        & Hall & _).
  exists p. split; [exact Hdetect |]. split; [exact Hp |].
  clear Hdetect. subst p. rewrite Hall in Hin.
  pose proof (run_emits _ _ _ (common_findings_are_tagged env) Hc) as Tc.
  unfold framework_checks in Hs. unfold platform_checks in Hi, Ha.
  rewrite Forall_forall in Tc.
  assert (Ts : In f specific ->
               platform f = framework (project_type r)
               /\ (framework (project_type r) = "flutter"
                   \/ framework (project_type r) = "react-native")).
  { intro Hf.
    destruct (String.eqb_spec (framework (project_type r)) "flutter") as [He | _].
    - pose proof (run_emits _ _ _ (flutter_findings_are_tagged env) Hs) as T.
      rewrite Forall_forall in T. rewrite He. split; [exact (T f Hf) | left; reflexivity].
    - destruct (String.eqb_spec (framework (project_type r)) "react-native")
        as [He | _].
      + pose proof (run_emits _ _ _ (react_native_findings_are_tagged env) Hs) as T.
        rewrite Forall_forall in T. rewrite He.
        split; [exact (T f Hf) | right; reflexivity].
      + injection Hs as <-. contradiction. }
  assert (Ti : In f ios ->
               platform f = "ios" /\ mem "ios" (platforms (project_type r)) = true).
  { intro Hf. destruct (mem "ios" (platforms (project_type r))).
    - pose proof (run_emits _ _ _ (ios_findings_are_tagged env) Hi) as T.
      rewrite Forall_forall in T. split; [exact (T f Hf) | reflexivity].
    - injection Hi as <-. contradiction. }
  assert (Ta : In f android ->
               platform f = "android"
               /\ mem "android" (platforms (project_type r)) = true).
  { intro Hf. destruct (mem "android" (platforms (project_type r))).
    - pose proof (run_emits _ _ _ (android_findings_are_tagged env) Ha) as T.
      rewrite Forall_forall in T. split; [exact (T f Hf) | reflexivity].
    - injection Ha as <-. contradiction. }
  apply in_app_or in Hin. destruct Hin as [Hin | Hin].
  - pose proof (Tc f Hin) as T. unfold tagged in T.
    repeat split; intro H; rewrite H in T; discriminate T.
  - apply in_app_or in Hin. destruct Hin as [Hin | Hin].
    + destruct (Ts Hin) as [T [Hfw | Hfw]]; rewrite Hfw in T;
        repeat split; intro H; rewrite H in T;
        first [discriminate T | exact Hfw].
    + apply in_app_or in Hin. destruct Hin as [Hin | Hin].
      * destruct (Ti Hin) as [T Hm].
        repeat split; intro H; rewrite H in T;
          first [discriminate T | exact Hm].
      * destruct (Ta Hin) as [T Hm].
        repeat split; intro H; rewrite H in T;
          first [discriminate T | exact Hm].
Qed.

Lemma findings_imply_detection_witness :
  exists r,
    main ["check_project.py"; "/work/app"] Sample.flutter_app = Done r
    /\ In {| platform := "ios"; category := "config";
             message := "Info.plist not found"; severity := "error" |} (issues r)
    /\ exists p,
        detect_project_type Sample.flutter_app = Ok p
        /\ mem "ios" (platforms p) = true.
Proof.
  eexists. split; [vm_compute; reflexivity |].
  assert (Hin : In {| platform := "ios"; category := "config";
                      message := "Info.plist not found"; severity := "error" |}
                   (issues
                      (match main ["check_project.py"; "/work/app"] Sample.flutter_app with
                       | Done r => r
                       | _ => {| project_root := EmptyString;
                                 project_type := {| framework := EmptyString;
                                                    platforms := [] |};
                                 report_summary := {| errors := 0; warnings := 0;
                                                      passes := 0 |};
                                 issues := [] |}
                       end)))
    by (vm_compute; tauto).
  split; [exact Hin |].
  destruct (findings_imply_detection
              ["check_project.py"; "/work/app"] Sample.flutter_app _ _
              eq_refl Hin) as (p & Hdetect & _ & Hios & _).
  exists p. split; [exact Hdetect |]. exact (Hios eq_refl).
Defined.

End ReactNative.

(** ** The target SDK of the build descriptor *)
Section TargetSdk.
Import Py Fs Check Scanner.

Lemma filter_fst_try :
  forall (q : Finding -> bool) body handled handler,
    filter q (fst (try_except body handled handler))
    = filter q (fst body)
      ++ match snd body with
         | Ok _ => []
         | Raise e => if handled e then filter q (fst (handler e)) else []
         end.
Proof.
  intros q [out [a | e]] handled handler; unfold try_except; cbn [fst snd].
  - rewrite app_nil_r. reflexivity.
  - destruct (handled e).
    + destruct (handler e) as [out' r]. cbn [fst]. apply filter_app.
    + cbn [fst]. rewrite app_nil_r. reflexivity.
Qed.

Ltac target_leaf := apply emits_emit; reflexivity.

Lemma other_blocks_emit_no_target_sdk :
  forall env,
    emits (fun f => is_target_sdk_finding f = false) (manifest_block env)
    /\ emits (fun f => is_target_sdk_finding f = false) (android_icon_block env)
    /\ emits (fun f => is_target_sdk_finding f = false)
             (secret_scan env "android" (secret_patterns "=") (java_kotlin_files env)).
Proof.
  intro env. split; [| split].
  - unfold manifest_block, manifest_checks. emits_with target_leaf.
  - unfold android_icon_block. emits_with target_leaf.
  - apply emits_scan_warnings. reflexivity.
Qed.

Lemma target_sdk_check_findings :
  forall content,
    fst (target_sdk_check content)
    = match search_sdk "targetSdk" content with
      | None => []
      | Some digits =>
          match Py.int digits with
          | Raise _ => []
          | Ok sdk_val =>
              [ if (sdk_val <? 34)%N
                then {| platform := "android"; category := "config";
                        message := "targetSdkVersion is " +s+ Text.str_of_N sdk_val
                                   +s+ ". Google Play requires 34+ for new apps.";
                        severity := "warning" |}
                else {| platform := "android"; category := "config";
                        message := "targetSdkVersion: " +s+ Text.str_of_N sdk_val;
                        severity := "pass" |} ]
          end
      end.
Proof.
  intro content. unfold target_sdk_check.
  destruct (search_sdk "targetSdk" content) as [digits |]; [| reflexivity].
  destruct (Py.int digits) as [sdk_val | e]; [| reflexivity].
  unfold bind, lift. destruct (sdk_val <? 34)%N; reflexivity.
Qed.

Lemma target_sdk_check_emits_its_own :
  forall content,
    emits (fun f => is_target_sdk_finding f = true) (target_sdk_check content).
Proof.
  intro content. unfold target_sdk_check. emits_with target_leaf.
Qed.

Lemma gradle_checks_target_sdk :
  forall content,
    filter is_target_sdk_finding (fst (gradle_checks content))
    = fst (target_sdk_check content).
Proof.
  intro content. unfold gradle_checks. rewrite !filter_fst_bind.
  rewrite (filter_keeps_all _ _ (target_sdk_check_emits_its_own content)).
  destruct (search_version_name content);
    destruct (search_number (Re.lit "versionCode") content);
    destruct (Text.contains "signingConfigs" content
              && Text.contains "release" content);
    destruct (Text.contains "minifyEnabled true" content
              || Text.contains "isMinifyEnabled = true" content);
    destruct (snd (target_sdk_check content)) as [[] | e];
    cbv [ok warn warn_as emit ret fst snd];
    cbn [filter is_target_sdk_finding category String.eqb Ascii.eqb Bool.eqb
         andb app];
    rewrite ?app_nil_r; reflexivity.
Qed.

Lemma gradle_block_target_sdk :
  forall env g content,
    find_build_gradle env = Some g ->
    file env g = Readable content ->
    filter is_target_sdk_finding (fst (gradle_block env))
    = fst (target_sdk_check content).
Proof.
  intros env g content Hg Hf. unfold gradle_block. rewrite Hg.
  rewrite filter_fst_bind. cbn [ok emit snd].
  rewrite filter_fst_try. unfold read_text. rewrite Hf.
  rewrite bind_lift_ok, gradle_checks_target_sdk.
  rewrite gradle_checks_result, target_sdk_check_result.
  assert (Hfound : filter is_target_sdk_finding
                     (fst (ok "android" "config" ("build.gradle found at " +s+ rel g)))
                   = []) by reflexivity.
  rewrite Hfound. cbn [app].
  destruct (search_sdk "targetSdk" content) as [digits |];
    [| apply app_nil_r].
  destruct (Py.int digits) as [sdk_val | e] eqn:Hint; [apply app_nil_r |].
  rewrite (int_raises_value_error _ _ Hint). apply app_nil_r.
Qed.

(** C7.  In what [check_android] returns for a build descriptor it read,
    the findings on the target SDK are: none when the pattern finds no
    target SDK; else one, on the number found, a warning below 34 and a
    pass from 34 on.  A descriptor reading [targetSdkVersion 34] passes and
    one reading [targetSdkVersion 33] is warned about.  The check does not
    always return: a number of more than 4300 digits is refused by [int],
    the handler around the descriptor catches [OSError] only, and
    [check_android] raises [ValueError] with no finding on the target
    SDK; the run then ends on that exception, without a report. *)
Theorem target_sdk_boundary :
  (forall env fw issues g content,
      check_android env fw = Ok issues ->
      find_build_gradle env = Some g ->
      file env g = Readable content ->
      filter is_target_sdk_finding issues
      = match search_sdk "targetSdk" content with
        | None => []
        | Some digits =>
            let sdk_val := Text.int_of_digits digits in
            [ if (sdk_val <? 34)%N
              then {| platform := "android"; category := "config";
                      message := "targetSdkVersion is " +s+ Text.str_of_N sdk_val
                                 +s+ ". Google Play requires 34+ for new apps.";
                      severity := "warning" |}
              else {| platform := "android"; category := "config";
                      message := "targetSdkVersion: " +s+ Text.str_of_N sdk_val;
                      severity := "pass" |} ]
        end)
  /\ (forall env fw g content digits,
         (find_android_manifest env = None
          \/ exists p, find_android_manifest env = Some p
                       /\ xml env p <> XUnreadable) ->
         find_build_gradle env = Some g ->
         file env g = Readable content ->
         search_sdk "targetSdk" content = Some digits ->
         4300 < String.length digits ->
         check_android env fw = Raise ValueError)
  /\ check_android (Tree.gradle_app "targetSdkVersion 34") "native"
     = Ok [ {| platform := "android"; category := "config";
               message := "AndroidManifest.xml not found"; severity := "error" |};
            {| platform := "android"; category := "config";
               message := "build.gradle found at app/build.gradle";
               severity := "pass" |};
            {| platform := "android"; category := "config";
               message := "targetSdkVersion: 34"; severity := "pass" |};
            {| platform := "android"; category := "build";
               message := "No release signing config found in build.gradle. Required for Play Store submission.";
               severity := "warning" |};
            {| platform := "android"; category := "build";
               message := "minifyEnabled is not set to true for release. Recommended for smaller APK and code obfuscation.";
               severity := "warning" |};
            {| platform := "android"; category := "assets";
               message := "Resource directory not found at expected path";
               severity := "warning" |} ]
  /\ (exists issues,
         check_android (Tree.gradle_app "targetSdkVersion 33") "native" = Ok issues
         /\ filter is_target_sdk_finding issues
            = [ {| platform := "android"; category := "config";
                   message := "targetSdkVersion is 33. Google Play requires 34+ for new apps.";
                   severity := "warning" |} ])
  /\ (exists issues,
         check_android (Tree.gradle_app "compileSdk 34") "native" = Ok issues
         /\ filter is_target_sdk_finding issues = [])
  /\ check_android (Tree.gradle_app Tree.long_target_sdk) "native"
     = Raise ValueError
  /\ main ["check_project.py"; "/work/app"] (Tree.gradle_app Tree.long_target_sdk)
     = Uncaught ValueError.
Proof.
  split; [| split; [| split; [| split; [| split; [| split]]]]].
  - intros env fw issues g content H Hg Hf.
    unfold check_android in H. apply run_returns in H. destruct H as [Hret <-].
    destruct (other_blocks_emit_no_target_sdk env) as (Hm & Hi & Hs).
    unfold android_checks in *.
    rewrite !snd_bind in Hret. rewrite !filter_fst_bind.
    rewrite (filter_rejects_all _ _ Hm), (filter_rejects_all _ _ Hi),
      (filter_rejects_all _ _ Hs), (gradle_block_target_sdk env g content Hg Hf).
    destruct (snd (manifest_block env)) as [[] | e]; [| discriminate Hret].
    rewrite gradle_block_result, Hg, Hf in Hret.
    rewrite gradle_block_result, Hg, Hf.
    rewrite target_sdk_check_result in *.
    rewrite target_sdk_check_findings.
    destruct (search_sdk "targetSdk" content) as [digits |].
    + unfold Py.int in *.
      destruct (Nat.ltb max_str_digits (String.length digits));
        [discriminate Hret |].
      destruct (snd (android_icon_block env)) as [[] | e]; reflexivity.
    + destruct (snd (android_icon_block env)) as [[] | e]; reflexivity.
  - intros env fw g content digits Hm Hg Hf Hsdk Hlong.
    unfold check_android. apply run_raises. unfold android_checks.
    rewrite !snd_bind, manifest_block_result, gradle_block_result, Hg, Hf.
    rewrite target_sdk_check_result, Hsdk. unfold Py.int, max_str_digits.
    apply Nat.ltb_lt in Hlong. rewrite Hlong.
    destruct Hm as [-> | (p & -> & Hx)]; [reflexivity |].
    destruct (xml env p); [exfalso; apply Hx; reflexivity | reflexivity | reflexivity].
  - vm_compute. reflexivity.
  - eexists. split; vm_compute; reflexivity.
  - eexists. split; vm_compute; reflexivity.
  - vm_compute. reflexivity.
  - vm_compute. reflexivity.
Qed.

Lemma target_sdk_boundary_witness :
  (exists issues,
      check_android (Tree.gradle_app "targetSdkVersion 34") "native" = Ok issues
      /\ filter is_target_sdk_finding issues
         = [ {| platform := "android"; category := "config";
                message := "targetSdkVersion: 34"; severity := "pass" |} ])
  /\ 4300 < String.length (Tree.nines 4301)
  /\ check_android (Tree.gradle_app Tree.long_target_sdk) "native" = Raise ValueError.
Proof.
  split; [| split].
  - eexists. split; [vm_compute; reflexivity |].
    exact (proj1 target_sdk_boundary (Tree.gradle_app "targetSdkVersion 34") "native" _
                 ["app"; "build.gradle"] "targetSdkVersion 34"
                 eq_refl eq_refl eq_refl).
  - apply Nat.ltb_lt. vm_compute. reflexivity.
  - apply (proj1 (proj2 target_sdk_boundary) (Tree.gradle_app Tree.long_target_sdk)
                 "native" ["app"; "build.gradle"] Tree.long_target_sdk (Tree.nines 4301)).
    + left. reflexivity.
    + reflexivity.
    + reflexivity.
    + vm_compute. reflexivity.
    + apply Nat.ltb_lt. vm_compute. reflexivity.
Defined.

End TargetSdk.
